(** * agentbay: a conductor for command-line coding agents in tmux panes

    A shallow embedding of the conductor's core:
    - [app/services/tmux.py]      the pane cursor of [TmuxController.capture_pane];
    - [app/services/runtime.py]   [WorkerRuntime]: sentinel framing and result
                                  finalization over the task, worker and flow rows;
    - [app/services/pty_watcher.py] [RegexClassifier] and the stability state
                                  machine of [PtyWatcher._process_pane];
    - [app/flows/design_refinement.py] the critic score.

    Conventions.  A Python [str] is a sequence of Unicode code points; a code
    point is an [N].  Python values that travel through JSON columns are
    [pyval].  Mutable objects become explicit records that are passed and
    returned; an exception that leaves a function becomes a [Raised] outcome.
    The methods of [str] and [json.loads] that the code calls are modelled
    as functions.  What comes from outside the process is an argument: the
    text tmux captured, the reading of the clock; [sha256], the [re] engine,
    the remote classifier, the pack files and the case mapping of Unicode
    are Section variables. *)

From Stdlib Require Import ZArith NArith List String Ascii Bool Lia.
From stdpp Require Import base option list gmap.
Import ListNotations.

Set Default Proof Using "Type".

(* ===================================================================== *)
(** * Python strings *)
(* ===================================================================== *)

Module Py.

Definition char := N.
Abbreviation str := (list N).

(** The code points of a literal of the source (ASCII in this code base). *)
Definition py (s : string) : str :=
  List.map (fun b => N_of_ascii b) (list_ascii_of_string s).

Definition str_eqb (a b : str) : bool := bool_decide (a = b).

(** [len(s) == 0] is what the truth value of a [str] tests. *)
Definition nonempty (s : str) : bool :=
  match s with [] => false | _ :: _ => true end.

(** Characters [str.strip()], [str.split()] treat as whitespace
    (CPython's [_PyUnicode_IsWhitespace]). *)
Definition is_space (c : char) : bool :=
  ((9 <=? c) && (c <=? 13) || (28 <=? c) && (c <=? 32)
   || (c =? 133) || (c =? 160) || (c =? 5760)
   || (8192 <=? c) && (c <=? 8202)
   || (c =? 8232) || (c =? 8233) || (c =? 8239) || (c =? 8287)
   || (c =? 12288))%N.

(** Line boundaries of [str.splitlines()] (CPython's
    [_PyUnicode_IsLinebreak]); CR LF counts as one boundary. *)
Definition is_linebreak (c : char) : bool :=
  ((10 <=? c) && (c <=? 13) || (28 <=? c) && (c <=? 30)
   || (c =? 133) || (c =? 8232) || (c =? 8233))%N.

Fixpoint lstrip (s : str) : str :=
  match s with
  | [] => []
  | c :: r => if is_space c then lstrip r else s
  end.

Definition rstrip (s : str) : str := rev (lstrip (rev s)).

(** [s.strip()] *)
Definition strip (s : str) : str := rstrip (lstrip s).

Fixpoint startswith (p s : str) : bool :=
  match p, s with
  | [], _ => true
  | _ :: _, [] => false
  | a :: p', b :: s' => (a =? b)%N && startswith p' s'
  end.

(** [sub in s] *)
Fixpoint contains (sub s : str) : bool :=
  startswith sub s ||
  match s with
  | [] => false
  | _ :: r => contains sub r
  end.

(** [s.splitlines()]; [cur] is the line being read, reversed. *)
Fixpoint splitlines_from (cur : str) (s : str) : list str :=
  match s with
  | [] => match cur with [] => [] | _ => [rev cur] end
  | c :: r =>
      if (c =? 13)%N then
        match r with
        | c' :: r' =>
            if (c' =? 10)%N then rev cur :: splitlines_from [] r'
            else rev cur :: splitlines_from [] r
        | [] => rev cur :: splitlines_from [] r
        end
      else if is_linebreak c then rev cur :: splitlines_from [] r
      else splitlines_from (c :: cur) r
  end.

Definition splitlines (s : str) : list str := splitlines_from [] s.

(** [sep.join(parts)] *)
Fixpoint join (sep : str) (parts : list str) : str :=
  match parts with
  | [] => []
  | [p] => p
  | p :: rest => p ++ sep ++ join sep rest
  end.

(** [s.split()]: the maximal runs of non-whitespace characters. *)
Fixpoint split_from (cur : str) (s : str) : list str :=
  match s with
  | [] => match cur with [] => [] | _ => [rev cur] end
  | c :: r =>
      if is_space c then
        match cur with
        | [] => split_from [] r
        | _ => rev cur :: split_from [] r
        end
      else split_from (c :: cur) r
  end.

Definition split (s : str) : list str := split_from [] s.

(** [s.count(sub)]: occurrences of [sub] in [s] that do not overlap, found
    from the left; [skip] characters of the last match are still to pass. *)
Fixpoint count_from (sub : str) (skip : nat) (s : str) : nat :=
  match s with
  | [] => 0
  | _ :: r =>
      match skip with
      | S k => count_from sub k r
      | O => if startswith sub s
             then S (count_from sub (length sub - 1) r)
             else count_from sub 0 r
      end
  end.

Definition count (sub s : str) : nat :=
  match sub with
  | [] => S (length s)
  | _ => count_from sub 0 s
  end.

(** ** Python values

    The values [json.loads] produces and the JSON columns hold: [None],
    [bool], [int], [float], [str], [list] and [dict] with [str] keys.  A dict
    is the list of its items in insertion order, its keys distinct. *)

(** A [float] is kept as the decimal it was read from: [FDec neg m e] is the
    double nearest to [(-1)^neg * m * 10^e]. *)
Inductive pyfloat :=
| FNan
| FInf (neg : bool)
| FDec (neg : bool) (m : N) (e : Z).

#[warnings="-register-all"]
Inductive pyval :=
| VNone
| VBool (b : bool)
| VInt (z : Z)
| VFloat (f : pyfloat)
| VStr (s : str)
| VList (l : list pyval)
| VDict (d : list (str * pyval)).

(** [f != 0.0].  A decimal of magnitude at most [2^-1075], half the least
    subnormal double, rounds to zero. *)
Definition float_nonzero (f : pyfloat) : bool :=
  match f with
  | FNan => true
  | FInf _ => true
  | FDec _ m e =>
      if (m =? 0)%N then false
      else if (0 <=? e)%Z then true
      else (10 ^ Z.to_N (- e) <? m * 2 ^ 1075)%N
  end.

(** [bool(v)] *)
Definition truthy (v : pyval) : bool :=
  match v with
  | VNone => false
  | VBool b => b
  | VInt z => negb (z =? 0)%Z
  | VFloat f => float_nonzero f
  | VStr s => nonempty s
  | VList l => match l with [] => false | _ => true end
  | VDict d => match d with [] => false | _ => true end
  end.

(** [a or b] *)
Definition py_or (a b : pyval) : pyval := if truthy a then a else b.

(** [hash(v)] raises [TypeError] on a [list] and on a [dict]. *)
Definition hashable (v : pyval) : bool :=
  match v with
  | VList _ | VDict _ => false
  | _ => true
  end.

(** [v == s] for a [str] [s]: only an equal [str] compares equal. *)
Definition eq_str (v : pyval) (s : str) : bool :=
  match v with
  | VStr t => str_eqb t s
  | _ => false
  end.

(** [d.get(key)]: [None] when the key is absent. *)
Fixpoint dict_get (d : list (str * pyval)) (key : str) : pyval :=
  match d with
  | [] => VNone
  | (k, v) :: rest => if str_eqb k key then v else dict_get rest key
  end.

(** [d[key] = v]: a key already present keeps its place. *)
Fixpoint dict_set (d : list (str * pyval)) (key : str) (v : pyval)
  : list (str * pyval) :=
  match d with
  | [] => [(key, v)]
  | (k, w) :: rest =>
      if str_eqb k key then (k, v) :: rest
      else (k, w) :: dict_set rest key v
  end.

(** [dict(pairs)] *)
Definition dict_of_pairs (pairs : list (str * pyval)) : list (str * pyval) :=
  fold_left (fun d kv => dict_set d (fst kv) (snd kv)) pairs [].

End Py.

(* ===================================================================== *)
(** * [json.loads]

    The decoder of CPython's [json] package with its default options, on a
    [str]: [None] stands for the [JSONDecodeError] it raises.  The
    interpreter's resource limits (recursion depth, digits of an [int]
    literal) are not part of the model. *)
(* ===================================================================== *)

Module Json.
Import Py.

Local Open Scope N_scope.

(** Code points the grammar names. *)
Definition QUOTE : char := 34.      (* the double quote *)
Definition BACKSLASH : char := 92.
Definition COMMA : char := 44.
Definition COLON : char := 58.
Definition LBRACKET : char := 91.
Definition RBRACKET : char := 93.
Definition LBRACE : char := 123.
Definition RBRACE : char := 125.
Definition MINUS : char := 45.
Definition PLUS : char := 43.
Definition DOT : char := 46.
Definition BOM : char := 65279.

(** [WHITESPACE]: space, tab, line feed, carriage return. *)
Definition is_ws (c : char) : bool :=
  (c =? 32) || (c =? 9) || (c =? 10) || (c =? 13).

Fixpoint skip_ws (s : str) : str :=
  match s with
  | c :: r => if is_ws c then skip_ws r else s
  | [] => []
  end.

Definition is_digit (c : char) : bool := (48 <=? c) && (c <=? 57).

Definition hex_digit (c : char) : option N :=
  if (48 <=? c) && (c <=? 57) then Some (c - 48)
  else if (97 <=? c) && (c <=? 102) then Some (c - 87)
  else if (65 <=? c) && (c <=? 70) then Some (c - 55)
  else None.

Definition hex4 (a b c d : char) : option N :=
  match hex_digit a, hex_digit b, hex_digit c, hex_digit d with
  | Some x, Some y, Some z, Some w => Some (((x * 16 + y) * 16 + z) * 16 + w)
  | _, _, _, _ => None
  end.

(** The [BACKSLASH] table of the decoder. *)
Definition unescape (c : char) : option char :=
  if c =? QUOTE then Some QUOTE
  else if c =? BACKSLASH then Some BACKSLASH
  else if c =? 47 then Some 47          (* / *)
  else if c =? 98 then Some 8           (* b *)
  else if c =? 102 then Some 12         (* f *)
  else if c =? 110 then Some 10         (* n *)
  else if c =? 114 then Some 13         (* r *)
  else if c =? 116 then Some 9          (* t *)
  else None.

Definition is_high_surrogate (u : N) : bool := (55296 <=? u) && (u <=? 56319).
Definition is_low_surrogate (u : N) : bool := (56320 <=? u) && (u <=? 57343).
Definition join_surrogates (hi lo : N) : N :=
  65536 + ((hi - 55296) * 1024 + (lo - 56320)).

(** [scanstring], strict: the text after an opening quote, up to and past the
    closing one.  [acc] is the decoded text so far, reversed. *)
Fixpoint scanstring (acc : str) (s : str) : option (str * str) :=
  match s with
  | [] => None                                   (* unterminated *)
  | c :: r =>
      if c =? QUOTE then Some (rev acc, r)
      else if c =? BACKSLASH then
        match r with
        | [] => None
        | e :: r1 =>
            if e =? 117 then                     (* \uXXXX *)
              match r1 with
              | h1 :: h2 :: h3 :: h4 :: r2 =>
                  match hex4 h1 h2 h3 h4 with
                  | None => None
                  | Some uni =>
                      match r2 with
                      | b :: u :: g1 :: g2 :: g3 :: g4 :: r3 =>
                          if is_high_surrogate uni && (b =? BACKSLASH)
                             && (u =? 117)
                          then
                            match hex4 g1 g2 g3 g4 with
                            | None => None
                            | Some uni2 =>
                                if is_low_surrogate uni2
                                then scanstring
                                       (join_surrogates uni uni2 :: acc) r3
                                else scanstring (uni :: acc) r2
                            end
                          else scanstring (uni :: acc) r2
                      | _ => scanstring (uni :: acc) r2
                      end
                  end
              | _ => None
              end
            else
              match unescape e with
              | Some ch => scanstring (ch :: acc) r1
              | None => None
              end
        end
      else if c <? 32 then None                  (* control character *)
      else scanstring (c :: acc) r
  end.

Fixpoint span_digits (s : str) : str * str :=
  match s with
  | c :: r =>
      if is_digit c then let '(ds, rest) := span_digits r in (c :: ds, rest)
      else ([], s)
  | [] => ([], [])
  end.

Definition digits_value (ds : str) : N :=
  fold_left (fun n c => n * 10 + (c - 48)) ds 0.

(** The integer group of [NUMBER_RE]: an optional minus, then a zero or a
    digit from 1 to 9 followed by digits. *)
Definition match_integer (s : str) : option (bool * str * str) :=
  let '(neg, s1) :=
    match s with
    | c :: r => if c =? MINUS then (true, r) else (false, s)
    | [] => (false, s)
    end in
  match s1 with
  | c :: r =>
      if c =? 48 then Some (neg, [c], r)
      else if is_digit c then
        let '(ds, rest) := span_digits r in Some (neg, c :: ds, rest)
      else None
  | [] => None
  end.

(** The fraction group of [NUMBER_RE]: a dot and at least one digit. *)
Definition match_frac (s : str) : option (str * str) :=
  match s with
  | c :: r =>
      if c =? DOT then
        match span_digits r with
        | ([], _) => None
        | (ds, rest) => Some (ds, rest)
        end
      else None
  | [] => None
  end.

(** The exponent group of [NUMBER_RE]: e or E, an optional sign, at least
    one digit. *)
Definition match_exp (s : str) : option (Z * str) :=
  match s with
  | c :: r =>
      if (c =? 101) || (c =? 69) then
        let '(neg, r1) :=
          match r with
          | sg :: r' =>
              if sg =? MINUS then (true, r')
              else if sg =? PLUS then (false, r')
              else (false, r)
          | [] => (false, r)
          end in
        match span_digits r1 with
        | ([], _) => None
        | (ds, rest) =>
            let v := Z.of_N (digits_value ds) in
            Some (if neg then (- v)%Z else v, rest)
        end
      else None
  | [] => None
  end.

(** [match_number] and the conversion of its groups: an [int] when there is
    neither fraction nor exponent, a [float] otherwise. *)
Definition match_number (s : str) : option (pyval * str) :=
  match match_integer s with
  | None => None
  | Some (neg, ids, r1) =>
      let '(frac, r2) :=
        match match_frac r1 with
        | Some (fs, r) => (Some fs, r)
        | None => (None, r1)
        end in
      let '(ex, r3) :=
        match match_exp r2 with
        | Some (e, r) => (Some e, r)
        | None => (None, r2)
        end in
      match frac, ex with
      | None, None =>
          let v := Z.of_N (digits_value ids) in
          Some (VInt (if neg then (- v)%Z else v), r3)
      | _, _ =>
          let fs := default [] frac in
          let e := default 0%Z ex in
          Some (VFloat (FDec neg (digits_value (ids ++ fs))
                          (e - Z.of_nat (length fs))%Z), r3)
      end
  end.

(** What scanning a value at the head of a text gives: the value and the
    text after it, or the decoder's error.  [Exhausted] is the model's own:
    the recursion below is on a counter, and [loads_fuel] shows that the
    counter [json_loads] starts with never runs out. *)
Inductive scanned :=
| Scanned (v : pyval) (rest : str)
| Invalid
| Exhausted.

(** [scan_once], [JSONObject] (from after the opening quote of a key, with
    the pairs read so far reversed in [acc]) and [JSONArray] (from a value,
    with the values read so far reversed in [acc]). *)
Fixpoint scan_once (fuel : nat) (s : str) : scanned :=
  match fuel with
  | O => Exhausted
  | S n =>
      match s with
      | [] => Invalid
      | c :: r =>
          if c =? QUOTE then
            match scanstring [] r with
            | Some (x, r') => Scanned (VStr x) r'
            | None => Invalid
            end
          else if c =? LBRACE then
            match skip_ws r with
            | c1 :: r1 =>
                if c1 =? RBRACE then Scanned (VDict []) r1
                else if c1 =? QUOTE then object_items n [] r1
                else Invalid
            | [] => Invalid
            end
          else if c =? LBRACKET then
            match skip_ws r with
            | c1 :: r1 =>
                if c1 =? RBRACKET then Scanned (VList []) r1
                else array_items n [] (c1 :: r1)
            | [] => Invalid
            end
          else if startswith (py "null") s then Scanned VNone (skipn 4 s)
          else if startswith (py "true") s then
            Scanned (VBool true) (skipn 4 s)
          else if startswith (py "false") s then
            Scanned (VBool false) (skipn 5 s)
          else
            match match_number s with
            | Some (v, r') => Scanned v r'
            | None =>
                if startswith (py "NaN") s then
                  Scanned (VFloat FNan) (skipn 3 s)
                else if startswith (py "Infinity") s then
                  Scanned (VFloat (FInf false)) (skipn 8 s)
                else if startswith (py "-Infinity") s then
                  Scanned (VFloat (FInf true)) (skipn 9 s)
                else Invalid
            end
      end
  end

with object_items (fuel : nat) (acc : list (str * pyval)) (s : str)
  : scanned :=
  match fuel with
  | O => Exhausted
  | S n =>
      match scanstring [] s with
      | None => Invalid
      | Some (key, r) =>
          match skip_ws r with
          | c :: r1 =>
              if c =? COLON then
                match scan_once n (skip_ws r1) with
                | Scanned v r2 =>
                    match skip_ws r2 with
                    | d :: r3 =>
                        if d =? RBRACE then
                          Scanned
                            (VDict (dict_of_pairs (rev ((key, v) :: acc))))
                            r3
                        else if d =? COMMA then
                          match skip_ws r3 with
                          | q :: r4 =>
                              if q =? QUOTE
                              then object_items n ((key, v) :: acc) r4
                              else Invalid
                          | [] => Invalid
                          end
                        else Invalid
                    | [] => Invalid
                    end
                | other => other
                end
              else Invalid
          | [] => Invalid
          end
      end
  end

with array_items (fuel : nat) (acc : list pyval) (s : str) : scanned :=
  match fuel with
  | O => Exhausted
  | S n =>
      match scan_once n s with
      | Scanned v r =>
          match skip_ws r with
          | d :: r1 =>
              if d =? RBRACKET then Scanned (VList (rev (v :: acc))) r1
              else if d =? COMMA then array_items n (v :: acc) (skip_ws r1)
              else Invalid
          | [] => Invalid
          end
      | other => other
      end
  end.

(** The counter a text is decoded with. *)
Definition fuel_for (s : str) : nat := 2 * length s + 2.

(** [JSONDecoder.decode]: one value, whitespace around it, nothing else. *)
Definition decode (s : str) : scanned :=
  match scan_once (fuel_for s) (skip_ws s) with
  | Scanned v r =>
      match skip_ws r with
      | [] => Scanned v []
      | _ :: _ => Invalid                        (* extra data *)
      end
  | other => other
  end.

(** [json.loads(s)]: [Some v] is the value returned, [None] the
    [JSONDecodeError] raised. *)
Definition json_loads (s : str) : option pyval :=
  if startswith [BOM] s then None
  else
    match decode s with
    | Scanned v _ => Some v
    | _ => None
    end.

End Json.


(* ===================================================================== *)
(** * Shared vocabulary: exceptions, settings, enums, rows *)
(* ===================================================================== *)

(** A reading of a clock; the code stores readings and never computes with
    them. *)
Definition timestamp := Z.

(** The exceptions that leave the modelled functions. *)
Inductive exn :=
| AttributeError
| TypeError
| TmuxCommandError (message : Py.str).

(** What a call does: return, or raise.  Either way the objects it mutated
    are in the state it leaves. *)
Inductive outcome (S : Type) :=
| Returned (s : S)
| Raised (e : exn) (s : S).
Arguments Returned {S} s.
Arguments Raised {S} e s.

(** [app/config.py], the settings the modelled code reads. *)
Module Config.
Import Py.

Record Settings := {
  tmux_bin : str;
  sentinel_start : str;
  sentinel_end : str;
  watcher_default_stability : Z;
  default_cli_type : str;
  openrouter_api_key : option str
}.

(** The values of the class; the environment can override each. *)
Definition defaults : Settings := {|
  tmux_bin := py "tmux";
  sentinel_start := py "<<<AGENT_RESULT_START>>>";
  sentinel_end := py "<<<AGENT_RESULT_END>>>";
  watcher_default_stability := 3;
  default_cli_type := py "codex";
  openrouter_api_key := None
|}.

End Config.

(** [app/enums.py] *)
Module WorkerStatus.
Inductive t := idle | busy | error | terminated.
End WorkerStatus.

Module TaskStatus.
Inductive t := queued | running | completed | failed.
Definition eqb (a b : t) : bool :=
  match a, b with
  | queued, queued | running, running
  | completed, completed | failed, failed => true
  | _, _ => false
  end.
End TaskStatus.

Module TaskEventType.
Inductive t := stdout_chunk | stderr_chunk | state_change | result_parsed.
End TaskEventType.

Module FlowStatus.
Inductive t := running | completed | failed.
End FlowStatus.

(** [app/models.py]: the columns the runtime reads and writes.  A JSON
    column holds a [pyval]; [error_message] is declared [str | None] and is
    assigned whatever the payload carries, so it is a [pyval] too. *)
Module Worker.
Import Py.
Record t := {
  id : str;
  status : WorkerStatus.t;
  tmux_session : str;
  workspace_path : str;
  last_seen_at : timestamp
}.
End Worker.

Module Task.
Import Py.
Record t := {
  id : str;
  worker_id : str;
  tool : str;
  spec_json : pyval;
  status : TaskStatus.t;
  result_json : pyval;
  error_message : pyval;
  started_at : option timestamp;
  finished_at : option timestamp;
  flow_id : option str
}.
End Task.

Module TaskEvent.
Import Py.
Record t := {
  task_id : str;
  type : TaskEventType.t;
  payload : pyval
}.
End TaskEvent.

Module Flow.
Import Py.
Record t := {
  id : str;
  status : FlowStatus.t;
  worker_id : str;
  config : pyval;
  state : pyval;
  result : pyval
}.
End Flow.

(** The tables: rows by primary key, events in the order they were added. *)
Record Store := {
  tasks : gmap Py.str Task.t;
  workers : gmap Py.str Worker.t;
  flows : gmap Py.str Flow.t;
  task_events : list TaskEvent.t
}.

(* ===================================================================== *)
(** * [app/services/tmux.py] *)
(* ===================================================================== *)

Module Tmux.
Import Py.

(** What [subprocess.run] hands back. *)
Record CompletedProcess := {
  returncode : Z;
  stdout : str;
  stderr : str
}.

Record PaneSnapshot := {
  text : str;
  new_text : str
}.

Record TmuxController := {
  session : str;
  pane : str;
  tmux_bin : str;
  last_size : nat
}.

(** [TmuxController.__init__] *)
Definition init (settings : Config.Settings) (session pane : str)
  : TmuxController := {|
  session := session;
  pane := pane;
  tmux_bin := Config.tmux_bin settings;
  last_size := 0
|}.

Definition set_last_size (c : TmuxController) (n : nat) : TmuxController := {|
  session := session c;
  pane := pane c;
  tmux_bin := tmux_bin c;
  last_size := n
|}.

(** [_run(..., check=True)] once the process [result] has ended. *)
Definition run (result : CompletedProcess) : exn + CompletedProcess :=
  if negb (returncode result =? 0)%Z then
    let message := strip (stderr result) in
    inl (TmuxCommandError
           (if nonempty message then message else py "tmux command failed"))
  else inr result.

(** [capture_pane]; [result] is what the tmux process of this call gives.
    The call returns the snapshot and leaves the controller with its cursor
    moved, or raises before the controller is touched. *)
Definition capture_pane (c : TmuxController) (result : CompletedProcess)
  : exn + (PaneSnapshot * TmuxController) :=
  match run result with
  | inl e => inl e
  | inr result =>
      let text := stdout result in
      let new_text :=
        if last_size c <=? length text then skipn (last_size c) text
        else text in
      inr ({| text := text; new_text := new_text |},
           set_last_size c (length text))
  end.

End Tmux.

(* ===================================================================== *)
(** * [app/services/runtime.py]: [WorkerRuntime] *)
(* ===================================================================== *)

Module Runtime.
Import Py.

Record WorkerRuntime := {
  worker_id : str;
  workspace_path : str;
  controller : Tmux.TmuxController;
  running_tasks : list str;                (* the deque *)
  collecting_task_id : option str;
  result_lines : list str
}.

(** The runtime with the database around it.  [session] is the unit of work
    of the open SQLAlchemy session, [database] what has been committed;
    [ticks] counts the readings of the clock. *)
Record State := {
  runtime : WorkerRuntime;
  session : Store;
  database : Store;
  ticks : nat
}.

Definition set_controller (rt : WorkerRuntime) (c : Tmux.TmuxController)
  : WorkerRuntime := {|
  worker_id := worker_id rt;
  workspace_path := workspace_path rt;
  controller := c;
  running_tasks := running_tasks rt;
  collecting_task_id := collecting_task_id rt;
  result_lines := result_lines rt
|}.

Definition set_running_tasks (rt : WorkerRuntime) (q : list str)
  : WorkerRuntime := {|
  worker_id := worker_id rt;
  workspace_path := workspace_path rt;
  controller := controller rt;
  running_tasks := q;
  collecting_task_id := collecting_task_id rt;
  result_lines := result_lines rt
|}.

Definition set_collecting (rt : WorkerRuntime) (c : option str)
  (lines : list str) : WorkerRuntime := {|
  worker_id := worker_id rt;
  workspace_path := workspace_path rt;
  controller := controller rt;
  running_tasks := running_tasks rt;
  collecting_task_id := c;
  result_lines := lines
|}.

Definition with_runtime (st : State) (rt : WorkerRuntime) : State := {|
  runtime := rt;
  session := session st;
  database := database st;
  ticks := ticks st
|}.

Definition with_session (st : State) (s : Store) : State := {|
  runtime := runtime st;
  session := s;
  database := database st;
  ticks := ticks st
|}.

(** [session.commit()] *)
Definition commit (st : State) : State := {|
  runtime := runtime st;
  session := session st;
  database := session st;
  ticks := ticks st
|}.

(** Leaving [async with] on an exception: the unit of work is dropped. *)
Definition rollback (st : State) : State := {|
  runtime := runtime st;
  session := database st;
  database := database st;
  ticks := ticks st
|}.

(** [session.add(TaskEvent(...))] *)
Definition add_event (s : Store) (e : TaskEvent.t) : Store := {|
  tasks := tasks s;
  workers := workers s;
  flows := flows s;
  task_events := task_events s ++ [e]
|}.

(** Rows are objects of the session: a write to the row found under a key
    shows under that key. *)
Definition put_task (s : Store) (key : str) (t : Task.t) : Store := {|
  tasks := <[key := t]> (tasks s);
  workers := workers s;
  flows := flows s;
  task_events := task_events s
|}.

Definition put_worker (s : Store) (key : str) (w : Worker.t) : Store := {|
  tasks := tasks s;
  workers := <[key := w]> (workers s);
  flows := flows s;
  task_events := task_events s
|}.

Definition put_flow (s : Store) (key : str) (f : Flow.t) : Store := {|
  tasks := tasks s;
  workers := workers s;
  flows := <[key := f]> (flows s);
  task_events := task_events s
|}.

(** The truth value of a [str | None]: an id that is the empty string
    counts as no id.  (The ids of rows are UUIDs.) *)
Definition opt_truthy (o : option str) : bool :=
  match o with
  | Some s => nonempty s
  | None => false
  end.

(** [x in q] and [q.remove(x)] of a deque. *)
Definition deque_mem (x : str) (q : list str) : bool :=
  existsb (str_eqb x) q.

Fixpoint deque_remove (x : str) (q : list str) : list str :=
  match q with
  | [] => []
  | y :: r => if str_eqb y x then r else y :: deque_remove x r
  end.

(** [WorkerRuntime.__init__] *)
Definition init (settings : Config.Settings)
  (worker_id tmux_session workspace_path : str) : WorkerRuntime := {|
  worker_id := worker_id;
  workspace_path := workspace_path;
  controller := Tmux.init settings tmux_session (py "0");
  running_tasks := [];
  collecting_task_id := None;
  result_lines := []
|}.

(** [enqueue_task], the part that touches the runtime; the command goes to
    the pane. *)
Definition enqueue_task (rt : WorkerRuntime) (task_id : str)
  : WorkerRuntime :=
  set_running_tasks rt (running_tasks rt ++ [task_id]).

(** [mark_task_failed] *)
Definition mark_task_failed (rt : WorkerRuntime) (task_id : str)
  : WorkerRuntime :=
  if deque_mem task_id (running_tasks rt)
  then set_running_tasks rt (deque_remove task_id (running_tasks rt))
  else rt.

Definition NEWLINE : str := [10%N].

(** Lines 90 to 101 of [_finalize_result]: the [try] block.  The result is
    [(result, status, error_message)], or the exception that the [except]
    clause does not catch. *)
Definition parse_payload (payload_text : str)
  : exn + (pyval * TaskStatus.t * pyval) :=
  match Json.json_loads payload_text with
  | None =>
      inr (VNone, TaskStatus.failed,
           VStr (py "Invalid JSON result from tool"))
  | Some result =>
      match py_or result (VDict []) with
      | VDict d =>
          let result_status := dict_get d (py "status") in
          if negb (hashable result_status) then inl TypeError
          else if eq_str result_status (py "failed")
                  || eq_str result_status (py "error")
          then inr (result, TaskStatus.failed, dict_get d (py "error"))
          else inr (result, TaskStatus.completed, VNone)
      | _ => inl AttributeError                  (* no attribute 'get' *)
      end
  end.

Section WithClock.

(** [datetime.now(timezone.utc)]: the reading the clock gives when it is
    read for the [n]-th time. *)
Variable utcnow : nat -> timestamp.
Variable settings : Config.Settings.

Definition read_clock (st : State) : timestamp * State :=
  (utcnow (ticks st),
   {| runtime := runtime st; session := session st;
      database := database st; ticks := S (ticks st) |}).

(** The writes of lines 106 to 112 on the task row. *)
Definition finish_task (task : Task.t) (result : pyval)
  (error_message : pyval) (status : TaskStatus.t) (now : timestamp)
  : Task.t := {|
  Task.id := Task.id task;
  Task.worker_id := Task.worker_id task;
  Task.tool := Task.tool task;
  Task.spec_json := Task.spec_json task;
  Task.status := status;
  Task.result_json := result;
  Task.error_message := error_message;
  Task.started_at :=
    match Task.started_at task with
    | None => Some now
    | Some t => Some t
    end;
  Task.finished_at := Some now;
  Task.flow_id := Task.flow_id task
|}.

(** Lines 122 to 125. *)
Definition touch_worker (s : Store) (worker_id : str) (queue : list str)
  (now : timestamp) : Store :=
  match workers s !! worker_id with
  | Some worker =>
      put_worker s worker_id {|
        Worker.id := Worker.id worker;
        Worker.status :=
          match queue with
          | [] => WorkerStatus.idle
          | _ => WorkerStatus.busy
          end;
        Worker.tmux_session := Worker.tmux_session worker;
        Worker.workspace_path := Worker.workspace_path worker;
        Worker.last_seen_at := now
      |}
  | None => s
  end.

(** Lines 126 to 133. *)
Definition fail_flow (s : Store) (task : Task.t) (status : TaskStatus.t)
  (task_id : str) : Store :=
  if TaskStatus.eqb status TaskStatus.failed
     && opt_truthy (Task.flow_id task)
  then
    match Task.flow_id task with
    | Some flow_id =>
        match flows s !! flow_id with
        | Some flow =>
            put_flow s flow_id {|
              Flow.id := Flow.id flow;
              Flow.status := FlowStatus.failed;
              Flow.worker_id := Flow.worker_id flow;
              Flow.config := Flow.config flow;
              Flow.state := Flow.state flow;
              Flow.result :=
                VDict [(py "reason",
                        py_or (Task.error_message task)
                              (VStr (py "task_failed")));
                       (py "task_id", VStr task_id)]
            |}
        | None => s
        end
    | None => s
    end
  else s.

(** [_finalize_result].  The [print] calls of the source are left out. *)
Definition finalize_result (st : State) : outcome State :=
  let task_id := collecting_task_id (runtime st) in
  let payload_text := join NEWLINE (result_lines (runtime st)) in
  let st := with_runtime st (set_collecting (runtime st) None []) in
  match task_id with
  | None => Returned st
  | Some task_id =>
      if negb (nonempty task_id) then Returned st
      else
        match parse_payload payload_text with
        | inl e => Raised e st
        | inr (result, status, error_message) =>
            match tasks (session st) !! task_id with
            | None => Returned st
            | Some task =>
                let '(now, st) := read_clock st in
                let task :=
                  finish_task task result error_message status now in
                let s := put_task (session st) task_id task in
                let s :=
                  add_event s {|
                    TaskEvent.task_id := task_id;
                    TaskEvent.type := TaskEventType.result_parsed;
                    TaskEvent.payload :=
                      VDict [(py "result", result);
                             (py "error", error_message)]
                  |} in
                let rt := runtime st in
                let rt :=
                  if deque_mem task_id (running_tasks rt)
                  then set_running_tasks rt
                         (deque_remove task_id (running_tasks rt))
                  else rt in
                let s :=
                  touch_worker s (Task.worker_id task) (running_tasks rt)
                    now in
                let s := fail_flow s task status task_id in
                Returned (commit (with_session (with_runtime st rt) s))
            end
        end
  end.

(** The body of the [for] loop of [_process_lines], over the lines left. *)
Fixpoint process_loop (st : State) (lines : list str) : outcome State :=
  match lines with
  | [] => Returned st
  | raw_line :: rest =>
      let stripped := strip raw_line in
      let rt := runtime st in
      if contains (Config.sentinel_start settings) stripped then
        process_loop
          (with_runtime st (set_collecting rt (head (running_tasks rt)) []))
          rest
      else if contains (Config.sentinel_end settings) stripped then
        match finalize_result st with
        | Returned st => process_loop st rest
        | Raised e st => Raised e st
        end
      else if opt_truthy (collecting_task_id rt) then
        process_loop
          (with_runtime st
             (set_collecting rt (collecting_task_id rt)
                (result_lines rt ++ [raw_line])))
          rest
      else
        match running_tasks rt with
        | first :: _ =>
            process_loop
              (with_session st
                 (add_event (session st) {|
                    TaskEvent.task_id := first;
                    TaskEvent.type := TaskEventType.stdout_chunk;
                    TaskEvent.payload := VDict [(py "line", VStr raw_line)]
                  |}))
              rest
        | [] => process_loop st rest
        end
  end.

(** [_process_lines]: a session is opened on the database, the lines are
    gone through, the session commits. *)
Definition process_lines (st : State) (lines : list str) : outcome State :=
  match lines with
  | [] => Returned st
  | _ =>
      match process_loop (with_session st (database st)) lines with
      | Returned st => Returned (commit st)
      | Raised e st => Raised e (rollback st)
      end
  end.

(** One turn of [_monitor_loop], up to the sleep; [result] is what tmux
    gives this turn.  An exception ends the loop. *)
Definition monitor_turn (st : State) (result : Tmux.CompletedProcess)
  : outcome State :=
  match Tmux.capture_pane (controller (runtime st)) result with
  | inl e => Raised e st
  | inr (snapshot, c) =>
      let st := with_runtime st (set_controller (runtime st) c) in
      let new_text := Tmux.new_text snapshot in
      if nonempty new_text then process_lines st (splitlines new_text)
      else Returned st
  end.

End WithClock.

End Runtime.

(* ===================================================================== *)
(** * [app/services/pty_watcher.py] *)
(* ===================================================================== *)

Module Watcher.
Import Py.

Local Open Scope N_scope.

(** [strip_ansi]: every match of [ANSI_ESCAPE_RE] is removed.  A match is
    ESC, an opening bracket, characters from 0 to ?, characters from space
    to /, and one character from @ to ~.  The three classes are disjoint, so
    the text is read once; [seen] holds, reversed, the characters of a
    sequence that has not ended yet and that stay if it never does. *)
Definition ESC : char := 27.
Definition is_param (c : char) : bool := (48 <=? c) && (c <=? 63).
Definition is_intermediate (c : char) : bool := (32 <=? c) && (c <=? 47).
Definition is_final (c : char) : bool := (64 <=? c) && (c <=? 126).

Inductive ansi_state :=
| Text
| AfterEsc
| InParams (seen : str)
| InIntermediates (seen : str).

Fixpoint strip_ansi_from (q : ansi_state) (s : str) : str :=
  match s with
  | [] =>
      match q with
      | Text => []
      | AfterEsc => [ESC]
      | InParams seen | InIntermediates seen => rev seen
      end
  | c :: r =>
      let plain :=
        if c =? ESC then strip_ansi_from AfterEsc r
        else c :: strip_ansi_from Text r in
      match q with
      | Text => plain
      | AfterEsc =>
          if c =? 91 then strip_ansi_from (InParams [c; ESC]) r
          else ESC :: plain
      | InParams seen =>
          if is_param c then strip_ansi_from (InParams (c :: seen)) r
          else if is_intermediate c
          then strip_ansi_from (InIntermediates (c :: seen)) r
          else if is_final c then strip_ansi_from Text r
          else rev seen ++ plain
      | InIntermediates seen =>
          if is_intermediate c
          then strip_ansi_from (InIntermediates (c :: seen)) r
          else if is_final c then strip_ansi_from Text r
          else rev seen ++ plain
      end
  end.

Definition strip_ansi (text : str) : str := strip_ansi_from Text text.

Local Close Scope N_scope.

Record WorkerMetadata := {
  worker_id : str;
  tmux_session : str;
  workspace : str;
  cli_type : str
}.

Record PaneInfo := {
  pane_id : str;
  session_name : str;
  window_index : str;
  pane_index : str;
  cwd : str;
  title : str
}.

(** The [target] property. *)
Definition target (p : PaneInfo) : str :=
  session_name p ++ py ":" ++ window_index p ++ py "." ++ pane_index p.

Module PaneState.
Record t := {
  last_snapshot_hash : option str;
  last_classified_hash : option str;
  stable_count : Z;
  last_change_ts : timestamp;
  state : str;
  summary : str;
  actions_needed : option str;
  threshold : Z
}.
End PaneState.

Record ClassificationResult := {
  result_state : str;
  result_summary : str;
  result_actions_needed : option str
}.

(** The metadata dict [_process_pane] passes to the classifier. *)
Record Metadata := {
  meta_worker_id : str;
  meta_pane_id : str;
  meta_cli_type : str
}.

Section Classifiers.

(** A compiled pattern of the [re] module and its [search], as a test. *)
Variable regex : Type.
Variable search : regex -> str -> bool.

Record ClassifierPack := {
  name : str;
  stability_polls : Z;
  idle_regexes : list regex;
  busy_regexes : list regex;
  confirm_regexes : list regex;
  error_regexes : list regex
}.

(** The pack [ClassifierPack.load] falls back to when the pack file is
    missing or is not JSON. *)
Definition fallback_pack (cli_type : str) (settings : Config.Settings)
  : ClassifierPack := {|
  name := cli_type;
  stability_polls := Config.watcher_default_stability settings;
  idle_regexes := [];
  busy_regexes := [];
  confirm_regexes := [];
  error_regexes := []
|}.

(** [RegexClassifier._match_any] *)
Definition match_any (patterns : list regex) (text : str) : bool :=
  existsb (fun pattern => search pattern text) patterns.

(** [RegexClassifier.classify] *)
Definition regex_classify (pack : ClassifierPack) (snapshot : str)
  : ClassificationResult :=
  if match_any (error_regexes pack) snapshot then
    {| result_state := py "ERROR";
       result_summary := py "Detected error output";
       result_actions_needed :=
         Some (py "Inspect the PTY logs to unblock the worker.") |}
  else if match_any (confirm_regexes pack) snapshot then
    {| result_state := py "NEEDS_CONFIRMATION";
       result_summary := py "Tool is waiting for explicit confirmation";
       result_actions_needed :=
         Some (py "Answer the confirmation prompt in the PTY.") |}
  else if match_any (busy_regexes pack) snapshot then
    {| result_state := py "BUSY";
       result_summary := py "Workload still running";
       result_actions_needed := None |}
  else if match_any (idle_regexes pack) snapshot then
    {| result_state := py "READY";
       result_summary := py "Idle prompt detected";
       result_actions_needed := None |}
  else
    {| result_state := py "READY";
       result_summary := py "No activity detected in snapshot";
       result_actions_needed := None |}.

(** [OpenRouterClassifier.classify]: a request to a remote model; [None] is
    any exception it raises. *)
Variable openrouter_classify :
  ClassifierPack -> str -> Metadata -> option ClassificationResult.

Record HybridClassifier := {
  pack : ClassifierPack;
  llm : bool                       (* whether [_llm] is set *)
}.

(** [HybridClassifier.__init__] *)
Definition hybrid_init (settings : Config.Settings) (pack : ClassifierPack)
  : HybridClassifier := {|
  pack := pack;
  llm := Runtime.opt_truthy (Config.openrouter_api_key settings)
|}.

(** [HybridClassifier.classify] *)
Definition hybrid_classify (c : HybridClassifier) (snapshot : str)
  (metadata : Metadata) : ClassificationResult :=
  if llm c then
    match openrouter_classify (pack c) snapshot metadata with
    | Some result => result
    | None => regex_classify (pack c) snapshot
    end
  else regex_classify (pack c) snapshot.

(** [hashlib.sha256(s.encode("utf-8")).hexdigest()] *)
Variable sha256_hexdigest : str -> str.

(** [ClassifierPack.load], which reads the pack file of a CLI. *)
Variable load_pack : str -> ClassifierPack.

Variable settings : Config.Settings.

Record PtyWatcher := {
  state : gmap str PaneState.t;
  classifiers : gmap str HybridClassifier
}.

(** What a call lets the outside see: a call of the classifier, and the
    status written to [status.json] and to the status store. *)
Inductive effect :=
| Classified (pane_id : str) (snapshot_hash : str) (snapshot : str)
| StatusWritten (pane_id : str) (pane_state : PaneState.t)
    (snapshot_hash : str) (ts : timestamp).

(** [_classifier_for] *)
Definition classifier_for (w : PtyWatcher) (cli_type : str)
  : HybridClassifier * PtyWatcher :=
  match classifiers w !! cli_type with
  | Some classifier => (classifier, w)
  | None =>
      let pack :=
        load_pack (if nonempty cli_type then cli_type
                   else Config.default_cli_type settings) in
      let classifier := hybrid_init settings pack in
      (classifier,
       {| state := state w;
          classifiers := <[cli_type := classifier]> (classifiers w) |})
  end.

(** [PaneState(threshold=...)]; [now] is the [time.time()] of the default
    factory. *)
Definition new_pane_state (threshold : Z) (now : timestamp) : PaneState.t := {|
  PaneState.last_snapshot_hash := None;
  PaneState.last_classified_hash := None;
  PaneState.stable_count := 0;
  PaneState.last_change_ts := now;
  PaneState.state := py "UNKNOWN";
  PaneState.summary := [];
  PaneState.actions_needed := None;
  PaneState.threshold := threshold
|}.

(** Lines 396 to 419 of [_process_pane], on the pane's state: the state
    after, and whether the classifier was called. *)
Definition observe (classifier : HybridClassifier) (metadata : Metadata)
  (pane_state : PaneState.t) (snapshot_hash stripped : str) (ts : timestamp)
  : PaneState.t * bool :=
  if negb (bool_decide
             (PaneState.last_snapshot_hash pane_state = Some snapshot_hash))
  then
    ({| PaneState.last_snapshot_hash := Some snapshot_hash;
        PaneState.last_classified_hash :=
          PaneState.last_classified_hash pane_state;
        PaneState.stable_count := 0;
        PaneState.last_change_ts := ts;
        PaneState.state := py "BUSY";
        PaneState.summary := py "Pane output changing";
        PaneState.actions_needed := None;
        PaneState.threshold := PaneState.threshold pane_state |}, false)
  else
    let stable_count := (PaneState.stable_count pane_state + 1)%Z in
    let threshold :=
      if (PaneState.threshold pane_state =? 0)%Z
      then Config.watcher_default_stability settings
      else PaneState.threshold pane_state in
    if (threshold <=? stable_count)%Z
       && negb (bool_decide
                  (PaneState.last_classified_hash pane_state
                   = Some snapshot_hash))
    then
      let result := hybrid_classify classifier stripped metadata in
      ({| PaneState.last_snapshot_hash :=
            PaneState.last_snapshot_hash pane_state;
          PaneState.last_classified_hash := Some snapshot_hash;
          PaneState.stable_count := stable_count;
          PaneState.last_change_ts := PaneState.last_change_ts pane_state;
          PaneState.state := result_state result;
          PaneState.summary := result_summary result;
          PaneState.actions_needed := result_actions_needed result;
          PaneState.threshold := PaneState.threshold pane_state |}, true)
    else
      ({| PaneState.last_snapshot_hash :=
            PaneState.last_snapshot_hash pane_state;
          PaneState.last_classified_hash :=
            PaneState.last_classified_hash pane_state;
          PaneState.stable_count := stable_count;
          PaneState.last_change_ts := PaneState.last_change_ts pane_state;
          PaneState.state := PaneState.state pane_state;
          PaneState.summary := PaneState.summary pane_state;
          PaneState.actions_needed := PaneState.actions_needed pane_state;
          PaneState.threshold := PaneState.threshold pane_state |}, false).

(** What one call of [_process_pane] is given from outside: the text tmux
    captured, the time of the cycle, and the clock at the call. *)
Record Poll := {
  text : str;
  ts : timestamp;
  now : timestamp
}.

(** [_process_pane] *)
Definition process_pane (w : PtyWatcher) (pane : PaneInfo)
  (worker : WorkerMetadata) (poll : Poll) : PtyWatcher * list effect :=
  let stripped := strip_ansi (text poll) in
  let snapshot_hash := sha256_hexdigest stripped in
  let '(classifier, w) := classifier_for w (cli_type worker) in
  let pane_state :=
    match state w !! pane_id pane with
    | Some pane_state => pane_state
    | None =>
        new_pane_state (stability_polls (pack classifier)) (now poll)
    end in
  let metadata :=
    {| meta_worker_id := worker_id worker;
       meta_pane_id := pane_id pane;
       meta_cli_type := cli_type worker |} in
  let '(pane_state, called) :=
    observe classifier metadata pane_state snapshot_hash stripped (ts poll) in
  ({| state := <[pane_id pane := pane_state]> (state w);
      classifiers := classifiers w |},
   (if called then [Classified (pane_id pane) snapshot_hash stripped]
    else [])
   ++ [StatusWritten (pane_id pane) pane_state snapshot_hash (ts poll)]).

(** The purge at the end of [_poll_once]: the cache entries of the panes
    not seen in the cycle are deleted. *)
Definition purge (w : PtyWatcher) (seen : list str) : PtyWatcher := {|
  state := filter (fun kv => fst kv ∈ seen) (state w);
  classifiers := classifiers w
|}.

(** [_poll_once] from the panes that belong to a known worker, each with
    what its capture gives. *)
Fixpoint process_panes (w : PtyWatcher)
  (panes : list (PaneInfo * WorkerMetadata * Poll))
  : PtyWatcher * list effect :=
  match panes with
  | [] => (w, [])
  | (pane, worker, poll) :: rest =>
      let '(w, effects) := process_pane w pane worker poll in
      let '(w, more) := process_panes w rest in
      (w, effects ++ more)
  end.

Definition poll_once (w : PtyWatcher)
  (panes : list (PaneInfo * WorkerMetadata * Poll))
  : PtyWatcher * list effect :=
  let '(w, effects) := process_panes w panes in
  (purge w (List.map (fun p => pane_id (fst (fst p))) panes), effects).

End Classifiers.

End Watcher.

(* ===================================================================== *)
(** * [app/flows/design_refinement.py]: the critic *)
(* ===================================================================== *)

Module DesignRefinement.
Import Py.

Record CriticResult := {
  persona : str;
  score : Z;
  issues : list str;
  suggestions : str;
  iteration : Z
}.

Section Critic.

(** [str.lower], with the case mapping of Unicode behind it. *)
Variable lower : str -> str.

(** [_run_carmack_critic]; [design] is the text of [design.md] if the file
    exists. *)
Definition run_carmack_critic (design : option str) (iteration : Z)
  : CriticResult :=
  let content := match design with Some text => text | None => [] end in
  let heading_count := Z.of_nat (count (py "#") content) in
  let length := Z.of_nat (List.length (split content)) in
  let score := Z.min 10 (4 + heading_count + length / 200) in
  let issues :=
    (if (heading_count <? 3)%Z
     then [py "Add more structured sections to the design."] else [])
    ++ (if negb (contains (py "performance") (lower content))
        then [py "Explicitly discuss performance considerations."]
        else []) in
  {| persona := py "john_carmack";
     score := score;
     issues := issues;
     suggestions := py "Iterate on the architecture and quantify trade-offs.";
     iteration := iteration |}.

End Critic.

End DesignRefinement.

From Stdlib Require DecimalString.

(* ===================================================================== *)
(** * [app/services/terminal_emulator.py]: line ends *)
(* ===================================================================== *)

Module TerminalEmulator.
Import Py.

Definition CR : char := 13%N.
Definition LF : char := 10%N.

(** [prev == "\r"]; [prev] is the empty string before the first character. *)
Definition is_cr (prev : option char) : bool :=
  match prev with
  | Some p => (p =? CR)%N
  | None => false
  end.

(** The [for] loop of [_ensure_crlf] over the characters left, joined. *)
Fixpoint ensure_crlf_loop (prev : option char) (raw_text : str) : str :=
  match raw_text with
  | [] => []
  | ch :: rest =>
      (if (ch =? LF)%N && negb (is_cr prev) then [CR; LF] else [ch])
      ++ ensure_crlf_loop (Some ch) rest
  end.

(** [TerminalEmulator._ensure_crlf] *)
Definition ensure_crlf (raw_text : str) : str :=
  if negb (nonempty raw_text) then raw_text
  else ensure_crlf_loop None raw_text.

End TerminalEmulator.

(* ===================================================================== *)
(** * [app/services/pty_watcher.py]: the list of panes *)
(* ===================================================================== *)

Module WatcherPanes.
Import Py Watcher.

Definition TAB : char := 9%N.

(** [s.split(sep)] for a separator of one character; [cur] is the piece
    being read, reversed. *)
Fixpoint split_on (sep : char) (cur : str) (s : str) : list str :=
  match s with
  | [] => [rev cur]
  | c :: r =>
      if (c =? sep)%N then rev cur :: split_on sep [] r
      else split_on sep (c :: cur) r
  end.

Section Paths.

(** [str(Path(s))]: the spelling [pathlib] gives a path. *)
Variable path : str -> str.

(** The body of the loop of [_list_tmux_panes] on one line: the pane the
    line adds, if it adds one. *)
Definition parse_line (line : str) : option PaneInfo :=
  if negb (nonempty (strip line)) then None
  else
    match split_on TAB [] line with
    | [pane_id; session; window_index; pane_index; cwd; title] =>
        Some {| pane_id := strip pane_id;
                session_name := strip session;
                window_index := strip window_index;
                pane_index := strip pane_index;
                cwd := path (if nonempty (strip cwd) then strip cwd
                             else py ".");
                title := strip title |}
    | _ => None
    end.

(** [_list_tmux_panes]; [result] is what [tmux list-panes] gives.  With
    [check=True] an exit code other than 0 raises [CalledProcessError],
    which the function turns into no pane. *)
Definition list_tmux_panes (result : Tmux.CompletedProcess)
  : list PaneInfo :=
  if negb (Tmux.returncode result =? 0)%Z then []
  else omap parse_line (splitlines (Tmux.stdout result)).

End Paths.

End WatcherPanes.

(* ===================================================================== *)
(** * [app/flows/design_refinement.py]: the coordinator *)
(* ===================================================================== *)

Module Coordinator.
Import Py DesignRefinement.

(** [str(n)] of an [int]. *)
Definition decimal (n : Z) : str :=
  py (DecimalString.NilZero.string_of_int (Z.to_int n)).

(** What [start_design_flow] writes into [flow.config]: a prompt and two
    integers under three keys.  The coordinator is modelled on flows with
    such a configuration. *)
Record FlowConfig := {
  initial_prompt : str;
  max_iterations : Z;
  min_score : Z
}.

Definition config_value (config : FlowConfig) : pyval :=
  VDict [(py "initial_prompt", VStr (initial_prompt config));
         (py "max_iterations", VInt (max_iterations config));
         (py "min_score", VInt (min_score config))].

Definition read_config (v : pyval) : option FlowConfig :=
  match v with
  | VDict [(k1, VStr prompt); (k2, VInt iterations); (k3, VInt score)] =>
      if str_eqb k1 (py "initial_prompt")
         && str_eqb k2 (py "max_iterations")
         && str_eqb k3 (py "min_score")
      then Some {| initial_prompt := prompt;
                   max_iterations := iterations;
                   min_score := score |}
      else None
  | _ => None
  end.

(** [app/schemas.py]: [TaskCreate] *)
Record TaskCreate := {
  tool : str;
  spec : pyval;
  task_flow_id : option str
}.

(** [app/models.py]: [FlowIteration] *)
Record FlowIteration := {
  flow_id : str;
  iteration_index : Z;
  coder_task_id : str;
  critic_task_payload : pyval
}.

(** The text [_write_initial_design] writes. *)
Definition initial_design (prompt : str) : str :=
  py "# Design Draft" ++ Runtime.NEWLINE ++ Runtime.NEWLINE ++ prompt
  ++ Runtime.NEWLINE.

(** [_build_coder_spec] *)
Definition build_coder_spec (config : FlowConfig) (iteration : Z) : pyval :=
  VDict
    [(py "description", VStr (py "Refine design document"));
     (py "files", VList [VStr (py "design.md")]);
     (py "instructions",
      VStr (py "Update design.md to reflect feedback and improve clarity, performance, and feasibility. "
            ++ py "This is iteration " ++ decimal iteration
            ++ py " of the refinement loop."));
     (py "context",
      VDict [(py "iteration", VInt iteration);
             (py "initial_prompt", VStr (initial_prompt config))])].

(** The dict [_run_carmack_critic] returns. *)
Definition critic_value (critic : CriticResult) : pyval :=
  VDict [(py "persona", VStr (persona critic));
         (py "score", VInt (score critic));
         (py "issues", VList (List.map VStr (issues critic)));
         (py "suggestions", VStr (suggestions critic));
         (py "iteration", VInt (iteration critic))].

(** ** The writes of the coordinator to storage

    Each opens a session of its own and commits; a flow that is not found
    is left alone. *)

Definition write_flow (s : Store) (key : str) (flow : Flow.t)
  (status : FlowStatus.t) (state result : pyval) : Store :=
  Runtime.put_flow s key {|
    Flow.id := Flow.id flow;
    Flow.status := status;
    Flow.worker_id := Flow.worker_id flow;
    Flow.config := Flow.config flow;
    Flow.state := state;
    Flow.result := result
  |}.

(** Lines 30 to 32 of [_run]. *)
Definition mark_worker_missing (s : Store) (flow_id : str) : Store :=
  match flows s !! flow_id with
  | None => s
  | Some flow =>
      write_flow s flow_id flow FlowStatus.failed (Flow.state flow)
        (VDict [(py "reason", VStr (py "worker_missing"))])
  end.

(** [_record_iteration]: the flow's state, and the row it adds. *)
Definition record_iteration (s : Store) (rows : list FlowIteration)
  (flow_id : str) (iteration : Z) (task_id : str) (critic : CriticResult)
  : Store * list FlowIteration :=
  match flows s !! flow_id with
  | None => (s, rows)
  | Some flow =>
      (write_flow s flow_id flow (Flow.status flow)
         (VDict [(py "last_iteration", VInt iteration);
                 (py "last_score", VInt (score critic));
                 (py "last_critic", critic_value critic)])
         (Flow.result flow),
       rows ++ [{| flow_id := flow_id;
                   iteration_index := iteration;
                   coder_task_id := task_id;
                   critic_task_payload := critic_value critic |}])
  end.

(** [_mark_completed] *)
Definition mark_completed (s : Store) (flow_id : str) (iteration : Z)
  (critic : CriticResult) : Store :=
  match flows s !! flow_id with
  | None => s
  | Some flow =>
      write_flow s flow_id flow FlowStatus.completed (Flow.state flow)
        (VDict [(py "final_iteration", VInt iteration);
                (py "critic", critic_value critic)])
  end.

(** [_mark_failed] *)
Definition mark_failed (s : Store) (flow_id : str) (reason : str)
  (details : pyval) : Store :=
  match flows s !! flow_id with
  | None => s
  | Some flow =>
      write_flow s flow_id flow FlowStatus.failed (Flow.state flow)
        (VDict [(py "reason", VStr reason); (py "details", details)])
  end.

(** ** [_run]

    What the coordinator does, in the order it does it: the calls it makes
    on the rest of the service and its writes to storage. *)
Inductive action :=
| WorkerMissing
| WriteDesign (text : str)
| CreateTask (worker_id : str) (payload : TaskCreate)
| AwaitTask (task_id : str)
| RecordIteration (iteration : Z) (task_id : str) (critic : CriticResult)
| MarkCompleted (iteration : Z) (critic : CriticResult)
| MarkFailed (reason : str) (details : pyval).

(** What [wait_for_task_completion] meets: the task reaches completed, or
    failed, or neither ever, and the wait goes on. *)
Inductive finish := Completes | Fails | Hangs.

Section Run.

Variable lower : str -> str.

(** The exceptions of [create_task]. *)
Variable error : Type.

(** What an iteration meets outside the coordinator: [create_task] raises
    or returns a task with an id; the wait for the task; the text of
    design.md, if the file is there, when the critic reads it. *)
Record Attempt := {
  created : error + str;
  finished : finish;
  design : option str
}.

(** How [_run] ends: it returns, [create_task] raises, or the wait for a
    task never ends. *)
Inductive ending :=
| Done
| CreateRaised (e : error)
| Waiting (task_id : str).

Variable attempt : Z -> Attempt.

(** The [for] loop of [_run], with [rounds] iterations to go from
    [iteration] on; then line 53. *)
Fixpoint iterate (flow_id : str) (worker : Worker.t) (config : FlowConfig)
  (rounds : nat) (iteration : Z) : list action * ending :=
  match rounds with
  | O => ([MarkFailed (py "max_iterations_reached") VNone], Done)
  | S rounds =>
      let payload :=
        {| tool := py "codex";
           spec := build_coder_spec config iteration;
           task_flow_id := Some flow_id |} in
      let create := CreateTask (Worker.id worker) payload in
      match created (attempt iteration) with
      | inl e => ([create], CreateRaised e)
      | inr task_id =>
          match finished (attempt iteration) with
          | Hangs => ([create; AwaitTask task_id], Waiting task_id)
          | Fails =>
              ([create; AwaitTask task_id;
                MarkFailed (py "coder_task_failed")
                  (VDict [(py "task_id", VStr task_id)])],
               Done)
          | Completes =>
              let critic :=
                run_carmack_critic lower (design (attempt iteration))
                  iteration in
              let record := RecordIteration iteration task_id critic in
              if (min_score config <=? score critic)%Z then
                ([create; AwaitTask task_id; record;
                  MarkCompleted iteration critic],
                 Done)
              else
                let '(actions, e) :=
                  iterate flow_id worker config rounds (iteration + 1) in
                (create :: AwaitTask task_id :: record :: actions, e)
          end
      end
  end.

(** [_run] on the storage [s] it finds; [None] for a flow whose
    configuration is not of the shape above. *)
Definition run (s : Store) (flow_id : str) : option (list action * ending) :=
  match flows s !! flow_id with
  | None => Some ([], Done)
  | Some flow =>
      match workers s !! Flow.worker_id flow with
      | None => Some ([WorkerMissing], Done)
      | Some worker =>
          match read_config (Flow.config flow) with
          | None => None
          | Some config =>
              let '(actions, e) :=
                iterate flow_id worker config
                  (Z.to_nat (max_iterations config)) 1 in
              Some (WriteDesign (initial_design (initial_prompt config))
                    :: actions, e)
          end
      end
  end.

End Run.

(** The writes of an action to storage. *)
Definition perform (flow_id : str) (db : Store * list FlowIteration)
  (a : action) : Store * list FlowIteration :=
  match a with
  | WorkerMissing => (mark_worker_missing (fst db) flow_id, snd db)
  | RecordIteration iteration task_id critic =>
      record_iteration (fst db) (snd db) flow_id iteration task_id critic
  | MarkCompleted iteration critic =>
      (mark_completed (fst db) flow_id iteration critic, snd db)
  | MarkFailed reason details =>
      (mark_failed (fst db) flow_id reason details, snd db)
  | WriteDesign _ | CreateTask _ _ | AwaitTask _ => db
  end.

End Coordinator.

(* ===================================================================== *)
(** * [app/services/task_runner.py] and the registry of runtimes *)
(* ===================================================================== *)

Module TaskRunner.
Import Py.

(** The exceptions [create_task] ends with: its own, and the one of
    tmux. *)
Inductive error :=
| ValueError (message : str)
| Tmux (e : exn).

Definition TOOL_SHIMS : list (str * str) :=
  [(py "codex", py "run_codex_task.sh");
   (py "claude", py "run_claude_task.sh");
   (py "gemini", py "run_gemini_task.sh");
   (py "critic_llm", py "run_critic_task.sh")].

(** [shims.get(tool)] *)
Fixpoint shim_for (shims : list (str * str)) (tool : str) : option str :=
  match shims with
  | [] => None
  | (name, shim) :: rest =>
      if str_eqb name tool then Some shim else shim_for rest tool
  end.

(** [shlex.quote]: a text of letters, digits and the characters
    [_@%+=:,./-] is left alone; any other is put between single quotes,
    each single quote of its own written as a single quote between double
    quotes. *)
Definition APOSTROPHE : char := 39%N.

Definition is_safe (c : char) : bool :=
  ((48 <=? c) && (c <=? 57) || (65 <=? c) && (c <=? 90)
   || (97 <=? c) && (c <=? 122) || (c =? 95) || (c =? 64) || (c =? 37)
   || (c =? 43) || (c =? 61) || (c =? 58) || (c =? 44) || (c =? 46)
   || (c =? 47) || (c =? 45))%N.

Definition quote (s : str) : str :=
  if negb (nonempty s) then [APOSTROPHE; APOSTROPHE]
  else if forallb is_safe s then s
  else [APOSTROPHE]
       ++ concat (List.map
                    (fun c =>
                       if (c =? APOSTROPHE)%N
                       then [APOSTROPHE; 34%N; APOSTROPHE; 34%N; APOSTROPHE]
                       else [c])
                    s)
       ++ [APOSTROPHE].

(** [TmuxController.send_line]; [first] and [second] are what the two
    tmux processes give, the second being started only when the first
    went well.  The result comes with the arguments tmux was called
    with. *)
Definition send_keys (c : Tmux.TmuxController) (keys : str) : list str :=
  [py "send-keys"; py "-t"; Tmux.session c ++ py ":" ++ Tmux.pane c; keys].

Definition send_line (c : Tmux.TmuxController) (command : str)
  (first second : Tmux.CompletedProcess) : list (list str) * (exn + unit) :=
  match Tmux.run first with
  | inl e => ([send_keys c command], inl e)
  | inr _ =>
      match Tmux.run second with
      | inl e => ([send_keys c command; send_keys c (py "C-m")], inl e)
      | inr _ => ([send_keys c command; send_keys c (py "C-m")], inr tt)
      end
  end.

(** The service around a task: the runtimes of the registry by worker id,
    what storage holds, and the readings of the clock so far. *)
Record Service := {
  registry : gmap str Runtime.WorkerRuntime;
  storage : Store;
  clock : nat
}.

(** What a call does outside storage and registry. *)
Inductive effect :=
| SpecWritten (path : str) (spec : pyval)
| TmuxCalled (arguments : list str).

Section Runner.

(** [str(Path(a) / b)] *)
Variable path_join : str -> str -> str.
(** [str(SHIMS_DIR)] *)
Variable shims_dir : str.
Variable utcnow : nat -> timestamp.
Variable settings : Config.Settings.

(** [_build_command] *)
Definition build_command (tool : str) (spec_path : str) : error + str :=
  let unsupported :=
    inl (ValueError (py "Unsupported tool '" ++ tool ++ py "'")) in
  match shim_for TOOL_SHIMS tool with
  | Some shim =>
      if negb (nonempty shim) then unsupported
      else inr (py "bash " ++ quote (path_join shims_dir shim) ++ py " "
                ++ quote spec_path)
  | None => unsupported
  end.

(** [create_task], in a session of its own on storage; [new_id] is the
    UUID the new row gets, [first] and [second] what tmux gives when the
    command is sent.  An exception before the commit leaves storage as it
    was. *)
Definition create_task (svc : Service) (worker_id : str)
  (payload : Coordinator.TaskCreate) (new_id : str)
  (first second : Tmux.CompletedProcess)
  : list effect * (error + Task.t) * Service :=
  match workers (storage svc) !! worker_id with
  | None => ([], inl (ValueError (py "Worker not found")), svc)
  | Some worker =>
      let file := new_id ++ py ".json" in
      let written :=
        SpecWritten
          (path_join (path_join (Worker.workspace_path worker) (py "specs"))
             file)
          (Coordinator.spec payload) in
      match build_command (Coordinator.tool payload)
              (path_join (py "specs") file) with
      | inl e => ([written], inl e, svc)
      | inr command =>
          let task := {|
            Task.id := new_id;
            Task.worker_id := worker_id;
            Task.tool := Coordinator.tool payload;
            Task.spec_json := Coordinator.spec payload;
            Task.status := TaskStatus.running;
            Task.result_json := VNone;
            Task.error_message := VNone;
            Task.started_at := Some (utcnow (clock svc));
            Task.finished_at := None;
            Task.flow_id := Coordinator.task_flow_id payload
          |} in
          let s := Runtime.put_task (storage svc) new_id task in
          let s :=
            Runtime.put_worker s worker_id {|
              Worker.id := Worker.id worker;
              Worker.status := WorkerStatus.busy;
              Worker.tmux_session := Worker.tmux_session worker;
              Worker.workspace_path := Worker.workspace_path worker;
              Worker.last_seen_at := Worker.last_seen_at worker
            |} in
          let s :=
            Runtime.add_event s {|
              TaskEvent.task_id := new_id;
              TaskEvent.type := TaskEventType.state_change;
              TaskEvent.payload :=
                VDict [(py "state", VStr (py "running"));
                       (py "command", VStr command)]
            |} in
          (* runtime_registry.get, or ensure_runtime *)
          let rt :=
            match registry svc !! worker_id with
            | Some rt => rt
            | None =>
                Runtime.init settings worker_id (Worker.tmux_session worker)
                  (Worker.workspace_path worker)
            end in
          (* enqueue_task *)
          let rt := Runtime.enqueue_task rt new_id in
          let '(calls, sent) :=
            send_line (Runtime.controller rt) command first second in
          (written :: List.map TmuxCalled calls,
           match sent with
           | inl e => inl (Tmux e)
           | inr _ => inr task
           end,
           {| registry := <[worker_id := rt]> (registry svc);
              storage := s;
              clock := S (clock svc) |})
      end
  end.

(** The monitor of a worker, between two turns: its runtime with storage
    as it is. *)
Definition monitor (svc : Service) (worker_id : str)
  : option Runtime.State :=
  match registry svc !! worker_id with
  | Some rt =>
      Some {| Runtime.runtime := rt;
              Runtime.session := storage svc;
              Runtime.database := storage svc;
              Runtime.ticks := clock svc |}
  | None => None
  end.

End Runner.

End TaskRunner.

(* ===================================================================== *)
(** * The decoder always answers *)
(* ===================================================================== *)

Module JsonFuel.
Import Py Json.

Lemma skip_ws_length s : length (skip_ws s) <= length s.
Proof.
  induction s as [|c r IH]; simpl; [lia|].
  destruct (is_ws c); simpl; lia.
Qed.

Lemma scanstring_length s : forall acc x r,
  scanstring acc s = Some (x, r) -> length r < length s.
Proof.
  induction s as [s IH] using (well_founded_induction
    (well_founded_ltof _ (@length N))).
  unfold ltof in IH.
  intros acc x r H. destruct s as [|c s1]; simpl in H; [discriminate|].
  repeat match type of H with
  | Some _ = Some _ => injection H as <- <-; simpl; lia
  | None = Some _ => discriminate
  | scanstring _ ?t = Some _ => apply IH in H; simpl in *; lia
  | context [match ?l with [] => _ | _ :: _ => _ end] => destruct l
  | context [match ?o with Some _ => _ | None => _ end] => destruct o
  | context [if ?b then _ else _] => destruct b
  end.
Qed.

Lemma span_digits_length s : length (snd (span_digits s)) <= length s.
Proof.
  induction s as [|c r IH]; simpl; [lia|].
  destruct (is_digit c); simpl; [|lia].
  destruct (span_digits r); simpl in *; lia.
Qed.

Lemma match_integer_length s neg ds r :
  match_integer s = Some (neg, ds, r) -> length r < length s.
Proof.
  unfold match_integer. intros H.
  destruct s as [|c s']; [discriminate|].
  destruct (c =? MINUS)%N.
  - destruct s' as [|d s'']; [discriminate|].
    destruct (d =? 48)%N; [injection H as <- <- <-; simpl; lia|].
    destruct (is_digit d); [|discriminate].
    pose proof (span_digits_length s'') as E.
    destruct (span_digits s''). injection H as <- <- <-. simpl in *. lia.
  - destruct (c =? 48)%N; [injection H as <- <- <-; simpl; lia|].
    destruct (is_digit c); [|discriminate].
    pose proof (span_digits_length s') as E.
    destruct (span_digits s'). injection H as <- <- <-. simpl in *. lia.
Qed.

Lemma match_frac_length s ds r :
  match_frac s = Some (ds, r) -> length r < length s.
Proof.
  unfold match_frac. intros H.
  destruct s as [|c s']; [discriminate|].
  destruct (c =? DOT)%N; [|discriminate].
  pose proof (span_digits_length s') as E.
  destruct (span_digits s') as [[|d ds'] r']; [discriminate|].
  injection H as <- <-. simpl in *. lia.
Qed.

Lemma match_exp_length s e r :
  match_exp s = Some (e, r) -> length r < length s.
Proof.
  unfold match_exp. intros H.
  destruct s as [|c s']; [discriminate|].
  destruct ((c =? 101) || (c =? 69))%N; [|discriminate].
  destruct s' as [|sg s''].
  - simpl in H. discriminate H.
  - pose proof (span_digits_length s'') as E1.
    pose proof (span_digits_length (sg :: s'')) as E2.
    destruct (sg =? MINUS)%N; [|destruct (sg =? PLUS)%N].
    + destruct (span_digits s'') as [[|d ds'] r']; [discriminate|].
      injection H as <- <-. simpl in *. lia.
    + destruct (span_digits s'') as [[|d ds'] r']; [discriminate|].
      injection H as <- <-. simpl in *. lia.
    + destruct (span_digits (sg :: s'')) as [[|d ds'] r']; [discriminate|].
      injection H as <- <-. simpl in *. lia.
Qed.

Lemma match_number_length s v r :
  match_number s = Some (v, r) -> length r < length s.
Proof.
  unfold match_number. intros H.
  destruct (match_integer s) as [[[neg ids] r1]|] eqn:E1; [|discriminate].
  apply match_integer_length in E1.
  destruct (match_frac r1) as [[fs r2]|] eqn:E2.
  - apply match_frac_length in E2.
    destruct (match_exp r2) as [[e r3]|] eqn:E3.
    + apply match_exp_length in E3. injection H as <- <-. lia.
    + injection H as <- <-. lia.
  - destruct (match_exp r1) as [[e r3]|] eqn:E3.
    + apply match_exp_length in E3. injection H as <- <-. lia.
    + injection H as <- <-. lia.
Qed.

Lemma startswith_length p s : startswith p s = true -> length p <= length s.
Proof.
  revert s. induction p as [|a p IH]; intros [|b s]; simpl; try lia.
  intros [_ H]%andb_true_iff. apply IH in H. lia.
Qed.

Lemma scan_once_S n s :
  scan_once (S n) s =
      match s with
      | [] => Invalid
      | c :: r =>
          if (c =? QUOTE)%N then
            match scanstring [] r with
            | Some (x, r') => Scanned (VStr x) r'
            | None => Invalid
            end
          else if (c =? LBRACE)%N then
            match skip_ws r with
            | c1 :: r1 =>
                if (c1 =? RBRACE)%N then Scanned (VDict []) r1
                else if (c1 =? QUOTE)%N then object_items n [] r1
                else Invalid
            | [] => Invalid
            end
          else if (c =? LBRACKET)%N then
            match skip_ws r with
            | c1 :: r1 =>
                if (c1 =? RBRACKET)%N then Scanned (VList []) r1
                else array_items n [] (c1 :: r1)
            | [] => Invalid
            end
          else if startswith (py "null") s then Scanned VNone (skipn 4 s)
          else if startswith (py "true") s then
            Scanned (VBool true) (skipn 4 s)
          else if startswith (py "false") s then
            Scanned (VBool false) (skipn 5 s)
          else
            match match_number s with
            | Some (v, r') => Scanned v r'
            | None =>
                if startswith (py "NaN") s then
                  Scanned (VFloat FNan) (skipn 3 s)
                else if startswith (py "Infinity") s then
                  Scanned (VFloat (FInf false)) (skipn 8 s)
                else if startswith (py "-Infinity") s then
                  Scanned (VFloat (FInf true)) (skipn 9 s)
                else Invalid
            end
      end.
Proof. reflexivity. Qed.

Lemma object_items_S n acc s :
  object_items (S n) acc s =
      match scanstring [] s with
      | None => Invalid
      | Some (key, r) =>
          match skip_ws r with
          | c :: r1 =>
              if (c =? COLON)%N then
                match scan_once n (skip_ws r1) with
                | Scanned v r2 =>
                    match skip_ws r2 with
                    | d :: r3 =>
                        if (d =? RBRACE)%N then
                          Scanned
                            (VDict (dict_of_pairs (rev ((key, v) :: acc))))
                            r3
                        else if (d =? COMMA)%N then
                          match skip_ws r3 with
                          | q :: r4 =>
                              if (q =? QUOTE)%N
                              then object_items n ((key, v) :: acc) r4
                              else Invalid
                          | [] => Invalid
                          end
                        else Invalid
                    | [] => Invalid
                    end
                | other => other
                end
              else Invalid
          | [] => Invalid
          end
      end.
Proof. reflexivity. Qed.

Lemma array_items_S n acc s :
  array_items (S n) acc s =
      match scan_once n s with
      | Scanned v r =>
          match skip_ws r with
          | d :: r1 =>
              if (d =? RBRACKET)%N then Scanned (VList (rev (v :: acc))) r1
              else if (d =? COMMA)%N then array_items n (v :: acc) (skip_ws r1)
              else Invalid
          | [] => Invalid
          end
      | other => other
      end.
Proof. reflexivity. Qed.

(** Scanning a value consumes at least one character. *)
Lemma scan_length fuel :
  (forall s v r, scan_once fuel s = Scanned v r -> length r < length s) /\
  (forall acc s v r,
     object_items fuel acc s = Scanned v r -> length r < length s) /\
  (forall acc s v r,
     array_items fuel acc s = Scanned v r -> length r < length s).
Proof.
  induction fuel as [|n (IHv & IHo & IHa)].
  { repeat split; intros; discriminate. }
  repeat split.
  - intros s v r. rewrite scan_once_S.
    destruct s as [|c s']; [discriminate|].
    destruct (c =? QUOTE)%N.
    { destruct (scanstring [] s') as [[x r']|] eqn:E; [|discriminate].
      apply scanstring_length in E. intros [= <- <-]. simpl. lia. }
    destruct (c =? LBRACE)%N.
    { pose proof (skip_ws_length s') as Hw.
      destruct (skip_ws s') as [|c1 r1]; [discriminate|].
      destruct (c1 =? RBRACE)%N; [intros [= <- <-]; simpl in *; lia|].
      destruct (c1 =? QUOTE)%N; [|discriminate].
      intros H%IHo. simpl in *. lia. }
    destruct (c =? LBRACKET)%N.
    { pose proof (skip_ws_length s') as Hw.
      destruct (skip_ws s') as [|c1 r1]; [discriminate|].
      destruct (c1 =? RBRACKET)%N; [intros [= <- <-]; simpl in *; lia|].
      intros H%IHa. simpl in *. lia. }
    repeat match goal with
    | |- (if startswith ?p ?t then _ else _) = _ -> _ =>
        let E := fresh in
        destruct (startswith p t) eqn:E;
        [apply startswith_length in E; intros [= <- <-];
         rewrite length_skipn; simpl in *; lia|]
    | |- match match_number ?t with _ => _ end = _ -> _ =>
        let E := fresh in
        destruct (match_number t) as [[? ?]|] eqn:E;
        [apply match_number_length in E; intros [= <- <-]; simpl in *; lia|]
    end.
    discriminate.
  - intros acc s v r. rewrite object_items_S.
    destruct (scanstring [] s) as [[key r0]|] eqn:E; [|discriminate].
    apply scanstring_length in E.
    pose proof (skip_ws_length r0) as Hw0.
    destruct (skip_ws r0) as [|c r1]; [discriminate|].
    destruct (c =? COLON)%N; [|discriminate].
    pose proof (skip_ws_length r1) as Hw1.
    destruct (scan_once n (skip_ws r1)) as [v2 r2| |] eqn:Ev; try discriminate.
    apply IHv in Ev.
    pose proof (skip_ws_length r2) as Hw2.
    destruct (skip_ws r2) as [|d r3]; [discriminate|].
    destruct (d =? RBRACE)%N; [intros [= <- <-]; simpl in *; lia|].
    destruct (d =? COMMA)%N; [|discriminate].
    pose proof (skip_ws_length r3) as Hw3.
    destruct (skip_ws r3) as [|q r4]; [discriminate|].
    destruct (q =? QUOTE)%N; [|discriminate].
    intros H%IHo. simpl in *. lia.
  - intros acc s v r. rewrite array_items_S.
    destruct (scan_once n s) as [v2 r2| |] eqn:Ev; try discriminate.
    apply IHv in Ev.
    pose proof (skip_ws_length r2) as Hw2.
    destruct (skip_ws r2) as [|d r3]; [discriminate|].
    destruct (d =? RBRACKET)%N; [intros [= <- <-]; simpl in *; lia|].
    destruct (d =? COMMA)%N; [|discriminate].
    pose proof (skip_ws_length r3) as Hw3.
    intros H%IHa. simpl in *. lia.
Qed.

(** With twice the length of the text and one more, the counter lasts. *)
Lemma scan_fuel fuel :
  (forall s, 2 * length s + 1 <= fuel -> scan_once fuel s <> Exhausted) /\
  (forall acc s,
     2 * length s + 2 <= fuel -> object_items fuel acc s <> Exhausted) /\
  (forall acc s,
     2 * length s + 2 <= fuel -> array_items fuel acc s <> Exhausted).
Proof.
  induction fuel as [|n (IHv & IHo & IHa)].
  { repeat split; intros; lia. }
  repeat split.
  - intros s Hf. rewrite scan_once_S.
    destruct s as [|c s']; [discriminate|]. simpl in Hf.
    destruct (c =? QUOTE)%N.
    { destruct (scanstring [] s') as [[x r']|]; discriminate. }
    destruct (c =? LBRACE)%N.
    { pose proof (skip_ws_length s') as Hw.
      destruct (skip_ws s') as [|c1 r1]; [discriminate|].
      destruct (c1 =? RBRACE)%N; [discriminate|].
      destruct (c1 =? QUOTE)%N; [|discriminate].
      apply IHo. simpl in *. lia. }
    destruct (c =? LBRACKET)%N.
    { pose proof (skip_ws_length s') as Hw.
      destruct (skip_ws s') as [|c1 r1]; [discriminate|].
      destruct (c1 =? RBRACKET)%N; [discriminate|].
      apply IHa. simpl in *. lia. }
    repeat match goal with
    | |- (if ?b then _ else _) <> _ => destruct b; [discriminate|]
    | |- match match_number ?t with _ => _ end <> _ =>
        destruct (match_number t) as [[? ?]|]; [discriminate|]
    end.
    discriminate.
  - intros acc s Hf. rewrite object_items_S.
    destruct (scanstring [] s) as [[key r0]|] eqn:E; [|discriminate].
    apply scanstring_length in E.
    pose proof (skip_ws_length r0) as Hw0.
    destruct (skip_ws r0) as [|c r1]; [discriminate|].
    destruct (c =? COLON)%N; [|discriminate].
    pose proof (skip_ws_length r1) as Hw1.
    assert (scan_once n (skip_ws r1) <> Exhausted) as Hne
      by (apply IHv; simpl in *; lia).
    destruct (scan_once n (skip_ws r1)) as [v2 r2| |] eqn:Ev;
      [|discriminate|congruence].
    apply (proj1 (scan_length n)) in Ev.
    pose proof (skip_ws_length r2) as Hw2.
    destruct (skip_ws r2) as [|d r3]; [discriminate|].
    destruct (d =? RBRACE)%N; [discriminate|].
    destruct (d =? COMMA)%N; [|discriminate].
    pose proof (skip_ws_length r3) as Hw3.
    destruct (skip_ws r3) as [|q r4]; [discriminate|].
    destruct (q =? QUOTE)%N; [|discriminate].
    apply IHo. simpl in *. lia.
  - intros acc s Hf. rewrite array_items_S.
    assert (scan_once n s <> Exhausted) as Hne by (apply IHv; lia).
    destruct (scan_once n s) as [v2 r2| |] eqn:Ev;
      [|discriminate|congruence].
    apply (proj1 (scan_length n)) in Ev.
    pose proof (skip_ws_length r2) as Hw2.
    destruct (skip_ws r2) as [|d r3]; [discriminate|].
    destruct (d =? RBRACKET)%N; [discriminate|].
    destruct (d =? COMMA)%N; [|discriminate].
    pose proof (skip_ws_length r3) as Hw3.
    apply IHa. simpl in *. lia.
Qed.

(** [json.loads] returns or raises [JSONDecodeError]: decoding is never cut
    short by the counter. *)
Lemma loads_fuel s : decode s <> Exhausted.
Proof.
  unfold decode, fuel_for.
  pose proof (skip_ws_length s) as Hw.
  assert (scan_once (2 * length s + 2) (skip_ws s) <> Exhausted) as Hne
    by (apply (proj1 (scan_fuel _)); lia).
  destruct (scan_once (2 * length s + 2) (skip_ws s)) as [v r| |];
    [|discriminate|congruence].
  destruct (skip_ws r); discriminate.
Qed.

(** So [json_loads] gives [None] exactly where the decoder raises. *)
Lemma json_loads_none s :
  json_loads s = None <-> startswith [BOM] s = true \/ decode s = Invalid.
Proof.
  unfold json_loads. pose proof (loads_fuel s) as Hfuel.
  destruct (startswith [BOM] s); [intuition|].
  destruct (decode s); intuition congruence.
Qed.

End JsonFuel.

(* ===================================================================== *)
(** * The pane cursor *)
(* ===================================================================== *)

Module TmuxFacts.
Import Py Tmux.

Lemma run_ok result : returncode result = 0%Z -> run result = inr result.
Proof. unfold run. intros ->. reflexivity. Qed.

Lemma run_failed result :
  returncode result <> 0%Z -> exists message, run result = inl (TmuxCommandError message).
Proof.
  unfold run. intros H. apply Z.eqb_neq in H. rewrite H. simpl. eauto.
Qed.

(** C6.  A controller starts with its cursor at 0.  Every capture that tmux
    answers returns the whole text, and as new text the part from the
    cursor on when the text is at least as long as the cursor, the whole
    text when it is shorter; the cursor is then the length of the text. *)
Theorem capture_pane_cursor (settings : Config.Settings) (session pane : str)
  (c : TmuxController) (result : CompletedProcess) :
  returncode result = 0%Z ->
  last_size (init settings session pane) = 0 /\
  exists snapshot c',
    capture_pane c result = inr (snapshot, c') /\
    text snapshot = stdout result /\
    (last_size c <= length (stdout result) ->
     new_text snapshot = skipn (last_size c) (stdout result)) /\
    (length (stdout result) < last_size c ->
     new_text snapshot = stdout result) /\
    last_size c' = length (stdout result).
Proof.
  intros Hok. split; [reflexivity|].
  unfold capture_pane. rewrite (run_ok _ Hok).
  eexists _, _. split; [reflexivity|]. simpl.
  repeat split.
  - intros H. apply Nat.leb_le in H. rewrite H. reflexivity.
  - intros H. apply Nat.leb_gt in H. rewrite H. reflexivity.
Qed.

Definition sample_controller : TmuxController :=
  set_last_size (init Config.defaults (py "worker-1") (py "0")) 3.

Definition sample_capture : CompletedProcess :=
  {| returncode := 0; stdout := py "abcdef"; stderr := [] |}.

Lemma capture_pane_cursor_witness :
  exists snapshot c',
    capture_pane sample_controller sample_capture = inr (snapshot, c') /\
    new_text snapshot = py "def" /\ last_size c' = 6.
Proof.
  destruct (capture_pane_cursor Config.defaults (py "worker-1") (py "0")
              sample_controller sample_capture eq_refl)
    as (_ & snapshot & c' & Hc & _ & Hnew & _ & Hsize).
  exists snapshot, c'. split; [exact Hc|]. split; [|exact Hsize].
  rewrite Hnew; [reflexivity|]. simpl. lia.
Defined.

(** A capture tmux refuses raises and leaves the cursor where it was: the
    function has not reached the controller. *)
Lemma capture_pane_refused c result :
  returncode result <> 0%Z ->
  exists message, capture_pane c result = inl (TmuxCommandError message).
Proof.
  intros H. unfold capture_pane.
  destruct (run_failed _ H) as [message ->]. eauto.
Qed.

(** When the pane only grew since the last capture, the new text is what
    was appended. *)
Lemma capture_pane_appended c old delta :
  last_size c = length old ->
  capture_pane c {| returncode := 0; stdout := old ++ delta; stderr := [] |}
  = inr ({| text := old ++ delta; new_text := delta |},
         set_last_size c (length (old ++ delta))).
Proof.
  intros Hc. unfold capture_pane. simpl. rewrite Hc.
  assert ((length old <=? length (old ++ delta)) = true) as ->.
  { apply Nat.leb_le. rewrite length_app. lia. }
  rewrite skipn_app, skipn_all, Nat.sub_diag. reflexivity.
Qed.

End TmuxFacts.

(* ===================================================================== *)
(** * The regex classifier *)
(* ===================================================================== *)

Module ClassifierFacts.
Import Py Watcher.

Section Precedence.

Variable regex : Type.
Variable search : regex -> str -> bool.

(** Some pattern of the list is found in the text. *)
Definition some_match (patterns : list regex) (text : str) : Prop :=
  exists pattern, In pattern patterns /\ search pattern text = true.

Lemma match_any_iff patterns text :
  match_any regex search patterns text = true <-> some_match patterns text.
Proof.
  unfold match_any, some_match. rewrite existsb_exists. reflexivity.
Qed.

Lemma match_any_false patterns text :
  match_any regex search patterns text = false <-> ~ some_match patterns text.
Proof.
  rewrite <- match_any_iff. destruct (match_any _ _ _ _); split; congruence.
Qed.

(** C8.  The state [RegexClassifier.classify] gives is decided by the pack
    and the text alone, the first of the four pattern lists with a match
    winning in the order error, confirmation, busy, idle; with no match at
    all the state is READY, which is what every text gets from a pack
    without patterns. *)
Theorem regex_classify_precedence (pack : ClassifierPack regex) (text : str) :
  let result := regex_classify regex search pack text in
  (some_match (error_regexes regex pack) text ->
   result_state result = py "ERROR") /\
  (~ some_match (error_regexes regex pack) text ->
   some_match (confirm_regexes regex pack) text ->
   result_state result = py "NEEDS_CONFIRMATION") /\
  (~ some_match (error_regexes regex pack) text ->
   ~ some_match (confirm_regexes regex pack) text ->
   some_match (busy_regexes regex pack) text ->
   result_state result = py "BUSY") /\
  (~ some_match (error_regexes regex pack) text ->
   ~ some_match (confirm_regexes regex pack) text ->
   ~ some_match (busy_regexes regex pack) text ->
   result_state result = py "READY") /\
  (error_regexes regex pack = [] -> confirm_regexes regex pack = [] ->
   busy_regexes regex pack = [] -> idle_regexes regex pack = [] ->
   result_state result = py "READY").
Proof.
  unfold regex_classify. cbv zeta.
  repeat split.
  - intros H%match_any_iff. rewrite H. reflexivity.
  - intros H1%match_any_false H2%match_any_iff. rewrite H1, H2. reflexivity.
  - intros H1%match_any_false H2%match_any_false H3%match_any_iff.
    rewrite H1, H2, H3. reflexivity.
  - intros H1%match_any_false H2%match_any_false H3%match_any_false.
    rewrite H1, H2, H3.
    destruct (match_any regex search (idle_regexes regex pack) text);
      reflexivity.
  - intros -> -> -> ->. reflexivity.
Qed.

(** The pack a CLI without pack file gets has no patterns. *)
Lemma fallback_pack_ready cli_type settings text :
  result_state (regex_classify regex search
                  (fallback_pack regex cli_type settings) text) = py "READY".
Proof. reflexivity. Qed.

(** The summary tells a READY by idle prompt from a READY by default. *)
Lemma regex_classify_idle (pack : ClassifierPack regex) (text : str) :
  ~ some_match (error_regexes regex pack) text ->
  ~ some_match (confirm_regexes regex pack) text ->
  ~ some_match (busy_regexes regex pack) text ->
  result_summary (regex_classify regex search pack text) =
    if match_any regex search (idle_regexes regex pack) text
    then py "Idle prompt detected"
    else py "No activity detected in snapshot".
Proof.
  intros H1%match_any_false H2%match_any_false H3%match_any_false.
  unfold regex_classify. rewrite H1, H2, H3.
  destruct (match_any regex search (idle_regexes regex pack) text);
    reflexivity.
Qed.

End Precedence.

(** Patterns that are plain words, found as substrings: enough of [re] to
    run the classifier on. *)
Definition sample_pack : ClassifierPack str := {|
  name := py "codex";
  stability_polls := 3;
  idle_regexes := [py "$ "];
  busy_regexes := [py "Running"];
  confirm_regexes := [py "[y/N]"];
  error_regexes := [py "Traceback"]
|}.

Lemma regex_classify_precedence_witness :
  result_state (regex_classify str contains sample_pack
                  (py "Running tests ... overwrite? [y/N]"))
  = py "NEEDS_CONFIRMATION".
Proof.
  apply (regex_classify_precedence str contains sample_pack
           (py "Running tests ... overwrite? [y/N]")).
  - intros (p & [<-|[]] & H). vm_compute in H. discriminate H.
  - exists (py "[y/N]"). split; [left; reflexivity|]. vm_compute. reflexivity.
Defined.

End ClassifierFacts.

(* ===================================================================== *)
(** * The critic score *)
(* ===================================================================== *)

Module CriticFacts.
Import Py DesignRefinement.

(** The two counts of the score, said without the library calls: the
    characters of the text that are [#], and the places of the text where a
    word starts, that is a character that is not whitespace at the start of
    the text or after whitespace. *)
Definition HASH : char := 35%N.

Definition hash_chars (content : str) : nat :=
  length (List.filter (fun c => (c =? HASH)%N) content).

Fixpoint word_starts (after_space : bool) (content : str) : nat :=
  match content with
  | [] => 0
  | c :: rest =>
      (if after_space && negb (is_space c) then 1 else 0)
      + word_starts (is_space c) rest
  end.

Definition word_count (content : str) : nat := word_starts true content.

Lemma count_hash content : count (py "#") content = hash_chars content.
Proof.
  change (count_from [HASH] 0 content = hash_chars content).
  induction content as [|c rest IH]; [reflexivity|].
  unfold hash_chars in *. cbn [count_from startswith List.filter length Nat.sub].
  rewrite andb_true_r, (N.eqb_sym HASH c).
  destruct (c =? HASH)%N; simpl; rewrite IH; reflexivity.
Qed.

Lemma split_from_length cur content :
  length (split_from cur content) =
  match cur with
  | [] => word_starts true content
  | _ => S (word_starts false content)
  end.
Proof.
  revert cur. induction content as [|c rest IH]; intros cur; simpl.
  - destruct cur; reflexivity.
  - destruct (is_space c) eqn:Hc; simpl.
    + destruct cur; simpl; rewrite IH; simpl; lia.
    + rewrite IH. destruct cur; simpl; lia.
Qed.

Lemma split_length content : length (split content) = word_count content.
Proof. apply (split_from_length [] content). Qed.

(** The words [split] gives are not empty and hold no whitespace. *)
Lemma split_from_words cur content :
  Forall (fun c => is_space c = false) cur ->
  Forall (fun word => word <> [] /\ Forall (fun c => is_space c = false) word)
    (split_from cur content).
Proof.
  revert cur. induction content as [|c rest IH]; intros cur Hcur; simpl.
  - destruct cur as [|a cur']; constructor; [|constructor].
    split.
    + intros H%(f_equal (@length N)). rewrite length_rev in H. simpl in H.
      lia.
    + apply Forall_rev. exact Hcur.
  - destruct (is_space c) eqn:Hc.
    + destruct cur as [|a cur'].
      * apply IH. constructor.
      * constructor; [|apply IH; constructor].
        split.
        -- intros H%(f_equal (@length N)). rewrite length_rev in H.
           simpl in H. lia.
        -- apply Forall_rev. exact Hcur.
    + apply IH. constructor; assumption.
Qed.

Lemma split_words content :
  Forall (fun word => word <> [] /\ Forall (fun c => is_space c = false) word)
    (split content).
Proof. apply split_from_words. constructor. Qed.

Section Score.

Variable lower : str -> str.

Lemma score_formula (design : option str) (iteration : Z) :
  score (run_carmack_critic lower design iteration) =
    Z.min 10 (4 + Z.of_nat (hash_chars (default [] design))
                + Z.of_nat (word_count (default [] design)) / 200).
Proof.
  unfold run_carmack_critic. cbn [score].
  rewrite split_length, count_hash.
  destruct design as [text|]; reflexivity.
Qed.

(** C7.  The score of the critic is decided by the text of design.md alone:
    it is the least of 10 and 4 plus the number of [#] characters plus the
    number of whitespace-separated words divided by 200, rounded down.  A
    file that does not exist counts as the empty text and scores 4. *)
Theorem critic_score (design : option str) (iteration : Z) :
  let content := default [] design in
  score (run_carmack_critic lower design iteration) =
    Z.min 10 (4 + Z.of_nat (hash_chars content)
                + Z.of_nat (word_count content) / 200)
  /\ score (run_carmack_critic lower None iteration) = 4%Z.
Proof.
  split; [apply score_formula|reflexivity].
Qed.


(** The scenario of the specification: four [#] characters and 240 words
    score 9. *)
Lemma score_scenario design iteration :
  hash_chars (default [] design) = 4 ->
  word_count (default [] design) = 240 ->
  score (run_carmack_critic lower design iteration) = 9%Z.
Proof.
  intros Hh Hw. rewrite score_formula, Hh, Hw. reflexivity.
Qed.

End Score.

(** The seed of a flow, [# Design Draft] and the prompt: one [#], a few
    words. *)
Example score_of_seed :
  score (run_carmack_critic (fun s => s)
           (Some (py "# Design Draft" ++ [10; 10]%N ++ py "hello" ++ [10%N]))
           1) = 5%Z.
Proof. vm_compute. reflexivity. Qed.

End CriticFacts.

(* ===================================================================== *)
(** * The worker runtime *)
(* ===================================================================== *)

Module RuntimeFacts.
Import Py Runtime.

(** ** A worker with one running task of a flow *)

(** A text of JSON; an apostrophe stands for the double quote. *)
Definition json (s : string) : str :=
  List.map (fun c => if (c =? 39)%N then Json.QUOTE else c) (py s).

Definition sample_utcnow (n : nat) : timestamp := (1000 + Z.of_nat n)%Z.

Definition sample_task : Task.t := {|
  Task.id := py "task-1";
  Task.worker_id := py "worker-1";
  Task.tool := py "codex";
  Task.spec_json := VDict [(py "description", VStr (py "x"))];
  Task.status := TaskStatus.running;
  Task.result_json := VNone;
  Task.error_message := VNone;
  Task.started_at := Some 900%Z;
  Task.finished_at := None;
  Task.flow_id := Some (py "flow-1")
|}.

Definition sample_worker : Worker.t := {|
  Worker.id := py "worker-1";
  Worker.status := WorkerStatus.busy;
  Worker.tmux_session := py "agent-1";
  Worker.workspace_path := py ".workers/worker-1";
  Worker.last_seen_at := 900%Z
|}.

Definition sample_flow : Flow.t := {|
  Flow.id := py "flow-1";
  Flow.status := FlowStatus.running;
  Flow.worker_id := py "worker-1";
  Flow.config := VDict [];
  Flow.state := VDict [];
  Flow.result := VNone
|}.

Definition sample_store : Store := {|
  tasks := {[ py "task-1" := sample_task ]};
  workers := {[ py "worker-1" := sample_worker ]};
  flows := {[ py "flow-1" := sample_flow ]};
  task_events := []
|}.

Definition sample_runtime : WorkerRuntime :=
  enqueue_task
    (init Config.defaults (py "worker-1") (py "agent-1")
       (py ".workers/worker-1"))
    (py "task-1").

Definition sample_state : State := {|
  runtime := sample_runtime;
  session := sample_store;
  database := sample_store;
  ticks := 0
|}.

(** The lines a tool prints around its result. *)
Definition START_LINE : str := py "<<<AGENT_RESULT_START>>>".
Definition END_LINE : str := py "<<<AGENT_RESULT_END>>>".

Definition framed (payload : list str) : list str :=
  START_LINE :: payload ++ [END_LINE].

(** ** Finalization, step by step *)

Section Finalize.

Variable utcnow : nat -> timestamp.
Variable settings : Config.Settings.

Local Abbreviation finalize_result := (finalize_result utcnow).
Local Abbreviation process_loop := (process_loop utcnow settings).
Local Abbreviation process_lines := (process_lines utcnow settings).

(** The payload a finalization reads, and the state it starts from once the
    collecting state is cleared. *)
Definition payload_text (st : State) : str :=
  join NEWLINE (result_lines (runtime st)).

Definition cleared (st : State) : State :=
  with_runtime st (set_collecting (runtime st) None []).

(** The verdict on a payload that is a JSON object. *)
Definition reports_failure (d : list (str * pyval)) : bool :=
  eq_str (dict_get d (py "status")) (py "failed")
  || eq_str (dict_get d (py "status")) (py "error").

Lemma nonempty_true (s : str) : s <> [] -> nonempty s = true.
Proof. destruct s; [congruence|reflexivity]. Qed.

Lemma opt_truthy_some (s : str) : s <> [] -> opt_truthy (Some s) = true.
Proof. apply nonempty_true. Qed.


Lemma parse_payload_object text d :
  Json.json_loads text = Some (VDict d) ->
  parse_payload text =
    if negb (hashable (dict_get d (py "status"))) then inl TypeError
    else if reports_failure d
    then inr (VDict d, TaskStatus.failed, dict_get d (py "error"))
    else inr (VDict d, TaskStatus.completed, VNone).
Proof.
  unfold parse_payload, reports_failure. intros ->.
  destruct d as [|kv d]; reflexivity.
Qed.

Lemma parse_payload_falsy text v :
  Json.json_loads text = Some v -> truthy v = false ->
  parse_payload text = inr (v, TaskStatus.completed, VNone).
Proof.
  unfold parse_payload, py_or. intros -> ->. reflexivity.
Qed.

Lemma parse_payload_truthy text v :
  Json.json_loads text = Some v -> truthy v = true ->
  (forall d, v <> VDict d) ->
  parse_payload text = inl AttributeError.
Proof.
  unfold parse_payload, py_or. intros -> -> Hv.
  destruct v; try reflexivity. exfalso. eapply Hv. reflexivity.
Qed.

(** The state a finalization that finds its task returns. *)
Definition finalized (st : State) (task_id : str) (task : Task.t)
  (result : pyval) (status : TaskStatus.t) (error_message : pyval) : State :=
  let now := utcnow (ticks st) in
  let task' := finish_task task result error_message status now in
  let queue :=
    if deque_mem task_id (running_tasks (runtime st))
    then deque_remove task_id (running_tasks (runtime st))
    else running_tasks (runtime st) in
  let s := put_task (session st) task_id task' in
  let s :=
    add_event s {|
      TaskEvent.task_id := task_id;
      TaskEvent.type := TaskEventType.result_parsed;
      TaskEvent.payload :=
        VDict [(py "result", result); (py "error", error_message)]
    |} in
  let s := touch_worker s (Task.worker_id task') queue now in
  let s := fail_flow s task' status task_id in
  {| runtime :=
       set_running_tasks (set_collecting (runtime st) None []) queue;
     session := s;
     database := s;
     ticks := S (ticks st) |}.

Lemma finalize_idle st :
  opt_truthy (collecting_task_id (runtime st)) = false ->
  finalize_result st = Returned (cleared st).
Proof.
  unfold Runtime.finalize_result, cleared.
  destruct (collecting_task_id (runtime st)) as [task_id|]; simpl;
    [|reflexivity].
  intros ->. reflexivity.
Qed.

Lemma finalize_raises st task_id e :
  collecting_task_id (runtime st) = Some task_id -> task_id <> [] ->
  parse_payload (payload_text st) = inl e ->
  finalize_result st = Raised e (cleared st).
Proof.
  unfold Runtime.finalize_result, cleared, payload_text.
  intros -> Hid ->. rewrite (nonempty_true _ Hid). reflexivity.
Qed.

Lemma finalize_missing st task_id r :
  collecting_task_id (runtime st) = Some task_id -> task_id <> [] ->
  parse_payload (payload_text st) = inr r ->
  tasks (session st) !! task_id = None ->
  finalize_result st = Returned (cleared st).
Proof.
  unfold Runtime.finalize_result, cleared, payload_text.
  intros -> Hid -> Hrow. rewrite (nonempty_true _ Hid).
  destruct r as [[result status] error_message]. simpl.
  rewrite Hrow. reflexivity.
Qed.

Lemma finalize_found st task_id task result status error_message :
  collecting_task_id (runtime st) = Some task_id -> task_id <> [] ->
  parse_payload (payload_text st) = inr (result, status, error_message) ->
  tasks (session st) !! task_id = Some task ->
  finalize_result st =
    Returned (finalized st task_id task result status error_message).
Proof.
  unfold Runtime.finalize_result, finalized, payload_text.
  intros -> Hid -> Hrow. rewrite (nonempty_true _ Hid). simpl.
  rewrite Hrow. simpl.
  destruct (deque_mem task_id (running_tasks (runtime st))); reflexivity.
Qed.

(** The tables a step leaves alone. *)
Lemma tasks_touch_worker s worker_id queue now :
  tasks (touch_worker s worker_id queue now) = tasks s.
Proof. unfold touch_worker. destruct (workers s !! worker_id); reflexivity. Qed.

Lemma flows_touch_worker s worker_id queue now :
  flows (touch_worker s worker_id queue now) = flows s.
Proof. unfold touch_worker. destruct (workers s !! worker_id); reflexivity. Qed.

Lemma tasks_fail_flow s task status task_id :
  tasks (fail_flow s task status task_id) = tasks s.
Proof.
  unfold fail_flow.
  destruct (TaskStatus.eqb status TaskStatus.failed
            && opt_truthy (Task.flow_id task)); [|reflexivity].
  destruct (Task.flow_id task) as [flow_id|]; [|reflexivity].
  destruct (flows s !! flow_id); reflexivity.
Qed.

Lemma finalized_task st task_id task result status error_message :
  tasks (database (finalized st task_id task result status error_message))
    !! task_id
  = Some (finish_task task result error_message status (utcnow (ticks st))).
Proof.
  unfold finalized. cbn [database].
  rewrite tasks_fail_flow, tasks_touch_worker. simpl.
  apply lookup_insert_eq.
Qed.

Lemma finalized_other_task st task_id task result status error_message other :
  other <> task_id ->
  tasks (database (finalized st task_id task result status error_message))
    !! other
  = tasks (session st) !! other.
Proof.
  intros Hne. unfold finalized. cbn [database].
  rewrite tasks_fail_flow, tasks_touch_worker. simpl.
  apply lookup_insert_ne. congruence.
Qed.

Lemma finalized_flow st task_id task result error_message flow_id flow :
  Task.flow_id task = Some flow_id -> flow_id <> [] ->
  flows (session st) !! flow_id = Some flow ->
  exists flow',
    flows (database
             (finalized st task_id task result TaskStatus.failed
                error_message)) !! flow_id = Some flow' /\
    Flow.status flow' = FlowStatus.failed /\
    Flow.result flow' =
      VDict [(py "reason",
              if truthy error_message then error_message
              else VStr (py "task_failed"));
             (py "task_id", VStr task_id)].
Proof.
  intros Hfid Hne Hflow. unfold finalized. cbn [database].
  unfold fail_flow. cbn [finish_task Task.flow_id Task.error_message].
  rewrite Hfid, (opt_truthy_some _ Hne). cbn [TaskStatus.eqb andb].
  rewrite flows_touch_worker. cbn [flows add_event put_task].
  rewrite Hflow. cbn [flows put_flow].
  eexists. split; [apply lookup_insert_eq|]. split; reflexivity.
Qed.

Lemma finalized_flow_untouched st task_id task result status error_message :
  status <> TaskStatus.failed \/ opt_truthy (Task.flow_id task) = false ->
  flows (database (finalized st task_id task result status error_message))
  = flows (session st).
Proof.
  intros H. unfold finalized. cbn [database].
  unfold fail_flow. cbn [finish_task Task.flow_id Task.error_message].
  assert (TaskStatus.eqb status TaskStatus.failed
          && opt_truthy (Task.flow_id task) = false) as ->.
  { destruct H as [H| ->]; [|apply andb_false_r].
    destruct status; try reflexivity. congruence. }
  rewrite flows_touch_worker. reflexivity.
Qed.

(** ** The loop over the lines *)

(** The three kinds of line the loop tells apart; a line with both
    sentinels counts as a start. *)
Definition is_start (line : str) : Prop :=
  contains (Config.sentinel_start settings) (strip line) = true.

Definition is_end (line : str) : Prop :=
  contains (Config.sentinel_start settings) (strip line) = false /\
  contains (Config.sentinel_end settings) (strip line) = true.

Definition is_payload (line : str) : Prop :=
  contains (Config.sentinel_start settings) (strip line) = false /\
  contains (Config.sentinel_end settings) (strip line) = false.

Lemma with_runtime_same st :
  with_runtime st
    (set_collecting (runtime st) (collecting_task_id (runtime st))
       (result_lines (runtime st))) = st.
Proof. destruct st as [[] ? ? ?]. reflexivity. Qed.

Lemma loop_start st line rest :
  is_start line ->
  process_loop st (line :: rest) =
  process_loop
    (with_runtime st
       (set_collecting (runtime st) (head (running_tasks (runtime st))) []))
    rest.
Proof. intros H. cbn [Runtime.process_loop]. rewrite H. reflexivity. Qed.

Lemma loop_end st line rest :
  is_end line ->
  process_loop st (line :: rest) =
  match finalize_result st with
  | Returned st' => process_loop st' rest
  | Raised e st' => Raised e st'
  end.
Proof.
  intros [Hs He]. cbn [Runtime.process_loop]. rewrite Hs, He. reflexivity.
Qed.

(** While a task is collecting, payload lines go to the buffer. *)
Lemma loop_collect payload : forall st rest,
  Forall is_payload payload ->
  opt_truthy (collecting_task_id (runtime st)) = true ->
  process_loop st (payload ++ rest) =
  process_loop
    (with_runtime st
       (set_collecting (runtime st) (collecting_task_id (runtime st))
          (result_lines (runtime st) ++ payload)))
    rest.
Proof.
  induction payload as [|line payload IH]; intros st rest Hall Hc.
  - rewrite app_nil_r, with_runtime_same. reflexivity.
  - inversion Hall as [|? ? [Hs He] Hall']; subst.
    cbn [app Runtime.process_loop]. rewrite Hs, He, Hc.
    rewrite IH; [|assumption|exact Hc].
    cbn [runtime with_runtime set_collecting collecting_task_id result_lines
         running_tasks].
    rewrite <- app_assoc. reflexivity.
Qed.

(** With no task collecting and none queued, payload lines leave no
    trace. *)
Lemma loop_drop payload : forall st rest,
  Forall is_payload payload ->
  opt_truthy (collecting_task_id (runtime st)) = false ->
  running_tasks (runtime st) = [] ->
  process_loop st (payload ++ rest) = process_loop st rest.
Proof.
  induction payload as [|line payload IH]; intros st rest Hall Hc Hq.
  - reflexivity.
  - inversion Hall as [|? ? [Hs He] Hall']; subst.
    cbn [app Runtime.process_loop]. rewrite Hs, He, Hc, Hq.
    apply IH; assumption.
Qed.

(** An exception in the loop leaves [_process_lines], the unit of work
    dropped, and ends the monitor loop. *)
Lemma process_lines_raises st lines e st' :
  lines <> [] ->
  process_loop (with_session st (database st)) lines = Raised e st' ->
  process_lines st lines = Raised e (rollback st').
Proof.
  intros Hne H. unfold Runtime.process_lines.
  destruct lines; [congruence|]. rewrite H. reflexivity.
Qed.

Lemma monitor_turn_raises st result snapshot c e st' :
  Tmux.capture_pane (controller (runtime st)) result = inr (snapshot, c) ->
  Tmux.new_text snapshot <> [] ->
  process_lines (with_runtime st (set_controller (runtime st) c))
    (splitlines (Tmux.new_text snapshot)) = Raised e st' ->
  monitor_turn utcnow settings st result = Raised e st'.
Proof.
  intros Hcap Hnew Hrun. unfold monitor_turn. rewrite Hcap.
  rewrite (nonempty_true _ Hnew). exact Hrun.
Qed.

(** ** Payloads that are JSON objects *)

(** The reason a failed task gives its flow. *)
Definition flow_reason (error_message : pyval) : pyval :=
  if truthy error_message then error_message else VStr (py "task_failed").

(** C1, as amended.  A payload that is a JSON object whose status is no
    array and no object finalizes the collecting task: failed, with the
    object's error field as error_message (None without one), when the
    status is the string failed or error, and completed, without
    error_message, otherwise.  And whenever a finalization leaves the task
    failed, an existing flow named by a non-empty flow_id becomes failed,
    its result the task_id and as reason the task's error_message, or
    task_failed when the error_message is None or another false value. *)
Theorem finalize_object (st : State) (task_id : str) (task : Task.t) :
  collecting_task_id (runtime st) = Some task_id -> task_id <> [] ->
  tasks (session st) !! task_id = Some task ->
  (forall d,
     Json.json_loads (payload_text st) = Some (VDict d) ->
     hashable (dict_get d (py "status")) = true ->
     exists st' task',
       finalize_result st = Returned st' /\
       tasks (database st') !! task_id = Some task' /\
       Task.result_json task' = VDict d /\
       (reports_failure d = true ->
        Task.status task' = TaskStatus.failed /\
        Task.error_message task' = dict_get d (py "error")) /\
       (reports_failure d = false ->
        Task.status task' = TaskStatus.completed /\
        Task.error_message task' = VNone)) /\
  (forall st' task',
     finalize_result st = Returned st' ->
     tasks (database st') !! task_id = Some task' ->
     Task.status task' = TaskStatus.failed ->
     forall flow_id flow,
       Task.flow_id task' = Some flow_id -> flow_id <> [] ->
       flows (session st) !! flow_id = Some flow ->
       exists flow',
         flows (database st') !! flow_id = Some flow' /\
         Flow.status flow' = FlowStatus.failed /\
         Flow.result flow' =
           VDict [(py "reason", flow_reason (Task.error_message task'));
                  (py "task_id", VStr task_id)]).
Proof.
  intros Hc Hid Hrow. split.
  - intros d Hjson Hhash.
    pose proof (parse_payload_object _ _ Hjson) as Hp.
    rewrite Hhash in Hp. cbn [negb] in Hp.
    destruct (reports_failure d) eqn:Hf.
    + rewrite (finalize_found st _ _ _ _ _ Hc Hid Hp Hrow).
      eexists _, _. split; [reflexivity|].
      split; [apply finalized_task|].
      split; [reflexivity|]. split; [|discriminate].
      intros _. split; reflexivity.
    + rewrite (finalize_found st _ _ _ _ _ Hc Hid Hp Hrow).
      eexists _, _. split; [reflexivity|].
      split; [apply finalized_task|].
      split; [reflexivity|]. split; [discriminate|].
      intros _. split; reflexivity.
  - intros st' task' Hfin Htask' Hfailed flow_id flow Hfid Hne Hflow.
    destruct (parse_payload (payload_text st))
      as [e|[[result status] error_message]] eqn:Hp.
    { rewrite (finalize_raises st _ _ Hc Hid Hp) in Hfin. discriminate. }
    rewrite (finalize_found st _ _ _ _ _ Hc Hid Hp Hrow) in Hfin.
    injection Hfin as <-.
    rewrite finalized_task in Htask'. injection Htask' as <-.
    cbn [finish_task Task.status Task.flow_id Task.error_message] in *.
    subst status.
    apply (finalized_flow st task_id task result error_message flow_id flow
             Hfid Hne Hflow).
Qed.

(** C1 as the specification words it: every JSON object finalizes the
    task, and the reason of the flow is the error_message unless that is
    None. *)
Definition claimed_finalize_object (st : State) : Prop :=
  forall task_id task d,
    collecting_task_id (runtime st) = Some task_id -> task_id <> [] ->
    tasks (session st) !! task_id = Some task ->
    Json.json_loads (payload_text st) = Some (VDict d) ->
    exists st' task',
      finalize_result st = Returned st' /\
      tasks (database st') !! task_id = Some task' /\
      (reports_failure d = true ->
       Task.status task' = TaskStatus.failed /\
       Task.error_message task' = dict_get d (py "error")) /\
      (reports_failure d = false ->
       Task.status task' = TaskStatus.completed) /\
      (Task.status task' = TaskStatus.failed ->
       forall flow_id flow,
         Task.flow_id task' = Some flow_id ->
         flows (session st) !! flow_id = Some flow ->
         exists flow',
           flows (database st') !! flow_id = Some flow' /\
           Flow.status flow' = FlowStatus.failed /\
           Flow.result flow' =
             VDict [(py "reason",
                     match Task.error_message task' with
                     | VNone => VStr (py "task_failed")
                     | message => message
                     end);
                    (py "task_id", VStr task_id)]).

(** ** Sentinel-framed payloads, from the lines *)

Lemma reports_failure_string d s :
  dict_get d (py "status") = VStr s ->
  reports_failure d = true <-> s = py "failed" \/ s = py "error".
Proof.
  unfold reports_failure, eq_str, str_eqb. intros ->.
  rewrite orb_true_iff, !bool_decide_eq_true. reflexivity.
Qed.

(** C2, as amended.  A sentinel-framed payload that is a JSON object
    finalizes the task at the head of the queue as failed exactly when its
    status is the string failed or error; every other status that is no
    array and no object, ok, done and success among them, and no status at
    all, finalizes it as completed. *)
Theorem framed_object_status (st : State) (task_id : str) (task : Task.t)
  (start : str) (payload : list str) (end_line : str)
  (d : list (str * pyval)) :
  head (running_tasks (runtime st)) = Some task_id -> task_id <> [] ->
  tasks (database st) !! task_id = Some task ->
  is_start start -> Forall is_payload payload -> is_end end_line ->
  Json.json_loads (join NEWLINE payload) = Some (VDict d) ->
  hashable (dict_get d (py "status")) = true ->
  exists st' task',
    process_lines st (start :: payload ++ [end_line]) = Returned st' /\
    tasks (database st') !! task_id = Some task' /\
    (Task.status task' = TaskStatus.failed <-> reports_failure d = true) /\
    (Task.status task' = TaskStatus.completed <-> reports_failure d = false).
Proof.
  intros Hhead Hid Hrow Hs Hp He Hjson Hhash.
  unfold Runtime.process_lines.
  rewrite (loop_start _ _ _ Hs).
  cbn [runtime with_session with_runtime]. rewrite Hhead.
  rewrite loop_collect; [|assumption|apply (opt_truthy_some _ Hid)].
  cbn [runtime with_runtime set_collecting collecting_task_id result_lines
       app].
  rewrite (loop_end _ _ _ He).
  match goal with
  | |- context [Runtime.finalize_result utcnow ?s] => set (st1 := s)
  end.
  pose proof (parse_payload_object _ _ Hjson) as Hparse.
  rewrite Hhash in Hparse. cbn [negb] in Hparse.
  destruct (reports_failure d) eqn:Hf.
  - rewrite (finalize_found st1 task_id task _ _ _ eq_refl Hid Hparse Hrow).
    cbn [Runtime.process_loop].
    eexists _, _. split; [reflexivity|].
    split; [apply finalized_task|].
    cbn [finish_task Task.status]. split; split; congruence.
  - rewrite (finalize_found st1 task_id task _ _ _ eq_refl Hid Hparse Hrow).
    cbn [Runtime.process_loop].
    eexists _, _. split; [reflexivity|].
    split; [apply finalized_task|].
    cbn [finish_task Task.status]. split; split; congruence.
Qed.

(** C2 as the specification words it: a status that is not ok fails the
    task. *)
Definition claimed_not_ok_fails (st : State) (payload : list str)
  (task_id : str) : Prop :=
  forall d status,
    Json.json_loads (join NEWLINE payload) = Some (VDict d) ->
    dict_get d (py "status") = VStr status -> status <> py "ok" ->
    exists st' task',
      process_lines st (framed payload) = Returned st' /\
      tasks (database st') !! task_id = Some task' /\
      Task.status task' = TaskStatus.failed.

(** ** Payloads that are not JSON *)



(** ** A start line while nothing is queued *)

(** C4, as amended.  A sentinel_start line that comes while the queue is
    empty sets collecting_task_id to None and empties the buffer; the
    payload lines after it are not put in the buffer and are recorded
    nowhere; the finalization at the sentinel_end line is a no-op: the
    buffer is empty as before, and no row changes. *)
Theorem start_with_empty_queue (st : State) (start : str)
  (payload : list str) (end_line : str) :
  running_tasks (runtime st) = [] ->
  is_start start -> Forall is_payload payload -> is_end end_line ->
  let idle := cleared st in
  process_loop st [start] = Returned idle /\
  collecting_task_id (runtime idle) = None /\
  result_lines (runtime idle) = [] /\
  process_loop idle payload = Returned idle /\
  finalize_result idle = Returned idle /\
  process_loop st (start :: payload ++ [end_line]) = Returned idle /\
  session idle = session st /\
  database idle = database st.
Proof.
  intros Hq Hs Hp He idle.
  assert (process_loop st [start] = Returned idle) as H1.
  { rewrite (loop_start _ _ _ Hs), Hq. reflexivity. }
  assert (cleared idle = idle) as Hidle by reflexivity.
  assert (finalize_result idle = Returned idle) as H2.
  { rewrite finalize_idle; [rewrite Hidle|]; reflexivity. }
  assert (forall rest, process_loop idle (payload ++ rest)
                       = process_loop idle rest) as H3.
  { intros rest. apply loop_drop; [assumption|reflexivity|exact Hq]. }
  repeat split; try assumption.
  - rewrite <- (app_nil_r payload) at 1. apply H3.
  - rewrite (loop_start _ _ _ Hs), Hq. change (with_runtime st _) with idle.
    rewrite H3, (loop_end _ _ _ He), H2. reflexivity.
Qed.

(** C4 as the specification words it: the line after the start is in the
    buffer. *)
Definition claimed_buffering (st : State) (start line : str) : Prop :=
  running_tasks (runtime st) = [] -> is_start start -> is_payload line ->
  exists st',
    process_loop st [start; line] = Returned st' /\
    collecting_task_id (runtime st') = None /\
    result_lines (runtime st') = [line].

(** ** Payloads that are JSON and no object *)

(** C9.  A payload that is JSON, no object and true as a Python value (a
    string or array that is not empty, a number that is not zero, true)
    makes [_finalize_result] raise AttributeError: the collecting state is
    cleared and nothing else has changed, so the task is neither completed
    nor failed, and the loop over the lines ends at the sentinel_end line.
    A payload that is no object and false as a Python value finalizes the
    task as completed, the value as its result. *)
Theorem finalize_non_object (st : State) (task_id : str) (v : pyval) :
  collecting_task_id (runtime st) = Some task_id -> task_id <> [] ->
  Json.json_loads (payload_text st) = Some v ->
  (forall d, v <> VDict d) ->
  (truthy v = true ->
   finalize_result st = Raised AttributeError (cleared st) /\
   session (cleared st) = session st /\
   database (cleared st) = database st /\
   running_tasks (runtime (cleared st)) = running_tasks (runtime st) /\
   forall line rest,
     is_end line ->
     process_loop st (line :: rest) = Raised AttributeError (cleared st)) /\
  (truthy v = false ->
   forall task,
     tasks (session st) !! task_id = Some task ->
     exists st' task',
       finalize_result st = Returned st' /\
       tasks (database st') !! task_id = Some task' /\
       Task.status task' = TaskStatus.completed /\
       Task.result_json task' = v /\
       Task.error_message task' = VNone).
Proof.
  intros Hc Hid Hjson Hv. split.
  - intros Ht.
    pose proof (parse_payload_truthy _ _ Hjson Ht Hv) as Hp.
    pose proof (finalize_raises st _ _ Hc Hid Hp) as Hfin.
    repeat split; [exact Hfin|].
    intros line rest He. rewrite (loop_end _ _ _ He), Hfin. reflexivity.
  - intros Hf task Hrow.
    pose proof (parse_payload_falsy _ _ Hjson Hf) as Hp.
    rewrite (finalize_found st _ _ _ _ _ Hc Hid Hp Hrow).
    eexists _, _. split; [reflexivity|].
    split; [apply finalized_task|]. repeat split.
Qed.

(** ** A collecting task without row *)

(** C10, as amended.  When the row of the collecting task is not in
    storage, a finalization whose parsing of the payload does not raise
    (C9 tells when it does) clears the collecting state and returns:
    nothing is written, and the id is not taken out of the queue.  An id
    that was at the head of the queue is there still, and the next
    sentinel_start line collects for it again. *)
Theorem finalize_missing_row (st : State) (task_id : str)
  (parsed : pyval * TaskStatus.t * pyval) :
  collecting_task_id (runtime st) = Some task_id -> task_id <> [] ->
  tasks (session st) !! task_id = None ->
  parse_payload (payload_text st) = inr parsed ->
  exists st',
    finalize_result st = Returned st' /\
    collecting_task_id (runtime st') = None /\
    result_lines (runtime st') = [] /\
    session st' = session st /\
    database st' = database st /\
    running_tasks (runtime st') = running_tasks (runtime st) /\
    (head (running_tasks (runtime st)) = Some task_id ->
     head (running_tasks (runtime st')) = Some task_id /\
     forall line,
       is_start line ->
       exists st'',
         process_loop st' [line] = Returned st'' /\
         collecting_task_id (runtime st'') = Some task_id).
Proof.
  intros Hc Hid Hrow Hp.
  exists (cleared st).
  split; [exact (finalize_missing st _ _ Hc Hid Hp Hrow)|].
  repeat split; [assumption|].
  intros line Hs. rewrite (loop_start _ _ _ Hs).
  eexists. split; [reflexivity|]. simpl. assumption.
Qed.

(** C10 as the specification words it: the call returns, whatever the
    payload. *)
Definition claimed_missing_row_returns (st : State) (task_id : str) : Prop :=
  collecting_task_id (runtime st) = Some task_id -> task_id <> [] ->
  tasks (session st) !! task_id = None ->
  exists st',
    finalize_result st = Returned st' /\
    collecting_task_id (runtime st') = None /\
    session st' = session st /\
    database st' = database st /\
    running_tasks (runtime st') = running_tasks (runtime st).

(** On the payloads of C9 the exception comes before the row is looked
    for; the state it leaves is the same. *)
Lemma missing_row_raises st task_id e :
  collecting_task_id (runtime st) = Some task_id -> task_id <> [] ->
  parse_payload (payload_text st) = inl e ->
  finalize_result st = Raised e (cleared st).
Proof. apply finalize_raises. Qed.

End Finalize.

(** ** The sample worker, run *)

(** The sample worker while [task-1] is collecting, [payload] in the
    buffer. *)
Definition collecting_state (payload : list str) : State :=
  with_runtime sample_state
    (set_collecting sample_runtime (Some (py "task-1")) payload).

(** The same with no row for the task in storage. *)
Definition orphan_state (payload : list str) : State := {|
  runtime := set_collecting sample_runtime (Some (py "task-1")) payload;
  session := {| tasks := ∅; workers := workers sample_store;
                flows := flows sample_store; task_events := [] |};
  database := {| tasks := ∅; workers := workers sample_store;
                 flows := flows sample_store; task_events := [] |};
  ticks := 0
|}.

(** A worker with nothing queued. *)
Definition idle_state : State := {|
  runtime := init Config.defaults (py "worker-1") (py "agent-1")
               (py ".workers/worker-1");
  session := sample_store;
  database := sample_store;
  ticks := 0
|}.

(** Payloads of the scenarios. *)
Definition boom_payload : list str :=
  [json "{'status':'failed','error':'boom'}"].
Definition blank_error_payload : list str :=
  [json "{'status':'failed','error':''}"].
Definition done_payload : list str := [json "{'status':'done'}"].
Definition ok_payload : list str :=
  [json "{'status':'ok','summary':'done'}"].
Definition number_payload : list str := [json "5"].

Lemma task_1_named : py "task-1" <> [].
Proof. discriminate. Qed.

Lemma flow_1_named : py "flow-1" <> [].
Proof. discriminate. Qed.

Lemma start_line_is_start : is_start Config.defaults START_LINE.
Proof. vm_compute. reflexivity. Qed.

Lemma end_line_is_end : is_end Config.defaults END_LINE.
Proof. split; vm_compute; reflexivity. Qed.

Definition no_sentinel (line : str) : bool :=
  negb (contains (Config.sentinel_start Config.defaults) (strip line))
  && negb (contains (Config.sentinel_end Config.defaults) (strip line)).

Lemma payload_lines (lines : list str) :
  forallb no_sentinel lines = true ->
  Forall (is_payload Config.defaults) lines.
Proof.
  rewrite forallb_forall, List.Forall_forall. intros H line Hin.
  specialize (H line Hin). unfold no_sentinel in H.
  apply andb_true_iff in H as [H1 H2].
  split; apply negb_true_iff; assumption.
Qed.

Lemma finalize_object_witness :
  exists st' task' flow',
    finalize_result sample_utcnow
      (collecting_state boom_payload)
    = Returned st' /\
    tasks (database st') !! py "task-1" = Some task' /\
    Task.status task' = TaskStatus.failed /\
    Task.error_message task' = VStr (py "boom") /\
    flows (database st') !! py "flow-1" = Some flow' /\
    Flow.status flow' = FlowStatus.failed /\
    Flow.result flow' =
      VDict [(py "reason", VStr (py "boom"));
             (py "task_id", VStr (py "task-1"))].
Proof.
  destruct (finalize_object sample_utcnow
              (collecting_state boom_payload)
              (py "task-1") sample_task eq_refl task_1_named
              ltac:(vm_compute; reflexivity)) as [Hobject Hflow].
  destruct (Hobject [(py "status", VStr (py "failed"));
                     (py "error", VStr (py "boom"))]
              ltac:(vm_compute; reflexivity) eq_refl)
    as (st' & task' & Hfin & Htask & _ & Hfailed & _).
  destruct (Hfailed ltac:(vm_compute; reflexivity)) as [Hstatus Herror].
  assert (Task.flow_id task' = Some (py "flow-1")) as Hfid.
  { rewrite (finalize_found sample_utcnow (collecting_state boom_payload)
               (py "task-1") sample_task
               _ TaskStatus.failed _ eq_refl task_1_named
               ltac:(vm_compute; reflexivity) ltac:(vm_compute; reflexivity))
      in Hfin.
    injection Hfin as <-. rewrite finalized_task in Htask.
    injection Htask as <-. reflexivity. }
  destruct (Hflow st' task' Hfin Htask Hstatus (py "flow-1") sample_flow
              Hfid flow_1_named ltac:(vm_compute; reflexivity))
    as (flow' & Hrow & Hfstatus & Hresult).
  exists st', task', flow'.
  rewrite Herror in Hresult.
  repeat split; assumption.
Defined.

(** The reason of the flow is [task_failed] although the error_message of
    the task is the empty string, not None. *)
Lemma finalize_object_counterexample :
  ~ claimed_finalize_object sample_utcnow
      (collecting_state blank_error_payload).
Proof.
  intros H.
  destruct (H (py "task-1") sample_task
              [(py "status", VStr (py "failed")); (py "error", VStr [])]
              eq_refl task_1_named
              ltac:(vm_compute; reflexivity) ltac:(vm_compute; reflexivity))
    as (st' & task' & Hfin & Htask & _ & _ & Hflow).
  rewrite (finalize_found sample_utcnow
             (collecting_state blank_error_payload) (py "task-1") sample_task
             _ TaskStatus.failed (VStr []) eq_refl task_1_named
             ltac:(vm_compute; reflexivity) ltac:(vm_compute; reflexivity))
    in Hfin.
  injection Hfin as <-. rewrite finalized_task in Htask.
  injection Htask as <-.
  destruct (Hflow eq_refl (py "flow-1") sample_flow eq_refl
              ltac:(vm_compute; reflexivity))
    as (flow' & Hrow & _ & Hresult).
  vm_compute in Hrow. injection Hrow as <-.
  vm_compute in Hresult. discriminate Hresult.
Qed.

(** A status that is an array: the membership test of line 96 raises, and
    the task is left as it was. *)
Example finalize_unhashable_status :
  finalize_result sample_utcnow (collecting_state [json "{'status':[]}"])
  = Raised TypeError (cleared (collecting_state [json "{'status':[]}"])).
Proof.
  apply (finalize_raises sample_utcnow _ (py "task-1"));
    [reflexivity|exact task_1_named|vm_compute; reflexivity].
Qed.

(** The status [done] is not [ok], and the task completes. *)
Lemma framed_object_status_counterexample :
  ~ claimed_not_ok_fails sample_utcnow Config.defaults sample_state
      done_payload (py "task-1").
Proof.
  intros H.
  destruct (H [(py "status", VStr (py "done"))] (py "done")
              ltac:(vm_compute; reflexivity) ltac:(vm_compute; reflexivity)
              ltac:(discriminate))
    as (st' & task' & Hrun & Htask & Hstatus).
  vm_compute in Hrun. injection Hrun as <-.
  vm_compute in Htask. injection Htask as <-.
  discriminate Hstatus.
Qed.

Lemma framed_object_status_witness :
  exists st' task',
    process_lines sample_utcnow Config.defaults sample_state
      (framed done_payload) = Returned st' /\
    tasks (database st') !! py "task-1" = Some task' /\
    Task.status task' = TaskStatus.completed.
Proof.
  destruct (framed_object_status sample_utcnow Config.defaults sample_state
              (py "task-1") sample_task START_LINE done_payload END_LINE
              [(py "status", VStr (py "done"))]
              eq_refl task_1_named ltac:(vm_compute; reflexivity)
              start_line_is_start
              (payload_lines done_payload ltac:(vm_compute; reflexivity))
              end_line_is_end ltac:(vm_compute; reflexivity) eq_refl)
    as (st' & task' & Hrun & Htask & _ & Hcompleted).
  exists st', task'. split; [exact Hrun|]. split; [exact Htask|].
  apply Hcompleted. vm_compute. reflexivity.
Defined.


(** The scenario of the specification: [not json]. *)
Example finalize_not_json :
  exists st' task',
    process_lines sample_utcnow Config.defaults sample_state
      (framed [py "not json"]) = Returned st' /\
    tasks (database st') !! py "task-1" = Some task' /\
    Task.status task' = TaskStatus.failed /\
    Task.error_message task' = VStr (py "Invalid JSON result from tool") /\
    Task.result_json task' = VNone.
Proof.
  eexists _, _. split; [vm_compute; reflexivity|].
  split; [vm_compute; reflexivity|]. repeat split.
Qed.

(** Nothing between the sentinels, from the lines. *)
Example finalize_zero_bytes :
  exists st' task',
    process_lines sample_utcnow Config.defaults sample_state (framed [])
    = Returned st' /\
    tasks (database st') !! py "task-1" = Some task' /\
    Task.status task' = TaskStatus.failed /\
    Task.error_message task' = VStr (py "Invalid JSON result from tool").
Proof.
  eexists _, _. split; [vm_compute; reflexivity|].
  split; [vm_compute; reflexivity|]. repeat split.
Qed.

(** The payload [5]. *)
Lemma finalize_non_object_witness :
  finalize_result sample_utcnow (collecting_state number_payload)
  = Raised AttributeError (cleared (collecting_state number_payload)) /\
  process_loop sample_utcnow Config.defaults
    (collecting_state number_payload) [END_LINE; START_LINE]
  = Raised AttributeError (cleared (collecting_state number_payload)).
Proof.
  destruct (finalize_non_object sample_utcnow Config.defaults
              (collecting_state number_payload) (py "task-1") (VInt 5)
              eq_refl task_1_named ltac:(vm_compute; reflexivity)
              ltac:(discriminate)) as [Htruthy _].
  destruct (Htruthy eq_refl) as (Hfin & _ & _ & _ & Hloop).
  split; [exact Hfin|].
  apply Hloop. exact end_line_is_end.
Defined.

(** The same from the pane: the turn of the monitor loop raises, and the
    database is as before. *)
Definition number_capture : Tmux.CompletedProcess := {|
  Tmux.returncode := 0;
  Tmux.stdout :=
    START_LINE ++ NEWLINE ++ py "5" ++ NEWLINE ++ END_LINE ++ NEWLINE;
  Tmux.stderr := []
|}.

Example monitor_turn_number_payload :
  exists st',
    monitor_turn sample_utcnow Config.defaults sample_state number_capture
    = Raised AttributeError st' /\
    database st' = database sample_state /\
    running_tasks (runtime st') = [py "task-1"] /\
    collecting_task_id (runtime st') = None.
Proof.
  eexists. split; [vm_compute; reflexivity|]. repeat split.
Qed.

(** The payloads [0], the empty string, the empty array, false and null
    complete the task. *)
Example finalize_falsy_payloads :
  Forall (fun text =>
    exists st' task',
      finalize_result sample_utcnow (collecting_state [json text])
      = Returned st' /\
      tasks (database st') !! py "task-1" = Some task' /\
      Task.status task' = TaskStatus.completed)
    ["0"; "''"; "[]"; "false"; "null"; "0.0"]%string.
Proof.
  repeat constructor;
    (eexists _, _; split; [vm_compute; reflexivity|];
     split; [vm_compute; reflexivity|reflexivity]).
Qed.

(** The start line of C4 on the worker with nothing queued: the line after
    it is not in the buffer. *)
Lemma start_with_empty_queue_counterexample :
  ~ claimed_buffering sample_utcnow Config.defaults idle_state START_LINE
      (json "{'status':'ok'}").
Proof.
  intros H.
  destruct (H eq_refl start_line_is_start
              ltac:(split; vm_compute; reflexivity))
    as (st' & Hrun & _ & Hlines).
  vm_compute in Hrun. injection Hrun as <-.
  vm_compute in Hlines. discriminate Hlines.
Qed.

Lemma start_with_empty_queue_witness :
  process_loop sample_utcnow Config.defaults idle_state (framed ok_payload)
  = Returned idle_state.
Proof.
  destruct (start_with_empty_queue sample_utcnow Config.defaults idle_state
              START_LINE ok_payload END_LINE eq_refl start_line_is_start
              (payload_lines ok_payload ltac:(vm_compute; reflexivity))
              end_line_is_end)
    as (_ & _ & _ & _ & _ & Hrun & _).
  exact Hrun.
Defined.

(** The task without row and the payload [5]: the call does not return. *)
Lemma finalize_missing_row_counterexample :
  ~ claimed_missing_row_returns sample_utcnow (orphan_state number_payload)
      (py "task-1").
Proof.
  intros H.
  destruct (H eq_refl task_1_named ltac:(vm_compute; reflexivity))
    as (st' & Hfin & _).
  rewrite (finalize_raises sample_utcnow (orphan_state number_payload)
             (py "task-1") AttributeError eq_refl task_1_named
             ltac:(vm_compute; reflexivity)) in Hfin.
  discriminate Hfin.
Qed.

(** The task without row: after the result is thrown away the next start
    line collects for the same id. *)
Lemma finalize_missing_row_witness :
  exists st' st'',
    finalize_result sample_utcnow (orphan_state ok_payload) = Returned st' /\
    database st' = database (orphan_state ok_payload) /\
    running_tasks (runtime st') = [py "task-1"] /\
    process_loop sample_utcnow Config.defaults st' [START_LINE]
    = Returned st'' /\
    collecting_task_id (runtime st'') = Some (py "task-1").
Proof.
  destruct (finalize_missing_row sample_utcnow Config.defaults
              (orphan_state ok_payload) (py "task-1") _
              eq_refl task_1_named ltac:(vm_compute; reflexivity)
              ltac:(vm_compute; reflexivity))
    as (st' & Hfin & _ & _ & _ & Hdb & Hqueue & Hnext).
  destruct (Hnext eq_refl) as [_ Hstart].
  destruct (Hstart START_LINE start_line_is_start) as (st'' & Hrun & Hc).
  exists st', st''. repeat split; assumption.
Defined.

(** The same from the lines: a result for the task without row is thrown
    away, and the start line after it collects for the task again. *)
Example orphan_collects_again :
  exists st',
    process_lines sample_utcnow Config.defaults (orphan_state [])
      (framed ok_payload ++ [START_LINE]) = Returned st' /\
    collecting_task_id (runtime st') = Some (py "task-1") /\
    running_tasks (runtime st') = [py "task-1"] /\
    database st' = database (orphan_state []).
Proof.
  eexists. split; [vm_compute; reflexivity|]. repeat split.
Qed.

End RuntimeFacts.


(* ===================================================================== *)
(** * The watcher *)
(* ===================================================================== *)

Module WatcherFacts.
Import Py Watcher.

(** ANSI sequences are removed, an ESC that starts none stays. *)
Example strip_ansi_colours :
  strip_ansi ([27%N] ++ py "[31mHello" ++ [27%N] ++ py "[0m, World")
  = py "Hello, World".
Proof. vm_compute. reflexivity. Qed.

Example strip_ansi_unfinished :
  strip_ansi ([27%N] ++ py "[31" ++ [27%N] ++ py "[1mx" ++ [27%N])
  = [27%N] ++ py "[31x" ++ [27%N].
Proof. vm_compute. reflexivity. Qed.

Section Stability.

Variable regex : Type.
Variable search : regex -> str -> bool.
Variable openrouter_classify :
  ClassifierPack regex -> str -> Metadata -> option ClassificationResult.
Variable sha256_hexdigest : str -> str.
Variable load_pack : str -> ClassifierPack regex.
Variable settings : Config.Settings.

Local Abbreviation observe :=
  (observe regex search openrouter_classify settings).
Local Abbreviation process_pane :=
  (process_pane regex search openrouter_classify sha256_hexdigest load_pack
     settings).
Local Abbreviation classifier_for := (classifier_for regex load_pack settings).

(** The hash [_process_pane] computes of a capture. *)
Definition snapshot_hash_of (poll : Poll) : str :=
  sha256_hexdigest (strip_ansi (text poll)).

(** The threshold a pane is held to: its own, or the default when its own
    is 0. *)
Definition threshold_of (pane_state : PaneState.t) : Z :=
  if (PaneState.threshold pane_state =? 0)%Z
  then Config.watcher_default_stability settings
  else PaneState.threshold pane_state.

(** What the watcher remembers of a pane. *)
Definition last_snapshot (w : PtyWatcher regex) (pane_id : str)
  : option str :=
  state regex w !! pane_id ≫= PaneState.last_snapshot_hash.

Definition last_classified (w : PtyWatcher regex) (pane_id : str)
  : option str :=
  state regex w !! pane_id ≫= PaneState.last_classified_hash.

(** The hash the classifier was called on for a pane, in the effects of a
    call. *)
Fixpoint classified_hash (pane_id : str) (effects : list effect)
  : option str :=
  match effects with
  | [] => None
  | Classified p h _ :: rest =>
      if bool_decide (p = pane_id) then Some h
      else classified_hash pane_id rest
  | StatusWritten _ _ _ _ :: rest => classified_hash pane_id rest
  end.

(** ** One observation *)

Lemma observe_changed classifier metadata pane_state h stripped ts :
  PaneState.last_snapshot_hash pane_state <> Some h ->
  exists pane_state',
    observe classifier metadata pane_state h stripped ts
    = (pane_state', false) /\
    PaneState.last_snapshot_hash pane_state' = Some h /\
    PaneState.stable_count pane_state' = 0%Z /\
    PaneState.state pane_state' = py "BUSY" /\
    PaneState.last_classified_hash pane_state'
    = PaneState.last_classified_hash pane_state /\
    PaneState.threshold pane_state' = PaneState.threshold pane_state.
Proof.
  intros Hne. unfold Watcher.observe.
  rewrite bool_decide_eq_false_2 by exact Hne. cbn [negb].
  eexists. split; [reflexivity|]. repeat split.
Qed.

Lemma observe_called classifier metadata pane_state h stripped ts pane_state' :
  observe classifier metadata pane_state h stripped ts = (pane_state', true) ->
  PaneState.last_snapshot_hash pane_state = Some h /\
  PaneState.last_classified_hash pane_state <> Some h /\
  (threshold_of pane_state <= PaneState.stable_count pane_state')%Z /\
  PaneState.stable_count pane_state'
  = (PaneState.stable_count pane_state + 1)%Z /\
  PaneState.last_snapshot_hash pane_state' = Some h /\
  PaneState.last_classified_hash pane_state' = Some h.
Proof.
  unfold Watcher.observe, threshold_of.
  destruct (bool_decide (PaneState.last_snapshot_hash pane_state = Some h))
    eqn:Hsame; cbn [negb]; [|intros [= _ ?]; discriminate].
  apply bool_decide_eq_true in Hsame.
  destruct (_ <=? _)%Z eqn:Hreach; cbn [andb];
    [|intros [= _ ?]; discriminate].
  destruct (bool_decide
              (PaneState.last_classified_hash pane_state = Some h))
    eqn:Hold; cbn [negb]; [intros [= _ ?]; discriminate|].
  apply bool_decide_eq_false in Hold. apply Z.leb_le in Hreach.
  intros [= <-]. cbn. repeat split; assumption.
Qed.

Lemma observe_quiet classifier metadata pane_state h stripped ts pane_state' :
  observe classifier metadata pane_state h stripped ts = (pane_state', false) ->
  PaneState.last_classified_hash pane_state'
  = PaneState.last_classified_hash pane_state /\
  PaneState.last_snapshot_hash pane_state' = Some h.
Proof.
  unfold Watcher.observe.
  destruct (bool_decide (PaneState.last_snapshot_hash pane_state = Some h))
    eqn:Hsame; cbn [negb]; [|intros [= <-]; split; reflexivity].
  apply bool_decide_eq_true in Hsame.
  destruct (_ && _); [intros [= _ ?]; discriminate|].
  intros [= <-]. split; [reflexivity|exact Hsame].
Qed.

Lemma observe_threshold classifier metadata pane_state h stripped ts :
  PaneState.threshold
    (fst (observe classifier metadata pane_state h stripped ts))
  = PaneState.threshold pane_state.
Proof.
  unfold Watcher.observe.
  destruct (negb _); [reflexivity|]. destruct (_ && _); reflexivity.
Qed.

(** ** One call of [_process_pane] *)

Lemma classifier_for_state w cli_type :
  state regex (snd (classifier_for w cli_type)) = state regex w.
Proof.
  unfold Watcher.classifier_for.
  destruct (classifiers regex w !! cli_type); reflexivity.
Qed.

(** The state of the pane the call works on: the cached one, or a new
    one with the threshold of the pack of the worker's CLI. *)
Definition pane_state_before (w : PtyWatcher regex) (pane : PaneInfo)
  (worker : WorkerMetadata) (poll : Poll) : PaneState.t :=
  match state regex w !! pane_id pane with
  | Some pane_state => pane_state
  | None =>
      new_pane_state
        (stability_polls regex
           (pack regex (fst (classifier_for w (cli_type worker)))))
        (now poll)
  end.

Definition metadata_of (pane : PaneInfo) (worker : WorkerMetadata)
  : Metadata :=
  {| meta_worker_id := worker_id worker;
     meta_pane_id := pane_id pane;
     meta_cli_type := cli_type worker |}.

Definition observed (w : PtyWatcher regex) (pane : PaneInfo)
  (worker : WorkerMetadata) (poll : Poll) : PaneState.t * bool :=
  observe (fst (classifier_for w (cli_type worker))) (metadata_of pane worker)
    (pane_state_before w pane worker poll) (snapshot_hash_of poll)
    (strip_ansi (text poll)) (ts poll).

Lemma process_pane_unfold w pane worker poll :
  process_pane w pane worker poll =
  ({| state :=
        <[pane_id pane := fst (observed w pane worker poll)]> (state regex w);
      classifiers :=
        classifiers regex (snd (classifier_for w (cli_type worker))) |},
   (if snd (observed w pane worker poll)
    then [Classified (pane_id pane) (snapshot_hash_of poll)
            (strip_ansi (text poll))]
    else [])
   ++ [StatusWritten (pane_id pane) (fst (observed w pane worker poll))
         (snapshot_hash_of poll) (ts poll)]).
Proof.
  unfold Watcher.process_pane, observed, pane_state_before, metadata_of,
    snapshot_hash_of.
  pose proof (classifier_for_state w (cli_type worker)) as Hstate.
  destruct (classifier_for w (cli_type worker)) as [classifier w1].
  cbn [fst snd] in *. rewrite Hstate.
  destruct (observe _ _ _ _ _ _) as [pane_state called]. reflexivity.
Qed.

Lemma process_pane_state w pane worker poll :
  state regex (fst (process_pane w pane worker poll)) !! pane_id pane
  = Some (fst (observed w pane worker poll)).
Proof. rewrite process_pane_unfold. apply lookup_insert_eq. Qed.

Lemma process_pane_other w pane worker poll other :
  other <> pane_id pane ->
  state regex (fst (process_pane w pane worker poll)) !! other
  = state regex w !! other.
Proof.
  intros Hne. rewrite process_pane_unfold. apply lookup_insert_ne. congruence.
Qed.

Lemma process_pane_effects w pane worker poll p :
  classified_hash p (snd (process_pane w pane worker poll)) =
  if snd (observed w pane worker poll) && bool_decide (pane_id pane = p)
  then Some (snapshot_hash_of poll) else None.
Proof.
  rewrite process_pane_unfold. cbn [snd].
  destruct (snd (observed w pane worker poll)); [|reflexivity].
  cbn. destruct (bool_decide (pane_id pane = p)); reflexivity.
Qed.

Lemma last_snapshot_before w pane worker poll :
  PaneState.last_snapshot_hash (pane_state_before w pane worker poll)
  = last_snapshot w (pane_id pane).
Proof.
  unfold pane_state_before, last_snapshot.
  destruct (state regex w !! pane_id pane); reflexivity.
Qed.

Lemma last_classified_before w pane worker poll :
  PaneState.last_classified_hash (pane_state_before w pane worker poll)
  = last_classified w (pane_id pane).
Proof.
  unfold pane_state_before, last_classified.
  destruct (state regex w !! pane_id pane); reflexivity.
Qed.

(** ** Sequences of calls *)

(** What the watcher does to its cache, call after call: [_process_pane]
    on a pane, and the purge that ends a cycle. *)
Inductive call :=
| Process (pane : PaneInfo) (worker : WorkerMetadata) (poll : Poll)
| Purge (seen : list str).

Definition step (w : PtyWatcher regex) (c : call)
  : PtyWatcher regex * list effect :=
  match c with
  | Process pane worker poll => process_pane w pane worker poll
  | Purge seen => (purge regex w seen, [])
  end.

(** The effects of each call of a sequence. *)
Fixpoint run_calls (w : PtyWatcher regex) (calls : list call)
  : list (list effect) :=
  match calls with
  | [] => []
  | c :: rest => snd (step w c) :: run_calls (fst (step w c)) rest
  end.

(** The call [k] of the run classified the pane, at hash [h]. *)
Definition classified_at (w : PtyWatcher regex) (calls : list call)
  (pane_id : str) (k : nat) (h : str) : Prop :=
  exists effects,
    run_calls w calls !! k = Some effects /\
    classified_hash pane_id effects = Some h.

(** The cache entry of the pane lives through the call: no purge of a cycle
    that did not see the pane. *)
Definition keeps (pane_id : str) (c : call) : Prop :=
  match c with
  | Process _ _ _ => True
  | Purge seen => pane_id ∈ seen
  end.

Lemma step_classified w c p h :
  classified_hash p (snd (step w c)) = Some h ->
  last_classified w p <> Some h /\
  last_classified (fst (step w c)) p = Some h.
Proof.
  destruct c as [pane worker poll|seen]; cbn [step snd fst];
    [|discriminate].
  rewrite process_pane_effects.
  destruct (snd (observed w pane worker poll)) eqn:Hcalled; [|discriminate].
  destruct (bool_decide (pane_id pane = p)) eqn:Hp; [|discriminate].
  apply bool_decide_eq_true in Hp. subst p. intros [= <-].
  destruct (observed w pane worker poll) as [pane_state' called] eqn:Hobs.
  cbn [snd] in Hcalled. subst called.
  pose proof Hobs as Hcall. unfold observed in Hcall.
  apply observe_called in Hcall as (_ & Hold & _ & _ & _ & Hnew).
  rewrite last_classified_before in Hold. split; [exact Hold|].
  unfold last_classified at 1. rewrite process_pane_state, Hobs.
  exact Hnew.
Qed.

Lemma step_quiet w c p :
  keeps p c ->
  classified_hash p (snd (step w c)) = None ->
  last_classified (fst (step w c)) p = last_classified w p.
Proof.
  destruct c as [pane worker poll|seen]; cbn [step snd fst keeps].
  - intros _. rewrite process_pane_effects.
    destruct (decide (pane_id pane = p)) as [<-|Hne].
    + rewrite bool_decide_eq_true_2 by reflexivity. rewrite andb_true_r.
      destruct (observed w pane worker poll) as [pane_state' called] eqn:Hobs.
      cbn [snd]. destruct called; [discriminate|]. intros _.
      unfold last_classified at 1. rewrite process_pane_state, Hobs.
      unfold observed in Hobs. apply observe_quiet in Hobs as [Hsame _].
      rewrite last_classified_before in Hsame. exact Hsame.
    + intros _. unfold last_classified.
      rewrite process_pane_other by congruence. reflexivity.
  - intros Hseen _. unfold last_classified, purge. cbn [state].
    destruct (state regex w !! p) as [pane_state|] eqn:Hrow.
    + erewrite map_lookup_filter_Some_2; [reflexivity|exact Hrow|].
      exact Hseen.
    + rewrite map_lookup_filter_None_2; [reflexivity|]. left. exact Hrow.
Qed.

Lemma classified_at_head w c rest p h :
  classified_at w (c :: rest) p 0 h <->
  classified_hash p (snd (step w c)) = Some h.
Proof.
  unfold classified_at. cbn [run_calls]. split.
  - intros (effects & [= <-] & H). exact H.
  - intros H. eexists. split; [reflexivity|exact H].
Qed.

Lemma classified_at_tail w c rest p k h :
  classified_at w (c :: rest) p (S k) h <->
  classified_at (fst (step w c)) rest p k h.
Proof. reflexivity. Qed.

(** From a pane last classified at [H] on: before the classifier is called
    at [H] again it is called at another hash. *)
Lemma reclassified_after calls : forall w p H j,
  last_classified w p = Some H ->
  classified_at w calls p j H ->
  (forall k c, k < j -> calls !! k = Some c -> keeps p c) ->
  exists k H', k < j /\ classified_at w calls p k H' /\ H' <> H.
Proof.
  induction calls as [|c rest IH]; intros w p H j Hlast Hj Hkeep.
  { destruct Hj as (effects & Hnone & _). destruct j; discriminate. }
  destruct j as [|j].
  { apply classified_at_head, step_classified in Hj as [Hne _].
    congruence. }
  destruct (classified_hash p (snd (step w c))) as [h|] eqn:Hfirst.
  - exists 0, h. split; [lia|]. split; [apply classified_at_head; exact Hfirst|].
    apply step_classified in Hfirst as [Hne _]. congruence.
  - assert (last_classified (fst (step w c)) p = Some H) as Hlast'.
    { rewrite step_quiet; [exact Hlast| |exact Hfirst].
      apply (Hkeep 0); [lia|reflexivity]. }
    apply classified_at_tail in Hj.
    destruct (IH _ p H j Hlast' Hj) as (k & H' & Hk & Hat & Hne).
    { intros k c' Hk Hc'. apply (Hkeep (S k)); [lia|exact Hc']. }
    exists (S k), H'. split; [lia|]. split; [|exact Hne].
    apply classified_at_tail. exact Hat.
Qed.

Lemma classified_twice calls : forall w p i j H,
  i < j ->
  classified_at w calls p i H ->
  classified_at w calls p j H ->
  (forall k c, i < k < j -> calls !! k = Some c -> keeps p c) ->
  exists k H', i < k < j /\ classified_at w calls p k H' /\ H' <> H.
Proof.
  induction calls as [|c rest IH]; intros w p i j H Hij Hi Hj Hkeep.
  { destruct Hi as (effects & Hnone & _). destruct i; discriminate. }
  destruct j as [|j]; [lia|]. apply classified_at_tail in Hj.
  destruct i as [|i].
  - apply classified_at_head, step_classified in Hi as [_ Hlast].
    destruct (reclassified_after rest _ p H j Hlast Hj)
      as (k & H' & Hk & Hat & Hne).
    { intros k c' Hk Hc'. apply (Hkeep (S k)); [lia|exact Hc']. }
    exists (S k), H'. split; [lia|]. split; [|exact Hne].
    apply classified_at_tail. exact Hat.
  - apply classified_at_tail in Hi.
    destruct (IH _ p i j H ltac:(lia) Hi Hj) as (k & H' & Hk & Hat & Hne).
    { intros k c' Hk Hc'. apply (Hkeep (S k)); [lia|exact Hc']. }
    exists (S k), H'. split; [lia|]. split; [|exact Hne].
    apply classified_at_tail. exact Hat.
Qed.

(** C5, as amended.  In every call of [_process_pane]: a snapshot hash
    that differs from the one before sets stable_count to 0 and the state
    to BUSY, and the classifier is not called; the classifier is called
    only for the pane of the call, when the hash is the one before,
    stable_count has reached the threshold of the pane and the hash is not
    last_classified_hash.  Hence in every sequence of polling cycles,
    between two calls of the classifier for one pane at one hash [H] there
    is a call of it for that pane at another hash, as long as every cycle in
    between sees the pane, so that its cache entry is not purged. *)
Theorem classified_once_per_stable_hash :
  (forall w pane worker poll,
     last_snapshot w (pane_id pane) <> Some (snapshot_hash_of poll) ->
     exists pane_state',
       state regex (fst (process_pane w pane worker poll)) !! pane_id pane
       = Some pane_state' /\
       PaneState.stable_count pane_state' = 0%Z /\
       PaneState.state pane_state' = py "BUSY" /\
       classified_hash (pane_id pane) (snd (process_pane w pane worker poll))
       = None) /\
  (forall w pane worker poll p h,
     classified_hash p (snd (process_pane w pane worker poll)) = Some h ->
     p = pane_id pane /\ h = snapshot_hash_of poll /\
     exists pane_state pane_state',
       state regex w !! p = Some pane_state /\
       state regex (fst (process_pane w pane worker poll)) !! p
       = Some pane_state' /\
       PaneState.last_snapshot_hash pane_state = Some h /\
       PaneState.last_classified_hash pane_state <> Some h /\
       (threshold_of pane_state <= PaneState.stable_count pane_state')%Z /\
       PaneState.stable_count pane_state'
       = (PaneState.stable_count pane_state + 1)%Z) /\
  (forall w calls p i j H,
     i < j ->
     classified_at w calls p i H ->
     classified_at w calls p j H ->
     (forall k c, i < k < j -> calls !! k = Some c -> keeps p c) ->
     exists k H', i < k < j /\ classified_at w calls p k H' /\ H' <> H).
Proof.
  split; [|split].
  - intros w pane worker poll Hchanged.
    rewrite <- last_snapshot_before with (worker := worker) (poll := poll)
      in Hchanged.
    destruct (observe_changed
                (fst (classifier_for w (cli_type worker)))
                (metadata_of pane worker) _ _ (strip_ansi (text poll))
                (ts poll) Hchanged)
      as (pane_state' & Hobs & _ & Hcount & Hstate & _).
    fold (observed w pane worker poll) in Hobs.
    exists pane_state'. rewrite process_pane_state, process_pane_effects, Hobs.
    repeat split; assumption.
  - intros w pane worker poll p h. rewrite process_pane_effects.
    destruct (observed w pane worker poll) as [pane_state' called] eqn:Hobs.
    cbn [snd]. destruct called; [|discriminate].
    destruct (bool_decide (pane_id pane = p)) eqn:Hp; [|discriminate].
    apply bool_decide_eq_true in Hp. subst p. intros [= <-].
    split; [reflexivity|]. split; [reflexivity|].
    pose proof Hobs as Hcall. unfold observed in Hcall.
    apply observe_called in Hcall
      as (Hsame & Hold & Hreach & Hcount & _ & _).
    unfold pane_state_before in *.
    destruct (state regex w !! pane_id pane) as [pane_state|] eqn:Hrow;
      [|discriminate].
    exists pane_state, pane_state'.
    rewrite process_pane_state, Hobs. repeat split; assumption.
  - intros w calls. apply classified_twice.
Qed.

(** C5 as the specification words it: in every sequence of polling cycles,
    whether or not the pane is seen in each. *)
Definition claimed_single_classification (w : PtyWatcher regex)
  (calls : list call) (pane_id : str) : Prop :=
  forall i j H,
    i < j ->
    classified_at w calls pane_id i H ->
    classified_at w calls pane_id j H ->
    exists k H',
      i < k < j /\ classified_at w calls pane_id k H' /\ H' <> H.

(** Calls of [_process_pane] alone keep every cache entry. *)
Lemma classified_twice_polls
  (polls : list (PaneInfo * WorkerMetadata * Poll)) w p i j H :
  let calls :=
    List.map (fun x => Process (fst (fst x)) (snd (fst x)) (snd x)) polls in
  i < j ->
  classified_at w calls p i H ->
  classified_at w calls p j H ->
  exists k H', i < k < j /\ classified_at w calls p k H' /\ H' <> H.
Proof.
  intros calls Hij Hi Hj.
  apply (classified_twice calls w p i j H Hij Hi Hj).
  intros k c _ Hc. unfold calls in Hc.
  rewrite list_lookup_fmap in Hc.
  destruct (polls !! k); [|discriminate]. injection Hc as <-. exact I.
Qed.

(** A cycle of [_poll_once] is such a sequence: the calls of
    [_process_pane] for the panes of known workers, then the purge. *)
Definition cycle (panes : list (PaneInfo * WorkerMetadata * Poll))
  : list call :=
  List.map (fun p => Process (fst (fst p)) (snd (fst p)) (snd p)) panes
  ++ [Purge (List.map (fun p => pane_id (fst (fst p))) panes)].

Definition after (w : PtyWatcher regex) (calls : list call)
  : PtyWatcher regex :=
  fold_left (fun w c => fst (step w c)) calls w.

Lemma process_panes_run panes : forall w,
  process_panes regex search openrouter_classify sha256_hexdigest load_pack
    settings w panes
  = (after w (List.map
                (fun p => Process (fst (fst p)) (snd (fst p)) (snd p)) panes),
     concat (run_calls w (List.map
                      (fun p => Process (fst (fst p)) (snd (fst p)) (snd p))
                      panes))).
Proof.
  induction panes as [|[[pane worker] poll] panes IH]; intros w;
    [reflexivity|].
  cbn [Watcher.process_panes List.map run_calls after fold_left concat step fst snd].
  destruct (process_pane w pane worker poll) as [w1 effects].
  rewrite IH. reflexivity.
Qed.

Lemma run_app calls1 : forall w calls2,
  run_calls w (calls1 ++ calls2) = run_calls w calls1 ++ run_calls (after w calls1) calls2.
Proof.
  induction calls1 as [|c calls1 IH]; intros w calls2; [reflexivity|].
  cbn [app run_calls after fold_left]. rewrite IH. reflexivity.
Qed.

Lemma poll_once_cycle w panes :
  poll_once regex search openrouter_classify sha256_hexdigest load_pack
    settings w panes
  = (after w (cycle panes), concat (run_calls w (cycle panes))).
Proof.
  unfold Watcher.poll_once, cycle. rewrite process_panes_run.
  unfold after at 2. rewrite fold_left_app, run_app, concat_app.
  cbn [fold_left step fst run_calls concat snd]. rewrite !app_nil_r. reflexivity.
Qed.

(** A new cache entry has the threshold of the pack, and no call changes
    the threshold of an entry. *)
Lemma process_pane_threshold w pane worker poll :
  exists pane_state',
    state regex (fst (process_pane w pane worker poll)) !! pane_id pane
    = Some pane_state' /\
    PaneState.threshold pane_state' =
      match state regex w !! pane_id pane with
      | Some pane_state => PaneState.threshold pane_state
      | None =>
          stability_polls regex
            (pack regex (fst (classifier_for w (cli_type worker))))
      end.
Proof.
  eexists. split; [apply process_pane_state|].
  unfold observed. rewrite observe_threshold. unfold pane_state_before.
  destruct (state regex w !! pane_id pane); reflexivity.
Qed.

(** A purge that did not see the pane forgets what was classified. *)
Lemma purge_forgets w seen p :
  p ∉ seen -> last_classified (purge regex w seen) p = None.
Proof.
  intros Hp. unfold last_classified, purge. cbn [state].
  rewrite map_lookup_filter_None_2; [reflexivity|].
  right. intros pane_state _. exact Hp.
Qed.

End Stability.

(** ** A pane, watched *)

(** Substring patterns for [re], the text itself for its SHA-256, no remote
    classifier: enough to run the watcher. *)
Definition watched_pane : PaneInfo := {|
  pane_id := py "%1";
  session_name := py "agent-1";
  window_index := py "0";
  pane_index := py "0";
  cwd := py ".workers/worker-1";
  title := []
|}.

Definition watched_worker : WorkerMetadata := {|
  worker_id := py "worker-1";
  tmux_session := py "agent-1";
  workspace := py ".workers/worker-1";
  cli_type := py "codex"
|}.

Definition no_remote (pack : ClassifierPack str) (snapshot : str)
  (metadata : Metadata) : option ClassificationResult := None.

Definition text_as_hash (s : str) : str := s.

Definition sample_load (cli_type : str) : ClassifierPack str :=
  ClassifierFacts.sample_pack.

Definition empty_watcher : PtyWatcher str :=
  {| state := ∅; classifiers := ∅ |}.

(** A cycle that sees the pane showing [screen], and a cycle that sees no
    pane at all, as when tmux fails to list them. *)
Definition shows (screen : string) (t : Z) : list call :=
  cycle [(watched_pane, watched_worker,
          {| text := py screen; ts := t; now := t |})].

Definition sees_nothing : list call := cycle [].

Definition watch (calls : list call) : list (list effect) :=
  run_calls str contains no_remote text_as_hash sample_load Config.defaults
    empty_watcher calls.

(** A prompt for four cycles, a running command for four, the prompt
    again for four. *)
Definition sample_calls : list call :=
  shows "$ " 0 ++ shows "$ " 5 ++ shows "$ " 10 ++ shows "$ " 15
  ++ shows "Running tests" 20 ++ shows "Running tests" 25
  ++ shows "Running tests" 30 ++ shows "Running tests" 35
  ++ shows "$ " 40 ++ shows "$ " 45 ++ shows "$ " 50 ++ shows "$ " 55.

(** The classifier is called in the fourth cycle of each screen, and in no
    other. *)
Example sample_calls_classified :
  omap (classified_hash (py "%1")) (watch sample_calls)
  = [py "$ "; py "Running tests"; py "$ "]
  /\ List.map (classified_hash (py "%1")) (watch sample_calls) !! 6
    = Some (Some (py "$ "))
  /\ List.map (classified_hash (py "%1")) (watch sample_calls) !! 14
    = Some (Some (py "Running tests"))
  /\ List.map (classified_hash (py "%1")) (watch sample_calls) !! 22
    = Some (Some (py "$ ")).
Proof. repeat split; vm_compute; reflexivity. Qed.

Lemma classified_once_per_stable_hash_witness :
  exists k H',
    6 < k < 22 /\
    classified_at str contains no_remote text_as_hash sample_load
      Config.defaults empty_watcher sample_calls (py "%1") k H' /\
    H' <> py "$ ".
Proof.
  destruct (classified_once_per_stable_hash str contains no_remote
              text_as_hash sample_load Config.defaults) as (_ & _ & Hrun).
  apply (Hrun empty_watcher sample_calls (py "%1") 6 22 (py "$ ")).
  - lia.
  - eexists. split; vm_compute; reflexivity.
  - eexists. split; vm_compute; reflexivity.
  - intros k c _ Hc.
    assert (Forall (keeps (py "%1")) sample_calls) as Hall.
    { repeat constructor. }
    exact (Forall_lookup_1 _ _ _ _ Hall Hc).
Defined.

(** The prompt for four cycles, one cycle that sees no pane, the prompt for
    four cycles more: the prompt is classified twice, and nothing else in
    between. *)
Definition interrupted_calls : list call :=
  shows "$ " 0 ++ shows "$ " 5 ++ shows "$ " 10 ++ shows "$ " 15
  ++ sees_nothing
  ++ shows "$ " 25 ++ shows "$ " 30 ++ shows "$ " 35 ++ shows "$ " 40.

Example interrupted_calls_classified :
  omap (classified_hash (py "%1")) (watch interrupted_calls)
  = [py "$ "; py "$ "].
Proof. vm_compute. reflexivity. Qed.

Lemma classified_once_per_stable_hash_counterexample :
  ~ claimed_single_classification str contains no_remote text_as_hash
      sample_load Config.defaults empty_watcher interrupted_calls (py "%1").
Proof.
  intros Hclaim.
  destruct (Hclaim 6 15 (py "$ ")) as (k & H' & Hk & Hat & Hne).
  - lia.
  - eexists. split; vm_compute; reflexivity.
  - eexists. split; vm_compute; reflexivity.
  - destruct Hat as (effects & Hlook & Hcls).
    assert (k = 7 \/ k = 8 \/ k = 9 \/ k = 10 \/ k = 11 \/ k = 12
            \/ k = 13 \/ k = 14) as Hcases by lia.
    repeat destruct Hcases as [->|Hcases]; try subst k;
      vm_compute in Hlook; injection Hlook as <-;
      vm_compute in Hcls; discriminate Hcls.
Qed.

End WatcherFacts.

(* ===================================================================== *)
(** * More on the worker runtime: batches of lines *)
(* ===================================================================== *)

Module RuntimeBatches.
Import Py Runtime RuntimeFacts.

Section Batches.

Variable utcnow : nat -> timestamp.
Variable settings : Config.Settings.

Local Abbreviation finalize_result := (finalize_result utcnow).
Local Abbreviation process_loop := (process_loop utcnow settings).
Local Abbreviation process_lines := (process_lines utcnow settings).
Local Abbreviation is_start := (is_start settings).
Local Abbreviation is_end := (is_end settings).
Local Abbreviation is_payload := (is_payload settings).

(** The event line 75 records for a line of plain output. *)
Definition stdout_event (task_id : str) (raw_line : str) : TaskEvent.t := {|
  TaskEvent.task_id := task_id;
  TaskEvent.type := TaskEventType.stdout_chunk;
  TaskEvent.payload := VDict [(py "line", VStr raw_line)]
|}.

Definition add_events (s : Store) (events : list TaskEvent.t) : Store := {|
  tasks := tasks s;
  workers := workers s;
  flows := flows s;
  task_events := task_events s ++ events
|}.

Lemma add_events_nil s : add_events s [] = s.
Proof. destruct s. unfold add_events. simpl. rewrite app_nil_r. reflexivity. Qed.

Lemma with_session_same st : with_session st (session st) = st.
Proof. destruct st. reflexivity. Qed.

(** Outside a frame, with a task queued, every line becomes an event of
    the task at the head of the queue. *)
Lemma loop_stdout lines : forall st rest first,
  Forall is_payload lines ->
  opt_truthy (collecting_task_id (runtime st)) = false ->
  head (running_tasks (runtime st)) = Some first ->
  process_loop st (lines ++ rest) =
  process_loop
    (with_session st
       (add_events (session st) (List.map (stdout_event first) lines)))
    rest.
Proof.
  induction lines as [|line lines IH]; intros st rest first Hall Hc Hq.
  - cbn [List.map app]. rewrite add_events_nil, with_session_same.
    reflexivity.
  - inversion Hall as [|? ? [Hs He] Hall']; subst.
    cbn [app Runtime.process_loop]. rewrite Hs, He, Hc.
    destruct (running_tasks (runtime st)) as [|first' queue] eqn:Hqueue;
      [discriminate|].
    injection Hq as ->.
    rewrite (IH _ rest first Hall'); [|exact Hc|cbn; rewrite Hqueue; reflexivity].
    f_equal. unfold with_session, add_events, add_event, stdout_event.
    cbn. rewrite <- app_assoc. reflexivity.
Qed.

(** X1.  Lines read outside a frame while tasks are queued: each line,
    blank ones too, becomes one stdout_chunk event of the task at the head
    of the queue, in the order read; the batch commits, and nothing else
    changes. *)
Theorem stdout_lines_recorded (st : State) (lines : list str) (first : str) :
  lines <> [] ->
  Forall is_payload lines ->
  opt_truthy (collecting_task_id (runtime st)) = false ->
  head (running_tasks (runtime st)) = Some first ->
  exists st',
    process_lines st lines = Returned st' /\
    runtime st' = runtime st /\
    ticks st' = ticks st /\
    tasks (database st') = tasks (database st) /\
    workers (database st') = workers (database st) /\
    flows (database st') = flows (database st) /\
    task_events (database st') =
      task_events (database st) ++ List.map (stdout_event first) lines.
Proof.
  intros Hne Hall Hc Hq. unfold Runtime.process_lines.
  destruct lines as [|line lines]; [congruence|].
  rewrite <- (app_nil_r (line :: lines)).
  rewrite (loop_stdout _ _ [] first Hall); [|exact Hc|exact Hq].
  cbn [Runtime.process_loop]. eexists. split; [reflexivity|].
  repeat split. rewrite app_nil_r. reflexivity.
Qed.

(** A frame, read whole: the payload lines are in the buffer when the end
    line is reached. *)
Lemma loop_framed st task_id start payload end_line rest :
  head (running_tasks (runtime st)) = Some task_id -> task_id <> [] ->
  is_start start -> Forall is_payload payload -> is_end end_line ->
  process_loop st (start :: payload ++ end_line :: rest) =
  match finalize_result
          (with_runtime st (set_collecting (runtime st) (Some task_id) payload))
  with
  | Returned st' => process_loop st' rest
  | Raised e st' => Raised e st'
  end.
Proof.
  intros Hhead Hid Hs Hp He.
  rewrite (loop_start utcnow settings _ _ _ Hs), Hhead.
  rewrite (loop_collect utcnow settings payload); [|exact Hp|exact (opt_truthy_some _ Hid)].
  cbn [runtime with_runtime set_collecting collecting_task_id result_lines app].
  rewrite (loop_end utcnow settings _ _ _ He). reflexivity.
Qed.

Lemma finalized_queue st task_id task result status error_message :
  running_tasks
    (runtime (finalized utcnow st task_id task result status error_message))
  = if deque_mem task_id (running_tasks (runtime st))
    then deque_remove task_id (running_tasks (runtime st))
    else running_tasks (runtime st).
Proof. reflexivity. Qed.

Lemma deque_remove_absent x q : deque_mem x q = false -> deque_remove x q = q.
Proof.
  unfold deque_mem. induction q as [|y q IH]; [reflexivity|].
  cbn [existsb deque_remove]. unfold str_eqb at 1 3.
  intros [Hy Hq]%orb_false_iff.
  apply bool_decide_eq_false in Hy.
  rewrite bool_decide_eq_false_2 by congruence. rewrite IH by exact Hq.
  reflexivity.
Qed.

Lemma finalized_queue_removed st task_id task result status error_message :
  running_tasks
    (runtime (finalized utcnow st task_id task result status error_message))
  = deque_remove task_id (running_tasks (runtime st)).
Proof.
  rewrite finalized_queue.
  destruct (deque_mem task_id (running_tasks (runtime st))) eqn:Hmem;
    [reflexivity|].
  symmetry. apply deque_remove_absent. exact Hmem.
Qed.

Lemma deque_remove_head x q : deque_remove x (x :: q) = q.
Proof.
  cbn [deque_remove]. unfold str_eqb.
  rewrite bool_decide_eq_true_2; reflexivity.
Qed.

(** X2.  Two results in one batch, two tasks queued: the first frame
    settles the task at the head of the queue, the second frame the task
    behind it, each with the verdict of its own payload, whichever tool
    printed it; both ids leave the queue. *)
Theorem results_in_queue_order (st : State) (a b : str) (queue : list str)
  (task_a task_b : Task.t)
  (start1 : str) (payload1 : list str) (end1 : str)
  (start2 : str) (payload2 : list str) (end2 : str)
  (verdict1 verdict2 : pyval * TaskStatus.t * pyval) :
  running_tasks (runtime st) = a :: b :: queue ->
  a <> [] -> b <> [] -> a <> b ->
  tasks (database st) !! a = Some task_a ->
  tasks (database st) !! b = Some task_b ->
  is_start start1 -> Forall is_payload payload1 -> is_end end1 ->
  is_start start2 -> Forall is_payload payload2 -> is_end end2 ->
  parse_payload (join NEWLINE payload1) = inr verdict1 ->
  parse_payload (join NEWLINE payload2) = inr verdict2 ->
  exists st',
    process_lines st
      (start1 :: payload1 ++ end1 :: start2 :: payload2 ++ [end2])
    = Returned st' /\
    tasks (database st') !! a =
      Some (finish_task task_a (fst (fst verdict1)) (snd verdict1)
              (snd (fst verdict1)) (utcnow (ticks st))) /\
    tasks (database st') !! b =
      Some (finish_task task_b (fst (fst verdict2)) (snd verdict2)
              (snd (fst verdict2)) (utcnow (S (ticks st)))) /\
    running_tasks (runtime st') = queue.
Proof.
  intros Hq Ha Hb Hab Hra Hrb Hs1 Hp1 He1 Hs2 Hp2 He2 Hv1 Hv2.
  destruct verdict1 as [[r1 s1] e1], verdict2 as [[r2 s2] e2].
  cbn [fst snd].
  unfold Runtime.process_lines. cbn [app].
  set (st0 := with_session st (database st)).
  rewrite (loop_framed st0 a start1 payload1 end1 _); try assumption;
    [|cbn; rewrite Hq; reflexivity].
  set (st1 := with_runtime st0 _).
  rewrite (finalize_found utcnow st1 a task_a r1 s1 e1 eq_refl Ha Hv1 Hra).
  set (f1 := finalized utcnow st1 a task_a r1 s1 e1).
  assert (running_tasks (runtime f1) = b :: queue) as Hq1.
  { unfold f1. rewrite finalized_queue_removed. cbn. rewrite Hq.
    apply deque_remove_head. }
  assert (tasks (session f1) !! b = Some task_b) as Hrb1.
  { change (session f1) with (database f1). unfold f1.
    rewrite finalized_other_task by congruence. exact Hrb. }
  rewrite (loop_framed f1 b start2 payload2 end2 []); try assumption;
    [|rewrite Hq1; reflexivity].
  set (st2 := with_runtime f1 _).
  rewrite (finalize_found utcnow st2 b task_b r2 s2 e2 eq_refl Hb Hv2 Hrb1).
  cbn [Runtime.process_loop].
  eexists. split; [reflexivity|]. cbn [database commit].
  change (session (finalized utcnow st2 b task_b r2 s2 e2))
    with (database (finalized utcnow st2 b task_b r2 s2 e2)).
  split; [|split].
  - rewrite finalized_other_task by congruence.
    change (session st2) with (database f1). unfold f1.
    rewrite finalized_task. reflexivity.
  - rewrite finalized_task. reflexivity.
  - change (runtime (commit ?x)) with (runtime x).
    rewrite finalized_queue_removed.
    change (running_tasks (runtime st2)) with (running_tasks (runtime f1)).
    rewrite Hq1. apply deque_remove_head.
Qed.

(** X3.  A second sentinel_start line before any sentinel_end throws away
    what the first one had collected: the lines go on as if the second
    start were the first.  (The id at the head of the queue, if there is
    one, is not the empty string.) *)
Theorem latest_start_wins (st : State) (start1 : str) (payload1 : list str)
  (start2 : str) (rest : list str) :
  head (running_tasks (runtime st)) <> Some [] ->
  is_start start1 -> Forall is_payload payload1 -> is_start start2 ->
  process_loop st (start1 :: payload1 ++ start2 :: rest)
  = process_loop st (start2 :: rest).
Proof.
  intros Hhead Hs1 Hp1 Hs2.
  rewrite (loop_start utcnow settings st start1 _ Hs1).
  rewrite (loop_start utcnow settings st start2 _ Hs2).
  destruct (running_tasks (runtime st)) as [|first queue] eqn:Hq.
  - cbn [head]. rewrite (loop_drop utcnow settings payload1);
      [|exact Hp1|reflexivity|exact Hq].
    rewrite (loop_start utcnow settings _ start2 _ Hs2).
    cbn. rewrite Hq. reflexivity.
  - cbn [head] in *.
    assert (first <> []) as Hfirst by congruence.
    rewrite (loop_collect utcnow settings payload1);
      [|exact Hp1|exact (opt_truthy_some _ Hfirst)].
    rewrite (loop_start utcnow settings _ start2 _ Hs2).
    cbn. rewrite Hq. reflexivity.
Qed.

Lemma workers_fail_flow s task status task_id :
  workers (fail_flow s task status task_id) = workers s.
Proof.
  unfold fail_flow.
  destruct (TaskStatus.eqb status TaskStatus.failed
            && opt_truthy (Task.flow_id task)); [|reflexivity].
  destruct (Task.flow_id task) as [flow_id|]; [|reflexivity].
  destruct (flows s !! flow_id); reflexivity.
Qed.

Lemma events_fail_flow s task status task_id :
  task_events (fail_flow s task status task_id) = task_events s.
Proof.
  unfold fail_flow.
  destruct (TaskStatus.eqb status TaskStatus.failed
            && opt_truthy (Task.flow_id task)); [|reflexivity].
  destruct (Task.flow_id task) as [flow_id|]; [|reflexivity].
  destruct (flows s !! flow_id); reflexivity.
Qed.

Lemma events_touch_worker s worker_id queue now :
  task_events (touch_worker s worker_id queue now) = task_events s.
Proof. unfold touch_worker. destruct (workers s !! worker_id); reflexivity. Qed.

(** The event line 113 records. *)
Definition result_event (task_id : str) (result error_message : pyval)
  : TaskEvent.t := {|
  TaskEvent.task_id := task_id;
  TaskEvent.type := TaskEventType.result_parsed;
  TaskEvent.payload :=
    VDict [(py "result", result); (py "error", error_message)]
|}.

(** X4.  A result that finds its task row and the row of the task's worker
    takes one occurrence of the id out of the queue and writes the worker
    row: idle exactly when the queue is then empty, busy otherwise, seen
    at the time the task finished, its session and workspace as before.
    No other worker row changes and one result_parsed event is recorded. *)
Theorem finalize_touches_worker (st : State) (task_id : str) (task : Task.t)
  (worker : Worker.t) (verdict : pyval * TaskStatus.t * pyval) :
  collecting_task_id (runtime st) = Some task_id -> task_id <> [] ->
  parse_payload (payload_text st) = inr verdict ->
  tasks (session st) !! task_id = Some task ->
  workers (session st) !! Task.worker_id task = Some worker ->
  exists st' worker',
    finalize_result st = Returned st' /\
    running_tasks (runtime st') =
      deque_remove task_id (running_tasks (runtime st)) /\
    workers (database st') !! Task.worker_id task = Some worker' /\
    (Worker.status worker' = WorkerStatus.idle <->
     running_tasks (runtime st') = []) /\
    (Worker.status worker' = WorkerStatus.busy <->
     running_tasks (runtime st') <> []) /\
    Worker.last_seen_at worker' = utcnow (ticks st) /\
    Worker.tmux_session worker' = Worker.tmux_session worker /\
    Worker.workspace_path worker' = Worker.workspace_path worker /\
    (forall other, other <> Task.worker_id task ->
       workers (database st') !! other = workers (session st) !! other) /\
    task_events (database st') =
      task_events (session st)
      ++ [result_event task_id (fst (fst verdict)) (snd verdict)].
Proof.
  intros Hc Hid Hv Ht Hw. destruct verdict as [[result status] error_message].
  rewrite (finalize_found utcnow st task_id task result status error_message
             Hc Hid Hv Ht).
  assert (running_tasks
            (runtime (finalized utcnow st task_id task result status
                        error_message))
          = deque_remove task_id (running_tasks (runtime st))) as Hq
    by apply finalized_queue_removed.
  revert Hq. unfold finalized.
  cbn [runtime database running_tasks set_running_tasks].
  set (queue := if deque_mem task_id (running_tasks (runtime st)) then _
                else _).
  intros Hq.
  eexists _, _. split; [reflexivity|].
  cbn [runtime database running_tasks set_running_tasks fst snd].
  rewrite !workers_fail_flow, events_fail_flow, events_touch_worker.
  unfold touch_worker.
  cbn [finish_task Task.worker_id workers add_event put_task task_events].
  rewrite Hw. cbn [workers put_worker]. rewrite lookup_insert_eq.
  split; [exact Hq|]. split; [reflexivity|].
  cbn [Worker.status Worker.last_seen_at Worker.tmux_session
       Worker.workspace_path].
  clearbody queue.
  repeat split; try (destruct queue; congruence).
  intros other Hne. apply lookup_insert_ne. congruence.
Qed.

(** X5.  A result whose payload raises ends the batch with the exception:
    what the batch had recorded before it (the output lines of the head
    task) is not committed, the lines after it are not looked at, and the
    task stays at the head of the queue with nothing collected. *)
Theorem raising_result_drops_batch (st : State) (first : str)
  (lines : list str) (start : str) (payload : list str) (end_line : str)
  (rest : list str) (e : exn) :
  opt_truthy (collecting_task_id (runtime st)) = false ->
  head (running_tasks (runtime st)) = Some first -> first <> [] ->
  Forall is_payload lines ->
  is_start start -> Forall is_payload payload -> is_end end_line ->
  parse_payload (join NEWLINE payload) = inl e ->
  exists st',
    process_lines st (lines ++ start :: payload ++ end_line :: rest)
    = Raised e st' /\
    database st' = database st /\
    session st' = database st /\
    running_tasks (runtime st') = running_tasks (runtime st) /\
    collecting_task_id (runtime st') = None /\
    result_lines (runtime st') = [].
Proof.
  intros Hc Hq Hfirst Hlines Hs Hp He Hv.
  eexists. split.
  - apply process_lines_raises; [destruct lines; discriminate|].
    rewrite (loop_stdout lines (with_session st (database st)) _ first
               Hlines Hc Hq).
    set (st1 := with_session _ (add_events _ _)).
    rewrite (loop_framed st1 first start payload end_line rest Hq Hfirst
               Hs Hp He).
    set (st2 := with_runtime st1 _).
    rewrite (finalize_raises utcnow st2 first e eq_refl Hfirst Hv).
    reflexivity.
  - repeat split.
Qed.

(** ** A turn of the monitor *)

Lemma with_controller_same st :
  with_runtime st
    (set_controller (runtime st)
       (Tmux.set_last_size (controller (runtime st))
          (Tmux.last_size (controller (runtime st)))))
  = st.
Proof. destruct st as [[? ? [] ? ? ?] ? ? ?]. reflexivity. Qed.

(** X7.  A capture as long as the one before is taken for no output at
    all, whatever its text: the turn changes nothing. *)
Theorem same_length_capture_ignored (st : State)
  (result : Tmux.CompletedProcess) :
  Tmux.returncode result = 0%Z ->
  length (Tmux.stdout result) = Tmux.last_size (controller (runtime st)) ->
  monitor_turn utcnow settings st result = Returned st.
Proof.
  intros Hrc Hlen. unfold monitor_turn, Tmux.capture_pane, Tmux.run.
  rewrite Hrc. cbn [Z.eqb negb Tmux.new_text]. rewrite Hlen, Nat.leb_refl.
  rewrite <- Hlen, skipn_all. cbn [nonempty]. rewrite Hlen.
  rewrite with_controller_same. reflexivity.
Qed.

(** The text of lines printed one after the other, each ended by a line
    feed. *)
Definition printed (lines : list str) : str :=
  concat (List.map (fun line => line ++ NEWLINE) lines).

Definition one_line (line : str) : Prop :=
  forallb (fun c => negb (is_linebreak c)) line = true.

Lemma splitlines_from_line line : forall cur s,
  one_line line ->
  splitlines_from cur (line ++ NEWLINE ++ s)
  = (rev cur ++ line) :: splitlines_from [] s.
Proof.
  unfold one_line.
  induction line as [|c line IH]; intros cur s Hline.
  - cbn. rewrite app_nil_r. reflexivity.
  - cbn [forallb] in Hline. apply andb_true_iff in Hline as [Hc Hline].
    apply negb_true_iff in Hc.
    cbn [app splitlines_from]. rewrite Hc.
    assert ((c =? 13)%N = false) as ->.
    { destruct (N.eqb_spec c 13) as [->|]; [discriminate Hc|reflexivity]. }
    rewrite (IH (c :: cur) s Hline). cbn [rev]. rewrite <- app_assoc.
    reflexivity.
Qed.

Lemma splitlines_printed lines :
  Forall one_line lines -> splitlines (printed lines) = lines.
Proof.
  unfold splitlines, printed.
  induction lines as [|line lines IH]; intros Hall; [reflexivity|].
  inversion Hall as [|? ? Hline Hall']; subst.
  cbn [List.map concat]. rewrite <- app_assoc.
  rewrite (splitlines_from_line line [] _ Hline). cbn [rev app].
  rewrite (IH Hall'). reflexivity.
Qed.

Lemma printed_nonempty lines : lines <> [] -> nonempty (printed lines) = true.
Proof.
  destruct lines as [|line lines]; [congruence|]. intros _.
  unfold printed. cbn [List.map concat].
  destruct line; reflexivity.
Qed.

(** X8.  When the pane shows what it showed at the last capture followed
    by whole lines, the turn goes through exactly these lines, and the
    cursor moves to the end of the capture. *)
Theorem printed_lines_processed (st : State)
  (result : Tmux.CompletedProcess) (before : str) (lines : list str) :
  Tmux.returncode result = 0%Z ->
  length before = Tmux.last_size (controller (runtime st)) ->
  Tmux.stdout result = before ++ printed lines ->
  lines <> [] -> Forall one_line lines ->
  monitor_turn utcnow settings st result
  = process_lines
      (with_runtime st
         (set_controller (runtime st)
            (Tmux.set_last_size (controller (runtime st))
               (length (Tmux.stdout result)))))
      lines.
Proof.
  intros Hrc Hlen Hout Hne Hall.
  unfold monitor_turn, Tmux.capture_pane, Tmux.run.
  rewrite Hrc. cbn [Z.eqb negb Tmux.new_text].
  assert ((Tmux.last_size (controller (runtime st))
           <=? length (Tmux.stdout result)) = true) as ->.
  { apply Nat.leb_le. rewrite Hout, length_app. lia. }
  assert (skipn (Tmux.last_size (controller (runtime st)))
            (Tmux.stdout result) = printed lines) as ->.
  { rewrite Hout, <- Hlen, skipn_app, skipn_all, Nat.sub_diag.
    reflexivity. }
  rewrite (printed_nonempty _ Hne), (splitlines_printed _ Hall).
  reflexivity.
Qed.

End Batches.

(** X6.  Taking out of the queue an id that was just put in, and was not
    in it before, gives the runtime back as it was. *)
Theorem mark_failed_undoes_enqueue (rt : WorkerRuntime) (task_id : str) :
  deque_mem task_id (running_tasks rt) = false ->
  mark_task_failed (enqueue_task rt task_id) task_id = rt.
Proof.
  intros Hmem. unfold mark_task_failed, enqueue_task.
  cbn [running_tasks set_running_tasks].
  assert (forall q, deque_mem task_id q = false ->
            deque_mem task_id (q ++ [task_id]) = true /\
            deque_remove task_id (q ++ [task_id]) = q) as Hq.
  { induction q as [|y q IH]; cbn [app deque_mem existsb deque_remove].
    - unfold str_eqb. intros _.
      destruct (decide (task_id = task_id)); [|congruence].
      rewrite bool_decide_eq_true_2 by reflexivity. split; reflexivity.
    - intros H. apply orb_false_iff in H as [Hy Hq].
      destruct (IH Hq) as [IH1 IH2]. unfold deque_mem in IH1.
      rewrite IH1, orb_true_r. split; [reflexivity|].
      assert (str_eqb y task_id = false) as ->.
      { unfold str_eqb in *. apply bool_decide_eq_false in Hy.
        apply bool_decide_eq_false. congruence. }
      rewrite IH2. reflexivity. }
  destruct (Hq _ Hmem) as [-> ->]. destruct rt. reflexivity.
Qed.

(** ** The theorems at work *)

Definition second_task : Task.t := {|
  Task.id := py "task-2";
  Task.worker_id := py "worker-1";
  Task.tool := py "claude";
  Task.spec_json := VDict [];
  Task.status := TaskStatus.running;
  Task.result_json := VNone;
  Task.error_message := VNone;
  Task.started_at := None;
  Task.finished_at := None;
  Task.flow_id := None
|}.

(** Two tasks queued on the worker, task-1 ahead of task-2. *)
Definition busy_state : State :=
  let store := put_task sample_store (py "task-2") second_task in
  {| runtime := enqueue_task sample_runtime (py "task-2");
     session := store;
     database := store;
     ticks := 0 |}.

Definition output_lines : list str := [py "Compiling..."; py "  done  "].

Lemma stdout_lines_recorded_witness :
  exists st',
    process_lines sample_utcnow Config.defaults sample_state output_lines
    = Returned st' /\
    runtime st' = runtime sample_state /\
    ticks st' = ticks sample_state /\
    tasks (database st') = tasks (database sample_state) /\
    workers (database st') = workers (database sample_state) /\
    flows (database st') = flows (database sample_state) /\
    task_events (database st') =
      task_events (database sample_state)
      ++ List.map (stdout_event (py "task-1")) output_lines.
Proof.
  exact (stdout_lines_recorded sample_utcnow Config.defaults sample_state
           output_lines (py "task-1") ltac:(discriminate)
           (payload_lines output_lines eq_refl) eq_refl eq_refl).
Defined.

Lemma results_in_queue_order_witness :
  exists st',
    process_lines sample_utcnow Config.defaults busy_state
      (START_LINE :: boom_payload
       ++ END_LINE :: START_LINE :: ok_payload ++ [END_LINE])
    = Returned st' /\
    tasks (database st') !! py "task-1" =
      Some (finish_task sample_task
              (VDict [(py "status", VStr (py "failed"));
                      (py "error", VStr (py "boom"))])
              (VStr (py "boom")) TaskStatus.failed 1000%Z) /\
    tasks (database st') !! py "task-2" =
      Some (finish_task second_task
              (VDict [(py "status", VStr (py "ok"));
                      (py "summary", VStr (py "done"))])
              VNone TaskStatus.completed 1001%Z) /\
    running_tasks (runtime st') = [].
Proof.
  exact (results_in_queue_order sample_utcnow Config.defaults busy_state
           (py "task-1") (py "task-2") [] sample_task second_task
           START_LINE boom_payload END_LINE START_LINE ok_payload END_LINE
           (VDict [(py "status", VStr (py "failed"));
                   (py "error", VStr (py "boom"))],
            TaskStatus.failed, VStr (py "boom"))
           (VDict [(py "status", VStr (py "ok"));
                   (py "summary", VStr (py "done"))],
            TaskStatus.completed, VNone)
           eq_refl task_1_named ltac:(discriminate) ltac:(discriminate)
           ltac:(vm_compute; reflexivity) ltac:(vm_compute; reflexivity)
           start_line_is_start (payload_lines boom_payload eq_refl)
           end_line_is_end
           start_line_is_start (payload_lines ok_payload eq_refl)
           end_line_is_end
           ltac:(vm_compute; reflexivity) ltac:(vm_compute; reflexivity)).
Defined.

Lemma latest_start_wins_witness :
  process_loop sample_utcnow Config.defaults sample_state
    (START_LINE :: number_payload ++ START_LINE :: ok_payload ++ [END_LINE])
  = process_loop sample_utcnow Config.defaults sample_state
      (START_LINE :: ok_payload ++ [END_LINE]).
Proof.
  exact (latest_start_wins sample_utcnow Config.defaults sample_state
           START_LINE number_payload START_LINE (ok_payload ++ [END_LINE])
           ltac:(discriminate) start_line_is_start
           (payload_lines number_payload eq_refl) start_line_is_start).
Defined.

Lemma finalize_touches_worker_witness :
  exists st' worker',
    finalize_result sample_utcnow (collecting_state ok_payload)
    = Returned st' /\
    running_tasks (runtime st') = [] /\
    workers (database st') !! py "worker-1" = Some worker' /\
    Worker.status worker' = WorkerStatus.idle /\
    Worker.last_seen_at worker' = 1000%Z.
Proof.
  destruct (finalize_touches_worker sample_utcnow
              (collecting_state ok_payload) (py "task-1") sample_task
              sample_worker
              (VDict [(py "status", VStr (py "ok"));
                      (py "summary", VStr (py "done"))],
               TaskStatus.completed, VNone)
              eq_refl task_1_named ltac:(vm_compute; reflexivity)
              ltac:(vm_compute; reflexivity)
              ltac:(vm_compute; reflexivity))
    as (st' & worker' & Hrun & Hq & Hw & [_ Hidle] & _ & Hseen & _).
  exists st', worker'. split; [exact Hrun|]. split; [exact Hq|].
  split; [exact Hw|]. split; [exact (Hidle Hq)|exact Hseen].
Defined.

Lemma raising_result_drops_batch_witness :
  exists st',
    process_lines sample_utcnow Config.defaults sample_state
      (output_lines ++ START_LINE :: number_payload ++ END_LINE :: ok_payload)
    = Raised AttributeError st' /\
    database st' = database sample_state /\
    session st' = database sample_state /\
    running_tasks (runtime st') = running_tasks (runtime sample_state) /\
    collecting_task_id (runtime st') = None /\
    result_lines (runtime st') = [].
Proof.
  exact (raising_result_drops_batch sample_utcnow Config.defaults
           sample_state (py "task-1") output_lines START_LINE number_payload
           END_LINE ok_payload AttributeError
           eq_refl eq_refl task_1_named (payload_lines output_lines eq_refl)
           start_line_is_start (payload_lines number_payload eq_refl)
           end_line_is_end ltac:(vm_compute; reflexivity)).
Defined.

Lemma mark_failed_undoes_enqueue_witness :
  mark_task_failed (enqueue_task sample_runtime (py "task-2")) (py "task-2")
  = sample_runtime.
Proof.
  exact (mark_failed_undoes_enqueue sample_runtime (py "task-2")
           ltac:(vm_compute; reflexivity)).
Defined.

(** The pane after three characters were seen, showing three others. *)
Definition redrawn_capture : Tmux.CompletedProcess :=
  {| Tmux.returncode := 0; Tmux.stdout := py "xyz"; Tmux.stderr := [] |}.

Definition watching_state : State :=
  with_runtime sample_state
    (set_controller sample_runtime
       (Tmux.set_last_size (controller sample_runtime) 3)).

Lemma same_length_capture_ignored_witness :
  monitor_turn sample_utcnow Config.defaults watching_state redrawn_capture
  = Returned watching_state.
Proof.
  exact (same_length_capture_ignored sample_utcnow Config.defaults
           watching_state redrawn_capture eq_refl eq_refl).
Defined.

Definition grown_capture : Tmux.CompletedProcess :=
  {| Tmux.returncode := 0;
     Tmux.stdout := py "$ " ++ NEWLINE ++ printed (framed ok_payload);
     Tmux.stderr := [] |}.

Lemma printed_lines_processed_witness :
  monitor_turn sample_utcnow Config.defaults watching_state grown_capture
  = process_lines sample_utcnow Config.defaults
      (with_runtime watching_state
         (set_controller (runtime watching_state)
            (Tmux.set_last_size (controller (runtime watching_state))
               (length (Tmux.stdout grown_capture)))))
      (framed ok_payload).
Proof.
  exact (printed_lines_processed sample_utcnow Config.defaults watching_state
           grown_capture (py "$ " ++ NEWLINE) (framed ok_payload)
           eq_refl eq_refl eq_refl ltac:(discriminate)
           ltac:(repeat constructor)).
Defined.

End RuntimeBatches.

(* ===================================================================== *)
(** * More on the watcher: escape sequences, cycles, stable screens *)
(* ===================================================================== *)

Module WatcherCycles.
Import Py Watcher WatcherFacts.

(** ** [strip_ansi] *)

(** The characters a state of the reading holds back. *)
Definition pending (q : ansi_state) : str :=
  match q with
  | Text => []
  | AfterEsc => [ESC]
  | InParams seen | InIntermediates seen => rev seen
  end.

Lemma strip_ansi_from_sublist s : forall q,
  strip_ansi_from q s `sublist_of` pending q ++ s.
Proof.
  induction s as [|c r IH]; intros q.
  - rewrite app_nil_r. destruct q; reflexivity.
  - assert ((if (c =? ESC)%N then strip_ansi_from AfterEsc r
             else c :: strip_ansi_from Text r) `sublist_of` c :: r)
      as Hplain.
    { destruct (N.eqb_spec c ESC) as [->|_].
      - apply (IH AfterEsc).
      - apply sublist_skip, (IH Text). }
    destruct q as [| |seen|seen]; cbn [strip_ansi_from pending].
    + exact Hplain.
    + destruct (N.eqb_spec c 91) as [->|_].
      * apply (IH (InParams [91%N; ESC])).
      * apply sublist_skip. exact Hplain.
    + destruct (is_param c).
      { specialize (IH (InParams (c :: seen))). cbn [pending rev] in IH.
        rewrite <- app_assoc in IH. exact IH. }
      destruct (is_intermediate c).
      { specialize (IH (InIntermediates (c :: seen))).
        cbn [pending rev] in IH. rewrite <- app_assoc in IH. exact IH. }
      destruct (is_final c).
      { apply sublist_inserts_l, sublist_cons, (IH Text). }
      apply sublist_app; [reflexivity|exact Hplain].
    + destruct (is_intermediate c).
      { specialize (IH (InIntermediates (c :: seen))).
        cbn [pending rev] in IH. rewrite <- app_assoc in IH. exact IH. }
      destruct (is_final c).
      { apply sublist_inserts_l, sublist_cons, (IH Text). }
      apply sublist_app; [reflexivity|exact Hplain].
Qed.

(** X9.  [strip_ansi] only takes characters out: what it returns is the
    text with some characters removed, the others in their order; so it is
    never longer than the text. *)
Theorem strip_ansi_subsequence (text : str) :
  strip_ansi text `sublist_of` text /\
  length (strip_ansi text) <= length text.
Proof.
  assert (strip_ansi text `sublist_of` text) as H
    by apply (strip_ansi_from_sublist text Text).
  split; [exact H|]. apply sublist_length. exact H.
Qed.

Lemma strip_ansi_from_plain a : forall s,
  ESC ∉ a ->
  strip_ansi_from Text (a ++ s) = a ++ strip_ansi_from Text s.
Proof.
  induction a as [|c a IH]; intros s Hesc; [reflexivity|].
  apply not_elem_of_cons in Hesc as [Hc Ha].
  cbn [app strip_ansi_from].
  destruct (N.eqb_spec c ESC) as [->|_]; [congruence|].
  rewrite (IH s Ha). reflexivity.
Qed.

Lemma final_not_param c : is_final c = true -> is_param c = false.
Proof.
  unfold is_final, is_param. intros H.
  apply andb_true_iff in H as [H1 H2]. apply N.leb_le in H1.
  apply andb_false_iff. right. apply N.leb_gt. lia.
Qed.

Lemma final_not_intermediate c :
  is_final c = true -> is_intermediate c = false.
Proof.
  unfold is_final, is_intermediate. intros H.
  apply andb_true_iff in H as [H1 H2]. apply N.leb_le in H1.
  apply andb_false_iff. right. apply N.leb_gt. lia.
Qed.

Lemma intermediate_not_param c :
  is_intermediate c = true -> is_param c = false.
Proof.
  unfold is_intermediate, is_param. intros H.
  apply andb_true_iff in H as [H1 H2]. apply N.leb_le in H2.
  apply andb_false_iff. left. apply N.leb_gt. lia.
Qed.

Lemma strip_ansi_from_intermediates inters : forall seen final rest,
  Forall (fun c => is_intermediate c = true) inters ->
  is_final final = true ->
  strip_ansi_from (InIntermediates seen) (inters ++ final :: rest)
  = strip_ansi_from Text rest.
Proof.
  induction inters as [|c inters IH]; intros seen final rest Hall Hfinal.
  - cbn [app strip_ansi_from].
    rewrite (final_not_intermediate _ Hfinal), Hfinal. reflexivity.
  - inversion Hall as [|? ? Hc Hall']; subst.
    cbn [app strip_ansi_from]. rewrite Hc. apply IH; assumption.
Qed.

Lemma strip_ansi_from_params params : forall seen inters final rest,
  Forall (fun c => is_param c = true) params ->
  Forall (fun c => is_intermediate c = true) inters ->
  is_final final = true ->
  strip_ansi_from (InParams seen) (params ++ inters ++ final :: rest)
  = strip_ansi_from Text rest.
Proof.
  induction params as [|c params IH];
    intros seen inters final rest Hparams Hinters Hfinal.
  - cbn [app]. destruct inters as [|c inters].
    + cbn [app strip_ansi_from].
      rewrite (final_not_param _ Hfinal), (final_not_intermediate _ Hfinal),
        Hfinal.
      reflexivity.
    + inversion Hinters as [|? ? Hc Hinters']; subst.
      cbn [app strip_ansi_from].
      rewrite (intermediate_not_param _ Hc), Hc. apply strip_ansi_from_intermediates; assumption.
  - inversion Hparams as [|? ? Hc Hparams']; subst.
    cbn [app strip_ansi_from]. rewrite Hc. apply IH; assumption.
Qed.

(** X10.  After text that holds no ESC, which stays as it is, a control
    sequence (ESC, an opening bracket, parameter characters from 0 to ?,
    intermediate characters from space to /, a final character from @ to
    tilde) is removed whole. *)
Theorem strip_ansi_removes_sequence (before params inters : str)
  (final : char) (rest : str) :
  ESC ∉ before ->
  Forall (fun c => is_param c = true) params ->
  Forall (fun c => is_intermediate c = true) inters ->
  is_final final = true ->
  strip_ansi (before ++ rest) = before ++ strip_ansi rest /\
  strip_ansi (before ++ [ESC; 91%N] ++ params ++ inters ++ final :: rest)
  = before ++ strip_ansi rest.
Proof.
  intros Hesc Hparams Hinters Hfinal. unfold strip_ansi.
  rewrite !(strip_ansi_from_plain before) by exact Hesc.
  split; [reflexivity|]. f_equal.
  cbn [app strip_ansi_from N.eqb Pos.eqb ESC].
  apply strip_ansi_from_params; assumption.
Qed.

Lemma strip_ansi_removes_sequence_witness :
  strip_ansi (py "ok " ++ py "done")
  = py "ok " ++ strip_ansi (py "done") /\
  strip_ansi
    (py "ok " ++ [ESC; 91%N] ++ py "1;32" ++ py " " ++ 109%N :: py "done")
  = py "ok " ++ strip_ansi (py "done").
Proof.
  exact (strip_ansi_removes_sequence (py "ok ") (py "1;32") (py " ") 109%N
           (py "done")
           ltac:(apply (bool_decide_unpack _); vm_compute; exact I)
           ltac:(repeat constructor) ltac:(repeat constructor) eq_refl).
Defined.

(** ** A cycle of [_poll_once] *)

Section Cycles.

Variable regex : Type.
Variable search : regex -> str -> bool.
Variable openrouter_classify :
  ClassifierPack regex -> str -> Metadata -> option ClassificationResult.
Variable sha256_hexdigest : str -> str.
Variable load_pack : str -> ClassifierPack regex.
Variable settings : Config.Settings.

Local Abbreviation process_pane :=
  (process_pane regex search openrouter_classify sha256_hexdigest load_pack
     settings).
Local Abbreviation process_panes :=
  (process_panes regex search openrouter_classify sha256_hexdigest load_pack
     settings).
Local Abbreviation poll_once :=
  (poll_once regex search openrouter_classify sha256_hexdigest load_pack
     settings).
Local Abbreviation observed :=
  (observed regex search openrouter_classify sha256_hexdigest load_pack
     settings).
Local Abbreviation snapshot_hash_of := (snapshot_hash_of sha256_hexdigest).

(** The ids of the panes a cycle sees, as [seen] collects them. *)
Definition ids (panes : list (PaneInfo * WorkerMetadata * Poll))
  : list str :=
  List.map (fun p => pane_id (fst (fst p))) panes.

(** The pane and the state of a status write. *)
Definition written (e : effect) : option (str * PaneState.t) :=
  match e with
  | StatusWritten pane_id pane_state _ _ => Some (pane_id, pane_state)
  | Classified _ _ _ => None
  end.

Lemma process_panes_cons w pane worker poll rest :
  process_panes w ((pane, worker, poll) :: rest) =
  (fst (process_panes (fst (process_pane w pane worker poll)) rest),
   snd (process_pane w pane worker poll)
   ++ snd (process_panes (fst (process_pane w pane worker poll)) rest)).
Proof.
  cbn [Watcher.process_panes].
  destruct (process_pane w pane worker poll) as [w1 effects].
  cbn [fst snd]. destruct (process_panes w1 rest). reflexivity.
Qed.

Lemma poll_once_unfold w panes :
  poll_once w panes =
  (purge regex (fst (process_panes w panes)) (ids panes),
   snd (process_panes w panes)).
Proof.
  unfold Watcher.poll_once, ids. destruct (process_panes w panes).
  reflexivity.
Qed.

Lemma process_pane_written w pane worker poll :
  omap written (snd (process_pane w pane worker poll))
  = [(pane_id pane, fst (observed w pane worker poll))].
Proof.
  rewrite process_pane_unfold. cbn [snd].
  destruct (snd (observed w pane worker poll)); reflexivity.
Qed.

Lemma process_panes_untouched panes : forall w p,
  p ∉ ids panes ->
  state regex (fst (process_panes w panes)) !! p = state regex w !! p.
Proof.
  induction panes as [|[[pane worker] poll] rest IH]; intros w p Hp;
    [reflexivity|].
  cbn [ids List.map fst] in Hp. apply not_elem_of_cons in Hp as [Hne Hrest].
  rewrite process_panes_cons. cbn [fst].
  rewrite (IH _ p Hrest). apply process_pane_other. exact Hne.
Qed.

Lemma process_panes_cached panes : forall w p,
  p ∈ ids panes \/ is_Some (state regex w !! p) ->
  is_Some (state regex (fst (process_panes w panes)) !! p).
Proof.
  induction panes as [|[[pane worker] poll] rest IH]; intros w p Hp.
  - destruct Hp as [Hp|Hp]; [|exact Hp]. cbn in Hp. inversion Hp.
  - rewrite process_panes_cons. cbn [fst]. apply IH.
    destruct (decide (p = pane_id pane)) as [->|Hne].
    + right. rewrite process_pane_state. eexists. reflexivity.
    + destruct Hp as [Hp|Hp].
      * cbn [ids List.map fst] in Hp.
        apply elem_of_cons in Hp as [Hp|Hp]; [congruence|]. left. exact Hp.
      * right. rewrite process_pane_other by exact Hne. exact Hp.
Qed.

Lemma process_panes_written panes : forall w,
  (omap written (snd (process_panes w panes))).*1 = ids panes.
Proof.
  induction panes as [|[[pane worker] poll] rest IH]; intros w;
    [reflexivity|].
  rewrite process_panes_cons. cbn [snd].
  rewrite omap_app, fmap_app, process_pane_written, IH. reflexivity.
Qed.

(** X11.  After a cycle of [_poll_once] the cache holds an entry for
    exactly the panes the cycle saw, whatever it held before, and the
    cycle wrote one status for each of them, in their order. *)
Theorem cache_holds_seen_panes (w : PtyWatcher regex)
  (panes : list (PaneInfo * WorkerMetadata * Poll)) :
  (forall p, is_Some (state regex (fst (poll_once w panes)) !! p)
             <-> p ∈ ids panes) /\
  (omap written (snd (poll_once w panes))).*1 = ids panes.
Proof.
  rewrite poll_once_unfold. cbn [fst snd]. split.
  - intros p. unfold purge. cbn [state]. split.
    + intros [pane_state Hrow].
      apply map_lookup_filter_Some in Hrow as [_ Hseen]. exact Hseen.
    + intros Hseen.
      destruct (process_panes_cached panes w p (or_introl Hseen))
        as [pane_state Hrow].
      exists pane_state. apply map_lookup_filter_Some. split; assumption.
  - apply process_panes_written.
Qed.

Lemma process_panes_last_write panes : forall w p pane_state,
  NoDup (ids panes) ->
  (p, pane_state) ∈ omap written (snd (process_panes w panes)) ->
  state regex (fst (process_panes w panes)) !! p = Some pane_state.
Proof.
  induction panes as [|[[pane worker] poll] rest IH];
    intros w p pane_state Hnodup Hin.
  - cbn in Hin. inversion Hin.
  - cbn [ids List.map fst] in Hnodup.
    apply NoDup_cons in Hnodup as [Hfresh Hnodup].
    rewrite process_panes_cons in *. cbn [fst snd] in *.
    rewrite omap_app, process_pane_written in Hin.
    apply elem_of_app in Hin as [Hin|Hin].
    + apply list_elem_of_singleton in Hin. injection Hin as -> ->.
      rewrite process_panes_untouched by exact Hfresh.
      apply process_pane_state.
    + apply IH; assumption.
Qed.

(** X12.  When the panes of a cycle have distinct ids, the cache after
    the cycle is the map from pane id to pane state that the status writes
    of the cycle spell out: nothing older is left in it, and every entry
    is what was last written for the pane. *)
Theorem cache_is_what_was_written (w : PtyWatcher regex)
  (panes : list (PaneInfo * WorkerMetadata * Poll)) :
  NoDup (ids panes) ->
  state regex (fst (poll_once w panes))
  = list_to_map (omap written (snd (poll_once w panes))).
Proof.
  intros Hnodup. rewrite poll_once_unfold. cbn [fst snd].
  apply map_eq. intros p. unfold purge. cbn [state].
  pose proof (process_panes_written panes w) as Hids.
  destruct (list_to_map (omap written (snd (process_panes w panes))) !! p)
    as [pane_state|] eqn:Hmap.
  - apply elem_of_list_to_map in Hmap; [|rewrite Hids; exact Hnodup].
    apply map_lookup_filter_Some. split.
    + apply process_panes_last_write; assumption.
    + cbn [fst]. rewrite <- Hids. apply list_elem_of_fmap.
      exists (p, pane_state). split; [reflexivity|exact Hmap].
  - apply not_elem_of_list_to_map in Hmap. rewrite Hids in Hmap.
    apply map_lookup_filter_None. right. intros pane_state _. exact Hmap.
Qed.

(** ** A screen that stays the same *)

Local Abbreviation observe :=
  (observe regex search openrouter_classify settings).
Local Abbreviation classifier_for := (classifier_for regex load_pack settings).
Local Abbreviation threshold_of := (threshold_of settings).
Local Abbreviation classified_at :=
  (classified_at regex search openrouter_classify sha256_hexdigest load_pack
     settings).
Local Abbreviation run_calls :=
  (run_calls regex search openrouter_classify sha256_hexdigest load_pack
     settings).
Local Abbreviation step :=
  (step regex search openrouter_classify sha256_hexdigest load_pack settings).

(** The number of unchanged polls a pane new to the watcher is held to:
    stability_polls of the pack of the worker's CLI, the default for 0. *)
Definition pack_threshold (w : PtyWatcher regex) (worker : WorkerMetadata)
  : Z :=
  let polls :=
    stability_polls regex
      (pack regex (fst (classifier_for w (cli_type worker)))) in
  if (polls =? 0)%Z then Config.watcher_default_stability settings
  else polls.

(** The status a call wrote for a pane. *)
Definition status_at (w : PtyWatcher regex) (calls : list call)
  (pane_id : str) (k : nat) (pane_state : PaneState.t) : Prop :=
  exists effects,
    run_calls w calls !! k = Some effects /\
    (pane_id, pane_state) ∈ omap written effects.

Lemma observe_same classifier metadata pane_state h stripped ts :
  PaneState.last_snapshot_hash pane_state = Some h ->
  let r := observe classifier metadata pane_state h stripped ts in
  snd r =
    (threshold_of pane_state <=? PaneState.stable_count pane_state + 1)%Z
    && negb (bool_decide
               (PaneState.last_classified_hash pane_state = Some h)) /\
  PaneState.last_snapshot_hash (fst r) = Some h /\
  PaneState.stable_count (fst r)
  = (PaneState.stable_count pane_state + 1)%Z /\
  PaneState.threshold (fst r) = PaneState.threshold pane_state /\
  PaneState.last_classified_hash (fst r)
  = (if snd r then Some h
     else PaneState.last_classified_hash pane_state) /\
  (snd r = false -> PaneState.state (fst r) = PaneState.state pane_state).
Proof.
  intros Hsame. unfold Watcher.observe, WatcherFacts.threshold_of.
  rewrite bool_decide_eq_true_2 by exact Hsame. cbn [negb].
  destruct (_ && _); cbn [fst snd]; repeat split;
    try reflexivity; try exact Hsame; discriminate.
Qed.

Section Stable.

Variable pane : PaneInfo.
Variable worker : WorkerMetadata.
Variable h : str.
Variable T : Z.

(** What the cache holds of the pane once the screen has been the same
    for [count] polls after the one that found it. *)
Definition settled (count : Z) (pane_state : PaneState.t) : Prop :=
  PaneState.last_snapshot_hash pane_state = Some h /\
  PaneState.stable_count pane_state = count /\
  threshold_of pane_state = T /\
  PaneState.last_classified_hash pane_state
  = (if (Z.max 1 T <=? count)%Z then Some h else None) /\
  ((count < Z.max 1 T)%Z -> PaneState.state pane_state = py "BUSY").

Lemma settled_step w poll pane_state count :
  (0 <= count)%Z ->
  state regex w !! pane_id pane = Some pane_state ->
  settled count pane_state ->
  snapshot_hash_of poll = h ->
  snd (observed w pane worker poll) = (count + 1 =? Z.max 1 T)%Z /\
  settled (count + 1) (fst (observed w pane worker poll)).
Proof.
  intros Hcount Hrow (Hsnap & Hstable & Hthreshold & Hclassified & Hbusy)
    Hhash.
  unfold WatcherFacts.observed, pane_state_before. rewrite Hrow, Hhash.
  destruct (observe_same (fst (classifier_for w (cli_type worker)))
              (metadata_of pane worker) pane_state h
              (strip_ansi (text poll)) (ts poll) Hsnap)
    as (Hcalled & Hsnap' & Hstable' & Hthreshold' & Hclassified' & Hstate').
  rewrite Hthreshold, Hstable, Hclassified in Hcalled.
  assert (snd (observe (fst (classifier_for w (cli_type worker)))
                 (metadata_of pane worker) pane_state h
                 (strip_ansi (text poll)) (ts poll))
          = (count + 1 =? Z.max 1 T)%Z) as Hcalled'.
  { rewrite Hcalled.
    destruct (Z.leb_spec (Z.max 1 T) count) as [Hle|Hlt].
    - rewrite bool_decide_eq_true_2 by reflexivity. cbn [negb].
      rewrite andb_false_r. symmetry. apply Z.eqb_neq. lia.
    - rewrite bool_decide_eq_false_2 by discriminate. cbn [negb].
      rewrite andb_true_r.
      destruct (Z.leb_spec T (count + 1)), (Z.eqb_spec (count + 1) (Z.max 1 T));
        try reflexivity; lia. }
  split; [exact Hcalled'|].
  unfold settled. rewrite Hsnap', Hstable', Hclassified', Hcalled', Hstable.
  split; [reflexivity|]. split; [reflexivity|]. split.
  { unfold WatcherFacts.threshold_of in *. rewrite Hthreshold'.
    exact Hthreshold. }
  split.
  - rewrite Hclassified.
    destruct (Z.eqb_spec (count + 1) (Z.max 1 T)),
      (Z.leb_spec (Z.max 1 T) (count + 1)),
      (Z.leb_spec (Z.max 1 T) count); try reflexivity; lia.
  - intros Hlt. rewrite Hstate'.
    + apply Hbusy. lia.
    + rewrite Hcalled'. apply Z.eqb_neq. lia.
Qed.

Lemma written_at_head w c rest p pane_state :
  status_at w (c :: rest) p 0 pane_state <->
  (p, pane_state) ∈ omap written (snd (step w c)).
Proof.
  unfold status_at. cbn [WatcherFacts.run_calls]. split.
  - intros (effects & [= <-] & H). exact H.
  - intros H. eexists. split; [reflexivity|exact H].
Qed.

Lemma settled_run polls : forall w pane_state count,
  (0 <= count)%Z ->
  state regex w !! pane_id pane = Some pane_state ->
  settled count pane_state ->
  Forall (fun poll => snapshot_hash_of poll = h) polls ->
  (forall k h',
     classified_at w (List.map (Process pane worker) polls) (pane_id pane)
       k h'
     <-> (count + 1 + Z.of_nat k = Z.max 1 T)%Z
         /\ k < length polls /\ h' = h) /\
  (forall k pane_state',
     status_at w (List.map (Process pane worker) polls) (pane_id pane)
       k pane_state' ->
     settled (count + 1 + Z.of_nat k) pane_state').
Proof.
  induction polls as [|poll polls IH];
    intros w pane_state count Hcount Hrow Hsettled Hall.
  { split.
    - intros k h'. split.
      + intros (effects & Hnone & _). destruct k; discriminate.
      + intros (_ & Hk & _). cbn in Hk. lia.
    - intros k pane_state' (effects & Hnone & _). destruct k; discriminate. }
  inversion Hall as [|? ? Hhash Hall']; subst.
  destruct (settled_step w poll pane_state count Hcount Hrow Hsettled Hhash)
    as [Hcalled Hsettled'].
  destruct (IH (fst (process_pane w pane worker poll))
              (fst (observed w pane worker poll)) (count + 1)%Z
              ltac:(lia) (process_pane_state _ _ _ _ _ _ _ _ _ _)
              Hsettled' Hall') as [IHc IHs].
  cbn [List.map]. split.
  - intros [|k] h'.
    + rewrite classified_at_head. cbn [WatcherFacts.step].
      rewrite process_pane_effects, Hcalled, Hhash.
      rewrite bool_decide_eq_true_2 by reflexivity. rewrite andb_true_r.
      cbn [length]. destruct (Z.eqb_spec (count + 1) (Z.max 1 T)).
      * split; [intros [= <-]|intros (_ & _ & ->)];
          [split; [lia|split; [lia|reflexivity]]|reflexivity].
      * split; [discriminate|]. intros (? & _). lia.
    + rewrite classified_at_tail. cbn [WatcherFacts.step].
      rewrite IHc. cbn [length]. split; intros (? & ? & ?);
        (split; [lia|split; [lia|assumption]]).
  - intros [|k] pane_state'.
    + rewrite written_at_head. cbn [WatcherFacts.step].
      rewrite process_pane_written. intros Hin.
      apply list_elem_of_singleton in Hin. injection Hin as ->.
      replace (count + 1 + Z.of_nat 0)%Z with (count + 1)%Z by lia.
      exact Hsettled'.
    + intros Hat. change (status_at (fst (step w (Process pane worker poll)))
                            (List.map (Process pane worker) polls)
                            (pane_id pane) k pane_state') in Hat.
      cbn [WatcherFacts.step] in Hat. apply IHs in Hat.
      replace (count + 1 + Z.of_nat (S k))%Z
        with (count + 1 + 1 + Z.of_nat k)%Z by lia.
      exact Hat.
Qed.

End Stable.

(** X13.  A pane that is new to the watcher and whose screen, ANSI
    sequences taken out, has the same hash at every poll is classified
    exactly once: at the poll numbered max(1, threshold), counting from 0
    the poll that finds the pane, if the polls go that far.  The status
    written at poll k has stable_count k, and says BUSY at every poll
    before the classifying one. *)
Theorem stable_screen_classified_once (w : PtyWatcher regex)
  (pane : PaneInfo) (worker : WorkerMetadata) (polls : list Poll)
  (h : str) :
  state regex w !! pane_id pane = None ->
  Forall (fun poll => snapshot_hash_of poll = h) polls ->
  let calls := List.map (Process pane worker) polls in
  let threshold := pack_threshold w worker in
  (forall k h',
     classified_at w calls (pane_id pane) k h'
     <-> Z.of_nat k = Z.max 1 threshold /\ k < length polls /\ h' = h) /\
  (forall k pane_state,
     status_at w calls (pane_id pane) k pane_state ->
     PaneState.stable_count pane_state = Z.of_nat k /\
     PaneState.last_snapshot_hash pane_state = Some h /\
     ((Z.of_nat k < Z.max 1 threshold)%Z ->
      PaneState.state pane_state = py "BUSY" /\
      PaneState.last_classified_hash pane_state = None)).
Proof.
  intros Hnew Hall calls threshold. subst calls.
  destruct polls as [|poll polls].
  { split.
    - intros k h'. split.
      + intros (effects & Hnone & _). destruct k; discriminate.
      + intros (_ & Hk & _). cbn in Hk. lia.
    - intros k pane_state (effects & Hnone & _). destruct k; discriminate. }
  inversion Hall as [|? ? Hhash Hall']; subst.
  set (h := snapshot_hash_of poll) in *.
  assert (PaneState.last_snapshot_hash (pane_state_before regex load_pack
            settings w pane worker poll) <> Some h) as Hchanged.
  { unfold pane_state_before. rewrite Hnew. discriminate. }
  destruct (observe_changed regex search openrouter_classify settings
              (fst (classifier_for w (cli_type worker)))
              (metadata_of pane worker) _ _ (strip_ansi (text poll))
              (ts poll) Hchanged)
    as (first & Hobs & Hsnap & Hstable & Hstate & Hclassified & Hthreshold).
  change (observe _ _ _ _ _ _) with (observed w pane worker poll) in Hobs.
  assert (settled h threshold 0 first) as Hsettled.
  { unfold settled. split; [exact Hsnap|]. split; [exact Hstable|].
    split; [|split].
    - unfold WatcherFacts.threshold_of. rewrite Hthreshold.
      unfold pane_state_before. rewrite Hnew. reflexivity.
    - rewrite Hclassified. unfold pane_state_before. rewrite Hnew.
      destruct (Z.leb_spec (Z.max 1 threshold) 0); [lia|reflexivity].
    - intros _. exact Hstate. }
  assert (state regex (fst (process_pane w pane worker poll)) !! pane_id pane
          = Some first) as Hrow.
  { rewrite process_pane_state, Hobs. reflexivity. }
  destruct (settled_run pane worker h threshold polls _ first 0%Z
              ltac:(lia) Hrow Hsettled Hall') as [Hc Hs].
  cbn [List.map]. split.
  - intros [|k] h'.
    + rewrite classified_at_head. cbn [WatcherFacts.step].
      rewrite process_pane_effects, Hobs. cbn [snd andb].
      split; [discriminate|]. intros (? & _). lia.
    + rewrite classified_at_tail. cbn [WatcherFacts.step]. rewrite Hc.
      cbn [length]. split; intros (? & ? & ?);
        (split; [lia|split; [lia|assumption]]).
  - intros [|k] pane_state.
    + rewrite written_at_head. cbn [WatcherFacts.step].
      rewrite process_pane_written, Hobs. intros Hin.
      apply list_elem_of_singleton in Hin. injection Hin as ->.
      destruct Hsettled as (? & ? & _ & Hcls & Hbusy).
      split; [assumption|]. split; [assumption|]. intros Hlt.
      split; [apply Hbusy; lia|]. rewrite Hcls.
      destruct (Z.leb_spec (Z.max 1 threshold) 0); [lia|reflexivity].
    + intros Hat.
      change (status_at (fst (step w (Process pane worker poll)))
                (List.map (Process pane worker) polls) (pane_id pane) k
                pane_state) in Hat.
      cbn [WatcherFacts.step] in Hat. apply Hs in Hat.
      destruct Hat as (? & ? & _ & Hcls & Hbusy).
      split; [lia|]. split; [assumption|]. intros Hlt.
      split; [apply Hbusy; lia|]. rewrite Hcls.
      destruct (Z.leb_spec (Z.max 1 threshold) (0 + 1 + Z.of_nat k));
        [lia|reflexivity].
Qed.

(** ** Without the remote classifier *)

Local Abbreviation after :=
  (after regex search openrouter_classify sha256_hexdigest load_pack
     settings).

(** [PtyWatcher.__init__]: nothing cached *)
Definition fresh_watcher : PtyWatcher regex :=
  {| state := ∅; classifiers := ∅ |}.

(** The statuses of the regular expressions: a state, and an action to
    take for the two states that need someone. *)
Definition regex_status (pane_state : PaneState.t) : Prop :=
  (PaneState.state pane_state = py "BUSY"
   /\ PaneState.actions_needed pane_state = None) \/
  (PaneState.state pane_state = py "READY"
   /\ PaneState.actions_needed pane_state = None) \/
  (PaneState.state pane_state = py "ERROR"
   /\ PaneState.actions_needed pane_state
      = Some (py "Inspect the PTY logs to unblock the worker.")) \/
  (PaneState.state pane_state = py "NEEDS_CONFIRMATION"
   /\ PaneState.actions_needed pane_state
      = Some (py "Answer the confirmation prompt in the PTY.")).

Definition local_only (w : PtyWatcher regex) : Prop :=
  (forall cli classifier,
     classifiers regex w !! cli = Some classifier ->
     llm regex classifier = false) /\
  (forall p pane_state,
     state regex w !! p = Some pane_state -> regex_status pane_state).

Local Ltac one_of_four :=
  first [ left; split; reflexivity
        | right; left; split; reflexivity
        | right; right; left; split; reflexivity
        | right; right; right; split; reflexivity ].

Lemma observe_regex_status classifier metadata pane_state h stripped ts :
  llm regex classifier = false ->
  PaneState.last_snapshot_hash pane_state = None
  \/ regex_status pane_state ->
  regex_status (fst (observe classifier metadata pane_state h stripped ts)).
Proof.
  intros Hllm Hbefore. unfold Watcher.observe.
  destruct (bool_decide (PaneState.last_snapshot_hash pane_state = Some h))
    eqn:Hsame; cbn [negb].
  - apply bool_decide_eq_true in Hsame.
    destruct Hbefore as [Hnone|Hbefore];
      [rewrite Hnone in Hsame; discriminate Hsame|].
    destruct (_ && _); cbn [fst]; [|exact Hbefore].
    unfold regex_status, hybrid_classify, regex_classify.
    cbn [PaneState.state PaneState.actions_needed]. rewrite Hllm.
    repeat (destruct (match_any _ _ _ _); [cbn; one_of_four|]).
    cbn. one_of_four.
  - left. split; reflexivity.
Qed.

Lemma classifier_for_local w cli :
  Runtime.opt_truthy (Config.openrouter_api_key settings) = false ->
  (forall c classifier,
     classifiers regex w !! c = Some classifier ->
     llm regex classifier = false) ->
  llm regex (fst (classifier_for w cli)) = false /\
  (forall c classifier,
     classifiers regex (snd (classifier_for w cli)) !! c = Some classifier ->
     llm regex classifier = false).
Proof.
  intros Hkey Hall. unfold Watcher.classifier_for.
  destruct (classifiers regex w !! cli) as [classifier|] eqn:Hrow;
    cbn [fst snd].
  - split; [exact (Hall _ _ Hrow)|exact Hall].
  - split; [exact Hkey|]. cbn [classifiers]. intros c classifier.
    destruct (decide (c = cli)) as [->|Hne].
    + rewrite lookup_insert_eq. intros [= <-]. exact Hkey.
    + rewrite lookup_insert_ne by congruence. apply Hall.
Qed.

Lemma step_local w c :
  Runtime.opt_truthy (Config.openrouter_api_key settings) = false ->
  local_only w ->
  local_only (fst (step w c)) /\
  (forall p pane_state,
     (p, pane_state) ∈ omap written (snd (step w c)) ->
     regex_status pane_state).
Proof.
  intros Hkey [Hllm Hstates].
  destruct c as [pane worker poll|seen]; cbn [WatcherFacts.step fst snd].
  - destruct (classifier_for_local w (cli_type worker) Hkey Hllm)
      as [Hthis Hcached].
    assert (regex_status (fst (observed w pane worker poll))) as Hnew.
    { unfold WatcherFacts.observed. apply observe_regex_status;
        [exact Hthis|].
      unfold pane_state_before.
      destruct (state regex w !! pane_id pane) as [pane_state|] eqn:Hrow.
      - right. exact (Hstates _ _ Hrow).
      - left. reflexivity. }
    split; [split|].
    + rewrite process_pane_unfold. cbn [fst classifiers]. exact Hcached.
    + intros p pane_state.
      destruct (decide (p = pane_id pane)) as [->|Hne].
      * rewrite process_pane_state. intros [= <-]. exact Hnew.
      * rewrite process_pane_other by exact Hne. apply Hstates.
    + intros p pane_state. rewrite process_pane_written. intros Hin.
      apply list_elem_of_singleton in Hin. injection Hin as -> ->.
      exact Hnew.
  - split; [split|].
    + exact Hllm.
    + intros p pane_state Hrow. unfold purge in Hrow. cbn [state] in Hrow.
      apply map_lookup_filter_Some in Hrow as [Hrow _].
      exact (Hstates _ _ Hrow).
    + intros p pane_state Hin. cbn in Hin. inversion Hin.
Qed.

(** X14.  With no OpenRouter key configured, every status a watcher
    writes, from its start on and whatever the panes show, is one of the
    four of the regular expressions: BUSY or READY with no action, ERROR
    or NEEDS_CONFIRMATION with its action.  The state UNKNOWN of a new
    cache entry is never written. *)
Theorem statuses_without_remote (calls : list call) (k : nat) (p : str)
  (pane_state : PaneState.t) :
  Runtime.opt_truthy (Config.openrouter_api_key settings) = false ->
  status_at fresh_watcher calls p k pane_state ->
  regex_status pane_state.
Proof.
  intros Hkey.
  assert (local_only fresh_watcher) as Hfresh.
  { split; intros ? ? Hrow; cbn in Hrow; rewrite lookup_empty in Hrow;
      discriminate. }
  revert Hfresh. generalize fresh_watcher as w. revert k.
  induction calls as [|c calls IH]; intros k w Hlocal Hat.
  { destruct Hat as (effects & Hnone & _). destruct k; discriminate. }
  destruct (step_local w c Hkey Hlocal) as [Hnext Hwritten].
  destruct k as [|k].
  - apply written_at_head in Hat. exact (Hwritten _ _ Hat).
  - exact (IH k (fst (step w c)) Hnext Hat).
Qed.

End Cycles.

(** X15.  The pack of a CLI is loaded once: when a classifier is cached
    for the CLI of a worker, a call of [_process_pane] does not depend on
    what [ClassifierPack.load] would give, and no later call or purge
    changes the cached classifier. *)
Theorem cached_pack_not_reloaded (regex : Type)
  (search : regex -> str -> bool)
  (openrouter_classify :
     ClassifierPack regex -> str -> Metadata -> option ClassificationResult)
  (sha256_hexdigest : str -> str)
  (load_pack load_pack' : str -> ClassifierPack regex)
  (settings : Config.Settings)
  (w : PtyWatcher regex) (pane : PaneInfo) (worker : WorkerMetadata)
  (poll : Poll) (classifier : HybridClassifier regex) :
  classifiers regex w !! cli_type worker = Some classifier ->
  process_pane regex search openrouter_classify sha256_hexdigest load_pack
    settings w pane worker poll
  = process_pane regex search openrouter_classify sha256_hexdigest load_pack'
      settings w pane worker poll /\
  (forall calls,
     classifiers regex
       (after regex search openrouter_classify sha256_hexdigest load_pack
          settings w calls) !! cli_type worker
     = Some classifier).
Proof.
  intros Hrow. split.
  - unfold process_pane, classifier_for. rewrite Hrow. reflexivity.
  - intros calls. revert w Hrow. unfold after.
    induction calls as [|c calls IH]; intros w Hrow; [exact Hrow|].
    cbn [fold_left]. apply IH.
    destruct c as [pane' worker' poll'|seen]; cbn [step fst];
      [|exact Hrow].
    rewrite process_pane_unfold. cbn [fst classifiers].
    unfold classifier_for.
    destruct (classifiers regex w !! cli_type worker') eqn:Hother;
      cbn [snd classifiers]; [exact Hrow|].
    rewrite lookup_insert_ne; [exact Hrow|]. congruence.
Qed.

(** ** The theorems at work *)

Definition second_pane : PaneInfo := {|
  pane_id := py "%2";
  session_name := py "agent-1";
  window_index := py "0";
  pane_index := py "1";
  cwd := py ".workers/worker-1";
  title := py "logs"
|}.

Definition showing (screen : string) (t : Z) : Poll :=
  {| text := py screen; ts := t; now := t |}.

Definition two_panes : list (PaneInfo * WorkerMetadata * Poll) :=
  [(watched_pane, watched_worker, showing "$ " 0);
   (second_pane, watched_worker, showing "Running tests" 0)].

Lemma cache_is_what_was_written_witness :
  state str
    (fst (poll_once str contains no_remote text_as_hash sample_load
            Config.defaults empty_watcher two_panes))
  = list_to_map
      (omap written
         (snd (poll_once str contains no_remote text_as_hash sample_load
                 Config.defaults empty_watcher two_panes))).
Proof.
  exact (cache_is_what_was_written str contains no_remote text_as_hash
           sample_load Config.defaults empty_watcher two_panes
           ltac:(apply (bool_decide_unpack _); vm_compute; exact I)).
Defined.

(** The prompt, in colour at times, at five polls. *)
Definition prompt_polls : list Poll :=
  [showing "$ " 0; showing "$ " 5;
   {| text := [ESC] ++ py "[32m$ " ++ [ESC] ++ py "[0m"; ts := 10%Z; now := 10%Z |};
   showing "$ " 15; showing "$ " 20].

Lemma stable_screen_classified_once_witness :
  (classified_at str contains no_remote text_as_hash sample_load
     Config.defaults empty_watcher
     (List.map (Process watched_pane watched_worker) prompt_polls)
     (py "%1") 3 (py "$ ")
   <-> Z.of_nat 3 = 3%Z /\ 3 < 5 /\ py "$ " = py "$ ") /\
  (classified_at str contains no_remote text_as_hash sample_load
     Config.defaults empty_watcher
     (List.map (Process watched_pane watched_worker) prompt_polls)
     (py "%1") 4 (py "$ ")
   <-> Z.of_nat 4 = 3%Z /\ 4 < 5 /\ py "$ " = py "$ ").
Proof.
  pose proof (proj1 (stable_screen_classified_once str contains no_remote
                       text_as_hash sample_load Config.defaults
                       empty_watcher watched_pane watched_worker
                       prompt_polls (py "$ ")
                       eq_refl ltac:(repeat constructor))) as H.
  exact (conj (H 3 (py "$ ")) (H 4 (py "$ "))).
Defined.

Lemma statuses_without_remote_witness :
  exists pane_state,
    status_at str contains no_remote text_as_hash sample_load
      Config.defaults (fresh_watcher str) sample_calls (py "%1") 6
      pane_state /\
    PaneState.state pane_state = py "READY" /\
    regex_status pane_state.
Proof.
  eexists. split; [|split].
  - eexists. split; [vm_compute; reflexivity|]. vm_compute.
    apply list_elem_of_here.
  - reflexivity.
  - apply (statuses_without_remote str contains no_remote text_as_hash
             sample_load Config.defaults sample_calls 6 (py "%1") _ eq_refl).
    eexists. split; [vm_compute; reflexivity|]. vm_compute.
    apply list_elem_of_here.
Defined.

(** The watcher after a first cycle, and a loader that finds no pack. *)
Definition warm_watcher : PtyWatcher str :=
  after str contains no_remote text_as_hash sample_load Config.defaults
    empty_watcher (shows "$ " 0).

Definition no_pack (cli_type : str) : ClassifierPack str :=
  fallback_pack str cli_type Config.defaults.

Lemma cached_pack_not_reloaded_witness :
  process_pane str contains no_remote text_as_hash sample_load
    Config.defaults warm_watcher watched_pane watched_worker
    (showing "$ " 5)
  = process_pane str contains no_remote text_as_hash no_pack
      Config.defaults warm_watcher watched_pane watched_worker
      (showing "$ " 5).
Proof.
  exact (proj1 (cached_pack_not_reloaded str contains no_remote text_as_hash
                  sample_load no_pack Config.defaults warm_watcher
                  watched_pane watched_worker (showing "$ " 5)
                  (hybrid_init str Config.defaults ClassifierFacts.sample_pack)
                  ltac:(vm_compute; reflexivity))).
Defined.

End WatcherCycles.

(* ===================================================================== *)
(** * More on the pane cursor: a pane that grows *)
(* ===================================================================== *)

Module TmuxGrowth.
Import Py Tmux.

(** The captures of the monitor loop, one after the other, up to the first
    that raises. *)
Fixpoint capture_all (c : TmuxController) (results : list CompletedProcess)
  : exn + (list PaneSnapshot * TmuxController) :=
  match results with
  | [] => inr ([], c)
  | result :: rest =>
      match capture_pane c result with
      | inl e => inl e
      | inr (snapshot, c) =>
          match capture_all c rest with
          | inl e => inl e
          | inr (snapshots, c) => inr (snapshot :: snapshots, c)
          end
      end
  end.

(** What a pane shows as pieces of text are added to it. *)
Fixpoint screens (before : str) (added : list str) : list str :=
  match added with
  | [] => []
  | piece :: rest => (before ++ piece) :: screens (before ++ piece) rest
  end.

(** X16.  While the pane only grows, from what it showed at the last
    capture on, the captures hand out as new text exactly the pieces that
    were added, each once and in order, and the cursor ends at the length
    of the last screen. *)
Theorem growing_pane_captured (added : list str) :
  forall (c : TmuxController) (before : str)
         (results : list CompletedProcess),
  last_size c = length before ->
  Forall (fun result => returncode result = 0%Z) results ->
  List.map stdout results = screens before added ->
  exists snapshots c',
    capture_all c results = inr (snapshots, c') /\
    List.map new_text snapshots = added /\
    List.map text snapshots = List.map stdout results /\
    last_size c' = length (before ++ concat added).
Proof.
  induction added as [|piece added IH]; intros c before results Hc Hok Hout.
  - destruct results; [|discriminate]. exists [], c.
    cbn [concat]. rewrite app_nil_r. repeat split. exact Hc.
  - destruct results as [|result results]; [discriminate|].
    cbn [List.map screens] in Hout. injection Hout as Hfirst Hrest.
    inversion Hok as [|? ? Hrc Hok']; subst.
    cbn [capture_all]. unfold capture_pane.
    rewrite (TmuxFacts.run_ok _ Hrc), Hfirst, Hc.
    assert ((length before <=? length (before ++ piece)) = true) as ->.
    { apply Nat.leb_le. rewrite length_app. lia. }
    rewrite skipn_app, skipn_all, Nat.sub_diag. cbn [skipn app].
    destruct (IH (set_last_size c (length (before ++ piece)))
                (before ++ piece) results eq_refl Hok' Hrest)
      as (snapshots & c' & -> & Hnew & Htext & Hsize).
    eexists _, _. split; [reflexivity|].
    cbn [List.map new_text text concat]. rewrite Hnew, Htext, Hfirst, Hsize.
    rewrite <- app_assoc. repeat split.
Qed.

Definition growing_captures : list CompletedProcess :=
  [{| returncode := 0; stdout := py "$ make"; stderr := [] |};
   {| returncode := 0; stdout := py "$ make"; stderr := py "warning" |};
   {| returncode := 0; stdout := py "$ make all done"; stderr := [] |}].

Lemma growing_pane_captured_witness :
  exists snapshots c',
    capture_all (init Config.defaults (py "agent-1") (py "0"))
      growing_captures
    = inr (snapshots, c') /\
    List.map new_text snapshots = [py "$ make"; []; py " all done"] /\
    List.map text snapshots = List.map stdout growing_captures /\
    last_size c'
    = length ([] ++ concat [py "$ make"; []; py " all done"]).
Proof.
  exact (growing_pane_captured [py "$ make"; []; py " all done"]
           (init Config.defaults (py "agent-1") (py "0")) []
           growing_captures eq_refl ltac:(repeat constructor) eq_refl).
Defined.

End TmuxGrowth.

(* ===================================================================== *)
(** * Line ends for the terminal emulator *)
(* ===================================================================== *)

Module CrlfFacts.
Import Py TerminalEmulator.

(** Every LF of the text comes right after a CR; [prev] is the character
    before the text. *)
Fixpoint lf_after_cr (prev : option char) (s : str) : bool :=
  match s with
  | [] => true
  | c :: r => (negb (c =? LF)%N || is_cr prev) && lf_after_cr (Some c) r
  end.

Lemma loop_lf_after_cr s : forall prev,
  lf_after_cr prev (ensure_crlf_loop prev s) = true.
Proof.
  induction s as [|c r IH]; intros prev; [reflexivity|].
  cbn [ensure_crlf_loop].
  destruct (N.eqb_spec c LF) as [->|Hc]; cbn [andb].
  - destruct (is_cr prev) eqn:Hprev; cbn [negb app lf_after_cr].
    + rewrite Hprev, IH. reflexivity.
    + rewrite IH. reflexivity.
  - cbn [app lf_after_cr]. rewrite IH.
    destruct (N.eqb_spec c LF); [congruence|reflexivity].
Qed.

Lemma loop_fixed s : forall prev,
  lf_after_cr prev s = true -> ensure_crlf_loop prev s = s.
Proof.
  induction s as [|c r IH]; intros prev H; [reflexivity|].
  cbn [lf_after_cr] in H. apply andb_true_iff in H as [Hc Hr].
  cbn [ensure_crlf_loop]. rewrite (IH _ Hr).
  destruct (c =? LF)%N; cbn [negb orb] in Hc; [rewrite Hc|]; reflexivity.
Qed.

Lemma ensure_crlf_loop' s :
  ensure_crlf s = ensure_crlf_loop None s.
Proof. destruct s; reflexivity. Qed.

(** X17.  In what [_ensure_crlf] returns every LF comes right after a CR;
    a text that is like that already is returned as it is, so that a
    second pass changes nothing; and no character is lost: taking from the
    result the CRs the pass put in gives the text back, the result being
    at most twice as long. *)
Theorem ensure_crlf_normal_form (raw_text : str) :
  lf_after_cr None (ensure_crlf raw_text) = true /\
  (lf_after_cr None raw_text = true -> ensure_crlf raw_text = raw_text) /\
  ensure_crlf (ensure_crlf raw_text) = ensure_crlf raw_text /\
  raw_text `sublist_of` ensure_crlf raw_text /\
  length (ensure_crlf raw_text) <= 2 * length raw_text.
Proof.
  rewrite !ensure_crlf_loop'.
  pose proof (loop_lf_after_cr raw_text None) as Hnormal.
  split; [exact Hnormal|]. split; [apply loop_fixed|].
  split; [apply loop_fixed; exact Hnormal|].
  generalize (@None char) as prev. clear Hnormal.
  induction raw_text as [|c r IH]; intros prev.
  - split; [reflexivity|cbn; lia].
  - cbn [ensure_crlf_loop]. destruct (IH (Some c)) as [Hsub Hlen].
    destruct ((c =? LF)%N && negb (is_cr prev)) eqn:Hbare.
    + apply andb_true_iff in Hbare as [Hc _]. apply N.eqb_eq in Hc.
      subst c. cbn [app length]. split; [|lia].
      apply sublist_cons, sublist_skip. exact Hsub.
    + cbn [app length]. split; [|lia]. apply sublist_skip. exact Hsub.
Qed.

Lemma splitlines_from_lf cur s :
  splitlines_from cur (LF :: s) = rev cur :: splitlines_from [] s.
Proof. reflexivity. Qed.

Lemma splitlines_from_crlf cur s :
  splitlines_from cur (CR :: LF :: s) = rev cur :: splitlines_from [] s.
Proof. reflexivity. Qed.

Lemma splitlines_from_cr cur c s :
  c <> LF ->
  splitlines_from cur (CR :: c :: s)
  = rev cur :: splitlines_from [] (c :: s).
Proof.
  intros Hc. cbn [splitlines_from CR N.eqb Pos.eqb].
  destruct (N.eqb_spec c 10); [unfold LF in Hc; congruence|reflexivity].
Qed.

Lemma splitlines_from_other cur c s :
  c <> CR ->
  splitlines_from cur (c :: s)
  = if is_linebreak c then rev cur :: splitlines_from [] s
    else splitlines_from (c :: cur) s.
Proof.
  intros Hc. cbn [splitlines_from].
  destruct (N.eqb_spec c 13); [unfold CR in Hc; congruence|reflexivity].
Qed.

Lemma splitlines_loop n : forall s prev cur,
  length s <= n ->
  splitlines_from cur (ensure_crlf_loop prev s) = splitlines_from cur s.
Proof.
  induction n as [|n IH]; intros s prev cur Hlen.
  { destruct s; [reflexivity|cbn in Hlen; lia]. }
  destruct s as [|c r]; [reflexivity|]. cbn [length] in Hlen.
  cbn [ensure_crlf_loop].
  destruct (N.eqb_spec c LF) as [->|Hlf]; cbn [andb].
  - destruct (is_cr prev); cbn [negb app];
      rewrite ?splitlines_from_crlf, !splitlines_from_lf, IH by lia;
      reflexivity.
  - cbn [app]. destruct (N.eq_dec c CR) as [->|Hcr].
    + destruct r as [|c' r']; [reflexivity|].
      cbn [length] in Hlen.
      destruct (N.eq_dec c' LF) as [->|Hc'].
      * cbn [ensure_crlf_loop is_cr]. rewrite !N.eqb_refl. cbn [negb andb app].
        rewrite !splitlines_from_crlf, IH by lia. reflexivity.
      * set (out := ensure_crlf_loop _ (_ :: _)).
        assert (exists rest, out = c' :: rest) as [rest Hrest].
        { subst out. cbn [ensure_crlf_loop].
          destruct (N.eqb_spec c' LF); [congruence|]. cbn [andb app].
          eexists. reflexivity. }
        rewrite Hrest, !splitlines_from_cr by exact Hc'.
        f_equal.
        transitivity (splitlines_from [] out);
          [rewrite Hrest; reflexivity|].
        subst out. apply IH. cbn [length]. lia.
    + rewrite !splitlines_from_other by exact Hcr.
      destruct (is_linebreak c); rewrite IH by lia; reflexivity.
Qed.

(** X18.  [_ensure_crlf] keeps the lines of the text: [splitlines] gives
    the same lines before and after. *)
Theorem ensure_crlf_keeps_lines (raw_text : str) :
  splitlines (ensure_crlf raw_text) = splitlines raw_text.
Proof.
  rewrite ensure_crlf_loop'. unfold splitlines.
  apply (splitlines_loop (length raw_text)). lia.
Qed.

Lemma ensure_crlf_normal_form_witness :
  ensure_crlf (py "a" ++ [CR; LF] ++ py "b") = py "a" ++ [CR; LF] ++ py "b".
Proof.
  exact (proj1 (proj2 (ensure_crlf_normal_form
                         (py "a" ++ [CR; LF] ++ py "b"))) eq_refl).
Defined.

End CrlfFacts.

(* ===================================================================== *)
(** * The list of panes *)
(* ===================================================================== *)

Module PaneListFacts.
Import Py Watcher WatcherPanes.

(** ** Splitting at tabs *)

Lemma split_on_field (sep : char) (field : str) : forall cur rest : str,
  sep ∉ field ->
  split_on sep cur (field ++ sep :: rest)
  = (rev cur ++ field) :: split_on sep [] rest.
Proof.
  induction field as [|c field IH]; intros cur rest Hsep.
  - cbn [app split_on]. rewrite N.eqb_refl, app_nil_r. reflexivity.
  - apply not_elem_of_cons in Hsep as [Hc Hfield].
    cbn [app split_on].
    destruct (N.eqb_spec c sep) as [->|_]; [congruence|].
    rewrite (IH (c :: cur) rest Hfield). cbn [rev].
    rewrite <- app_assoc. reflexivity.
Qed.

Lemma split_on_last (sep : char) (field : str) : forall cur : str,
  sep ∉ field -> split_on sep cur field = [rev cur ++ field].
Proof.
  induction field as [|c field IH]; intros cur Hsep.
  - cbn [split_on]. rewrite app_nil_r. reflexivity.
  - apply not_elem_of_cons in Hsep as [Hc Hfield].
    cbn [split_on].
    destruct (N.eqb_spec c sep) as [->|_]; [congruence|].
    rewrite (IH (c :: cur) Hfield). cbn [rev].
    rewrite <- app_assoc. reflexivity.
Qed.

Lemma split_on_length (sep : char) (s : str) : forall cur : str,
  length (split_on sep cur s) = S (count_occ N.eq_dec s sep).
Proof.
  induction s as [|c s IH]; intros cur; [reflexivity|].
  cbn [split_on count_occ].
  destruct (N.eqb_spec c sep) as [->|Hne].
  - destruct (N.eq_dec sep sep); [|congruence].
    cbn [length]. rewrite IH. reflexivity.
  - destruct (N.eq_dec c sep); [congruence|]. apply IH.
Qed.

(** ** Stripping *)

Lemma lstrip_length (s : str) : length (lstrip s) <= length s.
Proof.
  induction s as [|c s IH]; [reflexivity|]. cbn [lstrip].
  destruct (is_space c); cbn [length]; lia.
Qed.

Lemma strip_length (s : str) : length (strip s) <= length s.
Proof.
  unfold strip, rstrip. rewrite length_rev.
  etransitivity; [apply lstrip_length|]. rewrite length_rev.
  apply lstrip_length.
Qed.

Lemma lstrip_keeps (s : str) (c : char) :
  c ∈ s -> is_space c = false -> lstrip s <> [].
Proof.
  induction s as [|c' s IH]; intros Hin Hc; [inversion Hin|].
  cbn [lstrip]. destruct (is_space c') eqn:Hc'; [|discriminate].
  apply IH; [|exact Hc]. apply elem_of_cons in Hin as [->|Hin];
    [congruence|exact Hin].
Qed.

(** A field that [strip] leaves alone does not start with white space. *)
Lemma stripped_head (c : char) (s : str) : strip (c :: s) = c :: s -> is_space c = false.
Proof.
  intros H. destruct (is_space c) eqn:Hc; [|reflexivity].
  pose proof (f_equal (@length _) H) as Hlen.
  unfold strip in Hlen. cbn [lstrip length] in Hlen. rewrite Hc in Hlen.
  pose proof (strip_length s) as Hs. unfold strip in Hs. lia.
Qed.

Lemma strip_nonempty (c : char) (s : str) :
  is_space c = false -> nonempty (strip (c :: s)) = true.
Proof.
  intros Hc. unfold strip.
  assert (lstrip (c :: s) = c :: s) as ->
    by (cbn [lstrip]; rewrite Hc; reflexivity).
  unfold rstrip.
  assert (lstrip (@rev N (c :: s)) <> []) as Hkept.
  { apply (lstrip_keeps _ c); [|exact Hc].
    apply list_elem_of_In, (proj1 (in_rev _ _)). left. reflexivity. }
  destruct (lstrip (@rev N (c :: s))) as [|x l]; [congruence|].
  cbn [rev]. destruct (rev l); reflexivity.
Qed.

Lemma omap_length {A B : Type} (f : A -> option B) (l : list A) :
  length (omap f l) <= length l.
Proof.
  induction l as [|x l IH]; [reflexivity|].
  change (omap f (x :: l))
    with (match f x with Some y => y :: omap f l | None => omap f l end).
  destruct (f x); cbn [length]; lia.
Qed.

(** ** What tmux prints and what the watcher reads *)

(** The line [tmux list-panes -F] prints for a pane under the format of
    line 467: the six values with tabs between them. *)
Definition format_pane (p : PaneInfo) : str :=
  join [TAB] [pane_id p; session_name p; window_index p; pane_index p;
              cwd p; title p].

(** A value with no tab and no line break in it and no white space
    around it. *)
Definition plain (field : str) : Prop :=
  (TAB ∉ field) /\ RuntimeBatches.one_line field /\ strip field = field.

Section Paths.

Variable path : str -> str.

Definition listed (p : PaneInfo) : Prop :=
  plain (pane_id p) /\ plain (session_name p) /\ plain (window_index p) /\
  plain (pane_index p) /\ plain (cwd p) /\ plain (title p) /\
  pane_id p <> [] /\ cwd p <> [] /\ path (cwd p) = cwd p.

Lemma one_line_app (a b : str) :
  RuntimeBatches.one_line a -> RuntimeBatches.one_line b ->
  RuntimeBatches.one_line (a ++ b).
Proof.
  unfold RuntimeBatches.one_line. intros Ha Hb. rewrite forallb_app.
  apply andb_true_iff. split; assumption.
Qed.

Lemma format_pane_one_line p :
  listed p -> RuntimeBatches.one_line (format_pane p).
Proof.
  intros ((_ & H1 & _) & (_ & H2 & _) & (_ & H3 & _) & (_ & H4 & _)
          & (_ & H5 & _) & (_ & H6 & _) & _).
  unfold format_pane. cbn [join].
  repeat (apply one_line_app; [assumption|];
          apply (one_line_app [TAB]); [reflexivity|]).
  exact H6.
Qed.

Lemma parse_format_pane p :
  listed p -> parse_line path (format_pane p) = Some p.
Proof.
  intros Hlisted.
  destruct Hlisted as ((T1 & _ & S1) & (T2 & _ & S2) & (T3 & _ & S3)
                       & (T4 & _ & S4) & (T5 & _ & S5) & (T6 & _ & S6)
                       & Hid & Hcwd & Hpath).
  unfold parse_line.
  assert (nonempty (strip (format_pane p)) = true) as ->.
  { unfold format_pane. cbn [join].
    destruct (pane_id p) as [|c s] eqn:Hp; [congruence|].
    cbn [app]. apply strip_nonempty. exact (stripped_head _ _ S1). }
  cbn [negb]. unfold format_pane. cbn [join]. cbn [app].
  rewrite !split_on_field, split_on_last by assumption.
  cbn [rev app]. rewrite S1, S2, S3, S4, S5, S6.
  destruct (cwd p) as [|c s] eqn:Hc; [congruence|]. cbn [nonempty].
  rewrite Hpath, <- Hc. destruct p. reflexivity.
Qed.

(** X19.  Reading back what tmux prints: for panes whose six values hold
    no tab and no line break and have no white space around them, with a
    pane id and a current path that are not empty and a path in the
    spelling of [pathlib], [_list_tmux_panes] returns the panes that were
    printed, in their order. *)
Theorem list_tmux_panes_round_trip (panes : list PaneInfo)
  (warnings : str) :
  Forall listed panes ->
  list_tmux_panes path
    {| Tmux.returncode := 0;
       Tmux.stdout := RuntimeBatches.printed (List.map format_pane panes);
       Tmux.stderr := warnings |}
  = panes.
Proof.
  intros Hall. unfold list_tmux_panes.
  cbn [Tmux.returncode Tmux.stdout Z.eqb negb].
  rewrite RuntimeBatches.splitlines_printed.
  - induction Hall as [|p panes Hp Hall IH]; [reflexivity|].
    cbn [List.map].
    change (match parse_line path (format_pane p) with
            | Some pane =>
                pane :: omap (parse_line path) (List.map format_pane panes)
            | None => omap (parse_line path) (List.map format_pane panes)
            end = p :: panes).
    rewrite (parse_format_pane p Hp), IH. reflexivity.
  - apply Forall_fmap. eapply Forall_impl; [exact Hall|].
    intros p Hp. apply format_pane_one_line. exact Hp.
Qed.

(** X20.  A line of the output adds a pane exactly when it is not blank
    and holds five tabs: a line with fewer or more, as when a title holds
    a tab, is passed over without a word; and tmux failing gives no pane
    at all. *)
Theorem pane_line_accepted (line : str) :
  (is_Some (parse_line path line)
   <-> strip line <> [] /\ count_occ N.eq_dec line TAB = 5) /\
  (forall result,
     Tmux.returncode result <> 0%Z -> list_tmux_panes path result = []) /\
  (forall result,
     length (list_tmux_panes path result)
     <= length (splitlines (Tmux.stdout result))).
Proof.
  split; [|split].
  - unfold parse_line.
    pose proof (split_on_length TAB line []) as Hlen.
    destruct (strip line) as [|c s] eqn:Hstrip; cbn [nonempty negb].
    { split; [intros [? [=]]|intros [? _]; congruence]. }
    destruct (split_on TAB [] line)
      as [|f1 [|f2 [|f3 [|f4 [|f5 [|f6 [|f7 more]]]]]]];
      cbn [length] in Hlen;
      (split;
       [intros [? H]; first [discriminate H|split; [discriminate|lia]]
       |intros [_ H]; first [lia|eexists; reflexivity]]).
  - intros result Hrc. unfold list_tmux_panes.
    apply Z.eqb_neq in Hrc. rewrite Hrc. reflexivity.
  - intros result. unfold list_tmux_panes.
    destruct (negb _); [cbn; lia|]. apply omap_length.
Qed.

End Paths.

Definition first_pane : PaneInfo := {|
  pane_id := py "%1";
  session_name := py "agent 1";
  window_index := py "0";
  pane_index := py "0";
  cwd := py "/srv/workers/worker-1";
  title := []
|}.

Definition other_pane : PaneInfo := {|
  pane_id := py "%2";
  session_name := py "agent 1";
  window_index := py "0";
  pane_index := py "1";
  cwd := py "/tmp";
  title := py "logs"
|}.

Definition as_written (s : str) : str := s.

Lemma first_pane_listed : listed as_written first_pane.
Proof.
  repeat split; try reflexivity; try discriminate;
    apply (bool_decide_unpack _); vm_compute; exact I.
Qed.

Lemma other_pane_listed : listed as_written other_pane.
Proof.
  repeat split; try reflexivity; try discriminate;
    apply (bool_decide_unpack _); vm_compute; exact I.
Qed.

Lemma list_tmux_panes_round_trip_witness :
  list_tmux_panes as_written
    {| Tmux.returncode := 0;
       Tmux.stdout :=
         RuntimeBatches.printed
           (List.map format_pane [first_pane; other_pane]);
       Tmux.stderr := [] |}
  = [first_pane; other_pane].
Proof.
  exact (list_tmux_panes_round_trip as_written [first_pane; other_pane] []
           (Forall_cons_2 _ _ _ first_pane_listed
              (Forall_cons_2 _ _ _ other_pane_listed (Forall_nil_2 _)))).
Defined.

End PaneListFacts.

(* ===================================================================== *)
(** * The design refinement flow *)
(* ===================================================================== *)

Module FlowFacts.
Import Py DesignRefinement Coordinator.

Section Flows.

Variable lower : str -> str.
Variable error : Type.
Variable attempt : Z -> Attempt error.

Local Abbreviation iterate := (iterate lower error attempt).
Local Abbreviation run := (run lower error attempt).

(** The verdict of the critic at an iteration. *)
Definition critic_at (i : Z) : CriticResult :=
  run_carmack_critic lower (design error (attempt i)) i.

(** The coder task of an iteration is created and completes. *)
Definition coded (i : Z) : Prop :=
  exists task_id,
    created error (attempt i) = inr task_id /\
    finished error (attempt i) = Completes.

(** Iteration [i] is reached from iteration [first] on: the iterations
    before it had their task completed and a score below the bar. *)
Definition reached (config : FlowConfig) (first i : Z) : Prop :=
  forall j, (first <= j < i)%Z ->
    coded j /\ (score (critic_at j) < min_score config)%Z.

(** A flow that [_run] finds with its worker and its configuration. *)
Definition runnable (s : Store) (flow_id : str) (worker : Worker.t)
  (config : FlowConfig) : Prop :=
  exists flow,
    flows s !! flow_id = Some flow /\
    workers s !! Flow.worker_id flow = Some worker /\
    read_config (Flow.config flow) = Some config.

Lemma run_runnable s flow_id worker config :
  runnable s flow_id worker config ->
  run s flow_id =
  Some (WriteDesign (initial_design (initial_prompt config))
        :: fst (iterate flow_id worker config
                  (Z.to_nat (max_iterations config)) 1),
        snd (iterate flow_id worker config
               (Z.to_nat (max_iterations config)) 1)).
Proof.
  intros (flow & Hflow & Hworker & Hconfig). unfold Coordinator.run.
  rewrite Hflow, Hworker, Hconfig.
  destruct (iterate _ _ _ _ _). reflexivity.
Qed.

Lemma iterate_step flow_id worker config rounds iteration :
  iterate flow_id worker config (S rounds) iteration =
  let create :=
    CreateTask (Worker.id worker)
      {| tool := py "codex";
         spec := build_coder_spec config iteration;
         task_flow_id := Some flow_id |} in
  match created error (attempt iteration) with
  | inl e => ([create], CreateRaised error e)
  | inr task_id =>
      match finished error (attempt iteration) with
      | Hangs => ([create; AwaitTask task_id], Waiting error task_id)
      | Fails =>
          ([create; AwaitTask task_id;
            MarkFailed (py "coder_task_failed")
              (VDict [(py "task_id", VStr task_id)])],
           Done error)
      | Completes =>
          let record :=
            RecordIteration iteration task_id (critic_at iteration) in
          if (min_score config <=? score (critic_at iteration))%Z then
            ([create; AwaitTask task_id; record;
              MarkCompleted iteration (critic_at iteration)],
             Done error)
          else
            (create :: AwaitTask task_id :: record
             :: fst (iterate flow_id worker config rounds (iteration + 1)),
             snd (iterate flow_id worker config rounds (iteration + 1)))
      end
  end.
Proof.
  cbn [Coordinator.iterate]. unfold critic_at.
  destruct (created error (attempt iteration)); [reflexivity|].
  destruct (finished error (attempt iteration)); try reflexivity.
  destruct (_ <=? _)%Z; [reflexivity|].
  destruct (iterate _ _ _ _ _). reflexivity.
Qed.

(** ** When a flow completes *)

Lemma iterate_completed flow_id worker config rounds :
  forall iteration i critic,
  MarkCompleted i critic
    ∈ fst (iterate flow_id worker config rounds iteration)
  <-> (iteration <= i < iteration + Z.of_nat rounds)%Z
      /\ reached config iteration i /\ coded i
      /\ (min_score config <= score (critic_at i))%Z
      /\ critic = critic_at i.
Proof.
  induction rounds as [|rounds IH]; intros iteration i critic.
  { cbn [Coordinator.iterate fst]. split.
    - intros H. apply list_elem_of_singleton in H. discriminate H.
    - intros (? & _). lia. }
  rewrite iterate_step. cbn zeta.
  destruct (created error (attempt iteration)) as [e|task_id] eqn:Hcreated.
  { cbn [fst]. split.
    - intros H. apply list_elem_of_singleton in H. discriminate H.
    - intros (Hi & Hreached & Hcoded & _).
      assert (coded iteration) as (? & Habs & _).
      { destruct (Z.eq_dec i iteration) as [->|]; [exact Hcoded|].
        apply Hreached. lia. }
      congruence. }
  destruct (finished error (attempt iteration)) eqn:Hfinished.
  - destruct (Z.leb_spec (min_score config) (score (critic_at iteration)))
      as [Hpass|Hbelow]; cbn [fst].
    + split.
      * intros H. repeat (apply elem_of_cons in H as [H|H];
                          [try discriminate H|]); [|inversion H].
        injection H as -> ->. split; [lia|]. split; [intros j ?; lia|].
        split; [exists task_id; split; assumption|]. split;
          [exact Hpass|reflexivity].
      * intros (Hi & Hreached & _ & _ & ->).
        destruct (Z.eq_dec i iteration) as [->|Hne].
        -- do 3 apply list_elem_of_further. apply list_elem_of_here.
        -- destruct (Hreached iteration ltac:(lia)) as [_ Hlow]. lia.
    + rewrite !elem_of_cons, IH. split.
      * intros [H|[H|[H|H]]]; try discriminate H.
        destruct H as (Hi & Hreached & Hcoded & Hpass & ->).
        split; [lia|]. split; [|repeat split; assumption].
        intros j Hj. destruct (Z.eq_dec j iteration) as [->|Hne].
        -- split; [exists task_id; split; assumption|exact Hbelow].
        -- apply Hreached. lia.
      * intros (Hi & Hreached & Hcoded & Hpass & ->).
        right. right. right.
        assert (i <> iteration) by (intros ->; lia).
        split; [lia|]. split; [|repeat split; assumption].
        intros j Hj. apply Hreached. lia.
  - cbn [fst]. split.
    + intros H. repeat (apply elem_of_cons in H as [H|H];
                        [discriminate H|]). inversion H.
    + intros (Hi & Hreached & Hcoded & _).
      assert (coded iteration) as (? & _ & Habs).
      { destruct (Z.eq_dec i iteration) as [->|]; [exact Hcoded|].
        apply Hreached. lia. }
      congruence.
  - cbn [fst]. split.
    + intros H. repeat (apply elem_of_cons in H as [H|H];
                        [discriminate H|]). inversion H.
    + intros (Hi & Hreached & Hcoded & _).
      assert (coded iteration) as (? & _ & Habs).
      { destruct (Z.eq_dec i iteration) as [->|]; [exact Hcoded|].
        apply Hreached. lia. }
      congruence.
Qed.

(** X21.  A flow is marked completed, at iteration i and with the verdict
    of the critic of that iteration, exactly when i is between 1 and
    max_iterations, the coder tasks of the iterations 1 to i were created
    and completed, the scores of the iterations before i were below
    min_score and the score of iteration i is min_score or more. *)
Theorem flow_completes_at_first_passing_score (s : Store) (flow_id : str)
  (worker : Worker.t) (config : FlowConfig)
  (actions : list action) (e : ending error) (i : Z)
  (critic : CriticResult) :
  runnable s flow_id worker config ->
  run s flow_id = Some (actions, e) ->
  MarkCompleted i critic ∈ actions
  <-> (1 <= i <= max_iterations config)%Z
      /\ reached config 1 i /\ coded i
      /\ (min_score config <= score (critic_at i))%Z
      /\ critic = critic_at i.
Proof.
  intros Hrunnable Hrun. rewrite (run_runnable _ _ _ _ Hrunnable) in Hrun.
  injection Hrun as <- <-.
  rewrite elem_of_cons, iterate_completed. split.
  - intros [H|(Hi & Hrest)]; [discriminate H|]. split; [lia|exact Hrest].
  - intros (Hi & Hrest). right. split; [lia|exact Hrest].
Qed.


(** ** The shape of a run *)

(** The iteration an action records. *)
Definition recorded (a : action) : option Z :=
  match a with
  | RecordIteration iteration _ _ => Some iteration
  | _ => None
  end.

(** The actions that settle the flow. *)
Definition settles (a : action) : bool :=
  match a with
  | WorkerMissing | MarkCompleted _ _ | MarkFailed _ _ => true
  | _ => false
  end.

Definition creates (a : action) : bool :=
  match a with
  | CreateTask _ _ => true
  | _ => false
  end.

(** The integers from [first] on, [n] of them. *)
Fixpoint from (first : Z) (n : nat) : list Z :=
  match n with
  | O => []
  | S n => first :: from (first + 1) n
  end.

Lemma iterate_shape flow_id worker config rounds :
  forall iteration,
  exists k,
    k <= rounds /\
    omap recorded (fst (iterate flow_id worker config rounds iteration))
    = from iteration k /\
    k <= length (List.filter creates
                   (fst (iterate flow_id worker config rounds iteration)))
      <= S k /\
    length (List.filter creates
              (fst (iterate flow_id worker config rounds iteration)))
    <= rounds /\
    match snd (iterate flow_id worker config rounds iteration) with
    | Done _ =>
        exists body final,
          fst (iterate flow_id worker config rounds iteration)
          = body ++ [final] /\
          settles final = true /\ List.filter settles body = []
    | _ =>
        List.filter settles
          (fst (iterate flow_id worker config rounds iteration)) = []
    end.
Proof.
  induction rounds as [|rounds IH]; intros iteration.
  { exists 0. cbn. split; [lia|]. split; [reflexivity|].
    split; [lia|]. split; [lia|]. eexists [], _. split; [reflexivity|]. split; reflexivity. }
  rewrite iterate_step. cbn zeta.
  destruct (created error (attempt iteration)) as [err|task_id].
  { exists 0. cbn. split; [lia|]. split; [reflexivity|].
    split; [lia|]. split; [lia|reflexivity]. }
  destruct (finished error (attempt iteration)).
  - destruct (_ <=? _)%Z.
    + exists 1. cbn. split; [lia|]. split; [reflexivity|].
      split; [lia|]. split; [lia|].
      eexists [_; _; _], _. split; [reflexivity|]. split; reflexivity.
    + destruct (IH (iteration + 1)%Z)
        as (k & Hk & Hrec & Hcreated & Hmax & Hend).
      exists (S k). cbn [fst snd]. split; [lia|].
      split; [cbn; cbn in Hrec; rewrite Hrec; reflexivity|].
      split; [cbn; cbn in Hcreated; lia|]. split; [cbn; cbn in Hmax; lia|].
      destruct (snd (iterate _ _ _ _ _)).
      * destruct Hend as (body & final & -> & Hfinal & Hbody).
        eexists (_ :: _ :: _ :: body), final. split; [reflexivity|].
        split; [exact Hfinal|]. cbn. exact Hbody.
      * cbn. exact Hend.
      * cbn. exact Hend.
  - exists 0. cbn. split; [lia|]. split; [reflexivity|].
    split; [lia|]. split; [lia|]. eexists [_; _], _. split; [reflexivity|]. split; reflexivity.
  - exists 0. cbn. split; [lia|]. split; [reflexivity|].
    split; [lia|]. split; [lia|reflexivity].
Qed.

(** X23.  In every run the iterations recorded are 1, 2, ..., k in this
    order, for some k that is at most max_iterations; a task is created
    for each of them and at most for one iteration more, never more than
    max_iterations tasks; and the flow is settled exactly once, by the
    last action, when [_run] returns, and not at all when [create_task]
    raises or a task never finishes. *)
Theorem run_takes_iterations_in_order (s : Store) (flow_id : str)
  (worker : Worker.t) (config : FlowConfig)
  (actions : list action) (e : ending error) :
  runnable s flow_id worker config ->
  run s flow_id = Some (actions, e) ->
  exists k,
    k <= Z.to_nat (max_iterations config) /\
    omap recorded actions = from 1 k /\
    k <= length (List.filter creates actions) <= S k /\
    length (List.filter creates actions)
    <= Z.to_nat (max_iterations config) /\
    match e with
    | Done _ =>
        exists body final,
          actions = body ++ [final] /\
          settles final = true /\ List.filter settles body = []
    | _ => List.filter settles actions = []
    end.
Proof.
  intros Hrunnable Hrun. rewrite (run_runnable _ _ _ _ Hrunnable) in Hrun.
  injection Hrun as <- <-.
  destruct (iterate_shape flow_id worker config
              (Z.to_nat (max_iterations config)) 1)
    as (k & Hk & Hrec & Hcreated & Hmax & Hend).
  exists k. split; [exact Hk|]. split; [exact Hrec|].
  split; [exact Hcreated|]. split; [exact Hmax|].
  destruct (snd (iterate _ _ _ _ _)).
  - destruct Hend as (body & final & -> & Hfinal & Hbody).
    eexists (_ :: body), final. split; [reflexivity|].
    split; [exact Hfinal|exact Hbody].
  - exact Hend.
  - exact Hend.
Qed.

(** ** What a run leaves in storage *)

(** The writes of the actions of a run, one after the other. *)
Definition replay (flow_id : str) (actions : list action)
  (db : Store * list FlowIteration) : Store * list FlowIteration :=
  fold_left (perform flow_id) actions db.

(** X24.  A flow with max_iterations of 0 or less creates no task at
    all: the design is written and the flow is failed at once with the
    reason max_iterations_reached and no details, no iteration being
    recorded. *)
Theorem flow_without_iterations (s : Store) (flow_id : str)
  (worker : Worker.t) (config : FlowConfig) (rows : list FlowIteration) :
  runnable s flow_id worker config ->
  (max_iterations config <= 0)%Z ->
  run s flow_id =
    Some ([WriteDesign (initial_design (initial_prompt config));
           MarkFailed (py "max_iterations_reached") VNone],
          Done error) /\
  exists flow flow',
    flows s !! flow_id = Some flow /\
    replay flow_id
      [WriteDesign (initial_design (initial_prompt config));
       MarkFailed (py "max_iterations_reached") VNone] (s, rows)
    = (Runtime.put_flow s flow_id flow', rows) /\
    Flow.status flow' = FlowStatus.failed /\
    Flow.result flow' =
      VDict [(py "reason", VStr (py "max_iterations_reached"));
             (py "details", VNone)] /\
    Flow.state flow' = Flow.state flow.
Proof.
  intros Hrunnable Hmax. rewrite (run_runnable _ _ _ _ Hrunnable).
  assert (Z.to_nat (max_iterations config) = 0) as -> by lia.
  split; [reflexivity|].
  destruct Hrunnable as (flow & Hflow & _). exists flow.
  unfold replay. cbn [fold_left perform fst snd]. unfold mark_failed.
  rewrite Hflow. eexists. split; [reflexivity|].
  split; [reflexivity|]. repeat split.
Qed.

Lemma flows_write_flow s key flow status state result :
  flows (write_flow s key flow status state result) !! key =
  Some {| Flow.id := Flow.id flow;
          Flow.status := status;
          Flow.worker_id := Flow.worker_id flow;
          Flow.config := Flow.config flow;
          Flow.state := state;
          Flow.result := result |}.
Proof. unfold write_flow. cbn [flows Runtime.put_flow]. apply lookup_insert_eq. Qed.

(** The state [_record_iteration] leaves in the flow. *)
Definition last_state (i : Z) (critic : CriticResult) : pyval :=
  VDict [(py "last_iteration", VInt i);
         (py "last_score", VInt (score critic));
         (py "last_critic", critic_value critic)].

Lemma replay_iterate flow_id worker config i critic rounds :
  forall iteration s rows flow,
  flows s !! flow_id = Some flow ->
  MarkCompleted i critic
    ∈ fst (iterate flow_id worker config rounds iteration) ->
  exists flow',
    flows (fst (replay flow_id
                  (fst (iterate flow_id worker config rounds iteration))
                  (s, rows))) !! flow_id = Some flow' /\
    Flow.status flow' = FlowStatus.completed /\
    Flow.result flow' =
      VDict [(py "final_iteration", VInt i);
             (py "critic", critic_value critic)] /\
    Flow.state flow' = last_state i critic /\
    Flow.config flow' = Flow.config flow /\
    List.map iteration_index
      (snd (replay flow_id
              (fst (iterate flow_id worker config rounds iteration))
              (s, rows)))
    = List.map iteration_index rows
      ++ from iteration (Z.to_nat (i - iteration + 1)).
Proof.
  induction rounds as [|rounds IH]; intros iteration s rows flow Hflow Hin.
  { cbn in Hin. apply list_elem_of_singleton in Hin. discriminate Hin. }
  pose proof Hin as Hrange. apply iterate_completed in Hrange as [Hrange _].
  revert Hin. rewrite iterate_step. cbn zeta.
  destruct (created error (attempt iteration)) as [err|task_id].
  { cbn [fst]. intros H. apply list_elem_of_singleton in H. discriminate H. }
  destruct (finished error (attempt iteration)).
  - destruct (_ <=? _)%Z; cbn [fst].
    + intros H. repeat (apply elem_of_cons in H as [H|H];
                        [try discriminate H|]); [|inversion H].
      injection H as -> ->.
      unfold replay. cbn [fold_left perform fst snd].
      unfold record_iteration. rewrite Hflow. cbn [fst snd].
      unfold mark_completed. rewrite flows_write_flow.
      rewrite flows_write_flow. eexists. split; [reflexivity|].
      cbn [Flow.status Flow.result Flow.state Flow.config].
      split; [reflexivity|]. split; [reflexivity|].
      split; [reflexivity|]. split; [reflexivity|].
      rewrite map_app. replace (iteration - iteration + 1)%Z with 1%Z by lia.
      reflexivity.
    + intros H. repeat (apply elem_of_cons in H as [H|H];
                        [discriminate H|]).
      pose proof H as Hnext.
      apply iterate_completed in Hnext as [Hnext _].
      unfold replay. cbn [fold_left perform fst snd].
      unfold record_iteration. rewrite Hflow. cbn [fst snd].
      set (s1 := write_flow _ _ _ _ _ _).
      destruct (IH (iteration + 1)%Z s1
                  (rows ++ [{| flow_id := flow_id;
                               iteration_index := iteration;
                               coder_task_id := task_id;
                               critic_task_payload :=
                                 critic_value (critic_at iteration) |}])
                  _ (flows_write_flow s flow_id flow _ _ _) H)
        as (flow' & Hrow & Hstatus & Hresult & Hstate & Hconfig & Hrows).
      exists flow'. unfold replay in Hrow, Hrows.
      split; [exact Hrow|]. split; [exact Hstatus|].
      split; [exact Hresult|]. split; [exact Hstate|].
      split; [exact Hconfig|]. rewrite Hrows, map_app, <- app_assoc.
      cbn [List.map iteration_index app].
      replace (Z.to_nat (i - iteration + 1))
        with (S (Z.to_nat (i - (iteration + 1) + 1))) by lia.
      reflexivity.
  - cbn [fst]. intros H. repeat (apply elem_of_cons in H as [H|H];
                                 [discriminate H|]). inversion H.
  - cbn [fst]. intros H. repeat (apply elem_of_cons in H as [H|H];
                                 [discriminate H|]). inversion H.
Qed.

(** X25.  What a completed flow leaves in storage: when a run marks the
    flow completed at iteration i, its writes, made one after the other
    on a storage that holds the flow, leave the flow completed, with the
    final iteration and the verdict of the critic as result and as state,
    its configuration as it was, and one FlowIteration row for each of
    the iterations 1 to i, in this order. *)
Theorem completed_flow_in_storage (s : Store) (flow_id : str)
  (worker : Worker.t) (config : FlowConfig)
  (actions : list action) (e : ending error) (i : Z)
  (critic : CriticResult) (rows : list FlowIteration) :
  runnable s flow_id worker config ->
  run s flow_id = Some (actions, e) ->
  MarkCompleted i critic ∈ actions ->
  exists flow',
    flows (fst (replay flow_id actions (s, rows))) !! flow_id
    = Some flow' /\
    Flow.status flow' = FlowStatus.completed /\
    Flow.result flow' =
      VDict [(py "final_iteration", VInt i);
             (py "critic", critic_value critic)] /\
    Flow.state flow' = last_state i critic /\
    Flow.config flow' = config_value config /\
    List.map iteration_index (snd (replay flow_id actions (s, rows)))
    = List.map iteration_index rows ++ from 1 (Z.to_nat i).
Proof.
  intros Hrunnable Hrun Hin.
  rewrite (run_runnable _ _ _ _ Hrunnable) in Hrun.
  injection Hrun as <- <-.
  apply elem_of_cons in Hin as [Hin|Hin]; [discriminate Hin|].
  destruct Hrunnable as (flow & Hflow & _ & Hconfig).
  destruct (replay_iterate flow_id worker config i critic _ 1 s rows flow
              Hflow Hin)
    as (flow' & Hrow & Hstatus & Hresult & Hstate & Hsame & Hrows).
  exists flow'. unfold replay in *. cbn [fold_left perform].
  split; [exact Hrow|]. split; [exact Hstatus|]. split; [exact Hresult|].
  split; [exact Hstate|]. split.
  - rewrite Hsame. revert Hconfig. clear. unfold read_config, config_value.
    destruct (Flow.config flow) as [| | | | | |d]; try discriminate.
    destruct d as [|[k1 [| | | |prompt| |]] [|[k2 [| |n| | | |]]
                   [|[k3 [| |m| | | |]] [|]]]]; try discriminate.
    destruct (str_eqb k1 _) eqn:H1; [|discriminate].
    destruct (str_eqb k2 _) eqn:H2; [|discriminate].
    destruct (str_eqb k3 _) eqn:H3; [|discriminate].
    apply bool_decide_eq_true in H1, H2, H3. subst.
    intros [= <-]. reflexivity.
  - rewrite Hrows. replace (i - 1 + 1)%Z with i by lia. reflexivity.
Qed.

End Flows.

(** X26.  A failed coder task reaches the flow twice.  The runtime, on
    reading the result, fails the flow with the error of the task as
    reason; the coordinator, on seeing the task failed, fails it again
    with the reason coder_task_failed and the id of the task as details,
    and the error of the task is no longer in the result of the flow.
    State and configuration of the flow stay as they were. *)
Theorem coordinator_overwrites_task_error (utcnow : nat -> timestamp)
  (st : Runtime.State) (task_id : str) (task : Task.t)
  (result error_message : pyval) (flow_id : str) (flow : Flow.t) :
  Runtime.collecting_task_id (Runtime.runtime st) = Some task_id ->
  task_id <> [] ->
  Runtime.parse_payload (RuntimeFacts.payload_text st)
  = inr (result, TaskStatus.failed, error_message) ->
  tasks (Runtime.session st) !! task_id = Some task ->
  Task.flow_id task = Some flow_id -> flow_id <> [] ->
  flows (Runtime.session st) !! flow_id = Some flow ->
  exists st' flow1 flow2,
    Runtime.finalize_result utcnow st = Returned st' /\
    flows (Runtime.database st') !! flow_id = Some flow1 /\
    Flow.status flow1 = FlowStatus.failed /\
    Flow.result flow1 =
      VDict [(py "reason", py_or error_message (VStr (py "task_failed")));
             (py "task_id", VStr task_id)] /\
    flows (mark_failed (Runtime.database st') flow_id
             (py "coder_task_failed")
             (VDict [(py "task_id", VStr task_id)])) !! flow_id
    = Some flow2 /\
    Flow.status flow2 = FlowStatus.failed /\
    Flow.result flow2 =
      VDict [(py "reason", VStr (py "coder_task_failed"));
             (py "details", VDict [(py "task_id", VStr task_id)])] /\
    Flow.state flow2 = Flow.state flow /\
    Flow.config flow2 = Flow.config flow.
Proof.
  intros Hc Hid Hv Htask Hfid Hflowid Hflow.
  rewrite (RuntimeFacts.finalize_found utcnow st task_id task result
             TaskStatus.failed error_message Hc Hid Hv Htask).
  assert (flows (Runtime.database
                   (RuntimeFacts.finalized utcnow st task_id task result
                      TaskStatus.failed error_message)) !! flow_id
          = Some {| Flow.id := Flow.id flow;
                    Flow.status := FlowStatus.failed;
                    Flow.worker_id := Flow.worker_id flow;
                    Flow.config := Flow.config flow;
                    Flow.state := Flow.state flow;
                    Flow.result :=
                      VDict [(py "reason",
                              py_or error_message
                                (VStr (py "task_failed")));
                             (py "task_id", VStr task_id)] |}) as Hrow.
  { unfold RuntimeFacts.finalized. cbn [Runtime.database].
    unfold Runtime.fail_flow.
    cbn [Runtime.finish_task Task.flow_id Task.error_message].
    rewrite Hfid, (RuntimeFacts.opt_truthy_some _ Hflowid).
    cbn [TaskStatus.eqb andb]. rewrite RuntimeFacts.flows_touch_worker.
    cbn [flows Runtime.add_event Runtime.put_task]. rewrite Hflow.
    cbn [flows Runtime.put_flow]. apply lookup_insert_eq. }
  eexists _, _, _. split; [reflexivity|]. split; [exact Hrow|].
  split; [reflexivity|]. split; [reflexivity|].
  unfold mark_failed. rewrite Hrow. rewrite flows_write_flow.
  split; [reflexivity|]. repeat split.
Qed.

(** ** A flow, run *)

(** Lower case for the letters A to Z: [str.lower] on ASCII text. *)
Definition ascii_lower (s : str) : str :=
  List.map (fun c => if ((65 <=? c) && (c <=? 90))%N then (c + 32)%N else c)
    s.

Definition cache_config : FlowConfig := {|
  initial_prompt := py "Design a cache";
  max_iterations := 3;
  min_score := 7
|}.

Definition cache_flow : Flow.t := {|
  Flow.id := py "flow-1";
  Flow.status := FlowStatus.running;
  Flow.worker_id := py "worker-1";
  Flow.config := config_value cache_config;
  Flow.state := VDict [];
  Flow.result := VNone
|}.

Definition cache_store : Store :=
  Runtime.put_flow RuntimeFacts.sample_store (py "flow-1") cache_flow.

(** The coder leaves the design alone at the first iteration and adds two
    headed sections at the second; every task completes. *)
Definition coder (i : Z) : Attempt exn := {|
  created := inr (py "task-" ++ decimal i);
  finished := Completes;
  design :=
    Some (initial_design (py "Design a cache")
          ++ (if (2 <=? i)%Z
              then py "## Goals" ++ Runtime.NEWLINE ++ py "## Performance"
              else []))
|}.

Definition cache_run : option (list action * ending exn) :=
  run ascii_lower exn coder cache_store (py "flow-1").

Definition cache_actions : list action :=
  match cache_run with Some (actions, _) => actions | None => [] end.

Definition cache_ending : ending exn :=
  match cache_run with Some (_, e) => e | None => Done exn end.

Lemma cache_runnable :
  runnable cache_store (py "flow-1") RuntimeFacts.sample_worker cache_config.
Proof. exists cache_flow. repeat split; vm_compute; reflexivity. Qed.

Lemma cache_run_eq : cache_run = Some (cache_actions, cache_ending).
Proof. vm_compute. reflexivity. Qed.

Lemma cache_completed :
  MarkCompleted 2 (critic_at ascii_lower exn coder 2) ∈ cache_actions.
Proof.
  vm_compute.
  repeat first [apply list_elem_of_here | apply list_elem_of_further].
Qed.

Lemma flow_completes_at_first_passing_score_witness :
  MarkCompleted 2 (critic_at ascii_lower exn coder 2) ∈ cache_actions
  <-> (1 <= 2 <= max_iterations cache_config)%Z
      /\ reached ascii_lower exn coder cache_config 1 2
      /\ coded exn coder 2
      /\ (min_score cache_config
          <= score (critic_at ascii_lower exn coder 2))%Z
      /\ critic_at ascii_lower exn coder 2
         = critic_at ascii_lower exn coder 2.
Proof.
  exact (flow_completes_at_first_passing_score ascii_lower exn coder
           cache_store (py "flow-1") RuntimeFacts.sample_worker cache_config
           cache_actions cache_ending 2 _ cache_runnable cache_run_eq).
Defined.


Lemma run_takes_iterations_in_order_witness :
  exists k,
    k <= Z.to_nat (max_iterations cache_config) /\
    omap recorded cache_actions = from 1 k /\
    k <= length (List.filter creates cache_actions) <= S k /\
    length (List.filter creates cache_actions)
    <= Z.to_nat (max_iterations cache_config) /\
    match cache_ending with
    | Done _ =>
        exists body final,
          cache_actions = body ++ [final] /\
          settles final = true /\ List.filter settles body = []
    | _ => List.filter settles cache_actions = []
    end.
Proof.
  exact (run_takes_iterations_in_order ascii_lower exn coder cache_store
           (py "flow-1") RuntimeFacts.sample_worker cache_config
           cache_actions cache_ending cache_runnable cache_run_eq).
Defined.

(** The same flow asked for no iteration. *)
Definition idle_config : FlowConfig := {|
  initial_prompt := py "Design a cache";
  max_iterations := 0;
  min_score := 7
|}.

Definition idle_store : Store :=
  Runtime.put_flow RuntimeFacts.sample_store (py "flow-1") {|
    Flow.id := py "flow-1";
    Flow.status := FlowStatus.running;
    Flow.worker_id := py "worker-1";
    Flow.config := config_value idle_config;
    Flow.state := VDict [];
    Flow.result := VNone
  |}.

Lemma flow_without_iterations_witness :
  run ascii_lower exn coder idle_store (py "flow-1") =
    Some ([WriteDesign (initial_design (initial_prompt idle_config));
           MarkFailed (py "max_iterations_reached") VNone],
          Done exn) /\
  exists flow flow',
    flows idle_store !! py "flow-1" = Some flow /\
    replay (py "flow-1")
      [WriteDesign (initial_design (initial_prompt idle_config));
       MarkFailed (py "max_iterations_reached") VNone] (idle_store, [])
    = (Runtime.put_flow idle_store (py "flow-1") flow', []) /\
    Flow.status flow' = FlowStatus.failed /\
    Flow.result flow' =
      VDict [(py "reason", VStr (py "max_iterations_reached"));
             (py "details", VNone)] /\
    Flow.state flow' = Flow.state flow.
Proof.
  apply (flow_without_iterations ascii_lower exn coder idle_store
           (py "flow-1") RuntimeFacts.sample_worker idle_config []).
  - eexists. repeat split; vm_compute; reflexivity.
  - vm_compute. discriminate.
Defined.

Lemma completed_flow_in_storage_witness :
  exists flow',
    flows (fst (replay (py "flow-1") cache_actions (cache_store, [])))
      !! py "flow-1" = Some flow' /\
    Flow.status flow' = FlowStatus.completed /\
    Flow.result flow' =
      VDict [(py "final_iteration", VInt 2);
             (py "critic",
              critic_value (critic_at ascii_lower exn coder 2))] /\
    Flow.state flow'
    = last_state 2 (critic_at ascii_lower exn coder 2) /\
    Flow.config flow' = config_value cache_config /\
    List.map iteration_index
      (snd (replay (py "flow-1") cache_actions (cache_store, [])))
    = List.map iteration_index [] ++ from 1 (Z.to_nat 2).
Proof.
  exact (completed_flow_in_storage ascii_lower exn coder cache_store
           (py "flow-1") RuntimeFacts.sample_worker cache_config
           cache_actions cache_ending 2 _ [] cache_runnable cache_run_eq
           cache_completed).
Defined.

Lemma coordinator_overwrites_task_error_witness :
  exists st' flow1 flow2,
    Runtime.finalize_result RuntimeFacts.sample_utcnow
      (RuntimeFacts.collecting_state RuntimeFacts.boom_payload)
    = Returned st' /\
    flows (Runtime.database st') !! py "flow-1" = Some flow1 /\
    Flow.status flow1 = FlowStatus.failed /\
    Flow.result flow1 =
      VDict [(py "reason",
              py_or (VStr (py "boom")) (VStr (py "task_failed")));
             (py "task_id", VStr (py "task-1"))] /\
    flows (mark_failed (Runtime.database st') (py "flow-1")
             (py "coder_task_failed")
             (VDict [(py "task_id", VStr (py "task-1"))])) !! py "flow-1"
    = Some flow2 /\
    Flow.status flow2 = FlowStatus.failed /\
    Flow.result flow2 =
      VDict [(py "reason", VStr (py "coder_task_failed"));
             (py "details", VDict [(py "task_id", VStr (py "task-1"))])] /\
    Flow.state flow2 = Flow.state RuntimeFacts.sample_flow /\
    Flow.config flow2 = Flow.config RuntimeFacts.sample_flow.
Proof.
  exact (coordinator_overwrites_task_error RuntimeFacts.sample_utcnow
           (RuntimeFacts.collecting_state RuntimeFacts.boom_payload)
           (py "task-1") RuntimeFacts.sample_task
           (VDict [(py "status", VStr (py "failed"));
                   (py "error", VStr (py "boom"))])
           (VStr (py "boom")) (py "flow-1") RuntimeFacts.sample_flow
           eq_refl RuntimeFacts.task_1_named ltac:(vm_compute; reflexivity)
           ltac:(vm_compute; reflexivity) eq_refl RuntimeFacts.flow_1_named
           ltac:(vm_compute; reflexivity)).
Defined.

End FlowFacts.

(* ===================================================================== *)
(** * From the creation of a task to its result *)
(* ===================================================================== *)

Module TaskRunnerFacts.
Import Py Runtime TaskRunner.

Lemma shim_for_supported tool shim :
  shim_for TOOL_SHIMS tool = Some shim -> shim <> [].
Proof.
  unfold TOOL_SHIMS. cbn [shim_for].
  repeat (destruct (str_eqb _ tool); [intros [= <-]; discriminate|]).
  discriminate.
Qed.

Lemma shim_for_unsupported tool :
  tool ∉ [py "codex"; py "claude"; py "gemini"; py "critic_llm"] ->
  shim_for TOOL_SHIMS tool = None.
Proof.
  intros Hnot. unfold TOOL_SHIMS. cbn [shim_for]. unfold str_eqb.
  repeat (rewrite bool_decide_eq_false_2;
          [|intros <-; apply Hnot;
            repeat first [apply list_elem_of_here
                         |apply list_elem_of_further]]).
  reflexivity.
Qed.

Section Runner.

Variable path_join : str -> str -> str.
Variable shims_dir : str.
Variable utcnow : nat -> timestamp.
Variable settings : Config.Settings.

Local Abbreviation build_command := (build_command path_join shims_dir).
Local Abbreviation create_task :=
  (create_task path_join shims_dir utcnow settings).
Local Abbreviation process_lines := (process_lines utcnow settings).
Local Abbreviation is_start := (RuntimeFacts.is_start settings).
Local Abbreviation is_end := (RuntimeFacts.is_end settings).
Local Abbreviation is_payload := (RuntimeFacts.is_payload settings).

(** The command of a task of a supported tool. *)
Definition command_of (shim : str) (new_id : str) : str :=
  py "bash " ++ quote (path_join shims_dir shim) ++ py " "
  ++ quote (path_join (py "specs") (new_id ++ py ".json")).

Lemma build_command_supported tool shim spec_path :
  shim_for TOOL_SHIMS tool = Some shim ->
  build_command tool spec_path
  = inr (py "bash " ++ quote (path_join shims_dir shim) ++ py " "
         ++ quote spec_path).
Proof.
  intros Hshim. unfold TaskRunner.build_command. rewrite Hshim.
  pose proof (shim_for_supported _ _ Hshim).
  destruct shim; [congruence|reflexivity].
Qed.

(** The row of a task that was just created. *)
Definition new_task (svc : Service) (worker_id : str)
  (payload : Coordinator.TaskCreate) (new_id : str) : Task.t := {|
  Task.id := new_id;
  Task.worker_id := worker_id;
  Task.tool := Coordinator.tool payload;
  Task.spec_json := Coordinator.spec payload;
  Task.status := TaskStatus.running;
  Task.result_json := VNone;
  Task.error_message := VNone;
  Task.started_at := Some (utcnow (clock svc));
  Task.finished_at := None;
  Task.flow_id := Coordinator.task_flow_id payload
|}.

Definition is_tmux_call (e : effect) : bool :=
  match e with
  | TmuxCalled _ => true
  | SpecWritten _ _ => false
  end.

(** X27.  A task for a worker that storage does not hold, or for a tool
    that is not one of codex, claude, gemini and critic_llm, is refused
    with a ValueError: storage, registry and clock are as before and
    tmux is not called.  For the unknown tool the file of the spec has
    been written by then. *)
Theorem create_task_refused (svc : Service) (worker_id : str)
  (payload : Coordinator.TaskCreate) (new_id : str)
  (first second : Tmux.CompletedProcess) :
  workers (storage svc) !! worker_id = None
  \/ Coordinator.tool payload
     ∉ [py "codex"; py "claude"; py "gemini"; py "critic_llm"] ->
  exists effects message,
    create_task svc worker_id payload new_id first second
    = (effects, inl (ValueError message), svc) /\
    List.filter is_tmux_call effects = [] /\
    (workers (storage svc) !! worker_id = None ->
     effects = [] /\ message = py "Worker not found") /\
    (forall worker,
       workers (storage svc) !! worker_id = Some worker ->
       effects =
         [SpecWritten
            (path_join (path_join (Worker.workspace_path worker)
                          (py "specs")) (new_id ++ py ".json"))
            (Coordinator.spec payload)]
       /\ message = py "Unsupported tool '" ++ Coordinator.tool payload
                    ++ py "'").
Proof.
  intros Hrefused. unfold TaskRunner.create_task.
  destruct (workers (storage svc) !! worker_id) as [worker|] eqn:Hworker.
  - destruct Hrefused as [Hnone|Htool]; [discriminate Hnone|].
    unfold TaskRunner.build_command.
    rewrite (shim_for_unsupported _ Htool).
    eexists _, _. split; [reflexivity|]. split; [reflexivity|].
    split; [discriminate|]. intros ? [= <-]. split; reflexivity.
  - eexists _, _. split; [reflexivity|]. split; [reflexivity|].
    split; [intros _; split; reflexivity|discriminate].
Qed.

Lemma finalized_worker st task_id task result status error_message worker :
  workers (session st) !! Task.worker_id task = Some worker ->
  workers (database
             (RuntimeFacts.finalized utcnow st task_id task result status
                error_message)) !! Task.worker_id task
  = Some {| Worker.id := Worker.id worker;
            Worker.status :=
              match running_tasks
                      (runtime
                         (RuntimeFacts.finalized utcnow st task_id task
                            result status error_message)) with
              | [] => WorkerStatus.idle
              | _ => WorkerStatus.busy
              end;
            Worker.tmux_session := Worker.tmux_session worker;
            Worker.workspace_path := Worker.workspace_path worker;
            Worker.last_seen_at := utcnow (ticks st) |}.
Proof.
  intros Hworker. unfold RuntimeFacts.finalized.
  cbn [database runtime running_tasks set_running_tasks].
  rewrite RuntimeBatches.workers_fail_flow. unfold touch_worker.
  cbn [finish_task Task.worker_id workers add_event put_task].
  rewrite Hworker. cbn [workers put_worker]. apply lookup_insert_eq.
Qed.

(** X28.  From the request to the result.  A task created for a worker
    whose runtime has nothing queued, with tmux taking the command, is
    stored as running and is alone in the queue; when the pane then shows
    a framed payload, the monitor gives this task the verdict of the
    payload, with the time of creation as start and the time of the
    result as end, empties the queue and sets the worker idle. *)
Theorem created_task_gets_its_result (svc : Service) (worker_id : str)
  (worker : Worker.t) (payload : Coordinator.TaskCreate) (new_id : str)
  (first second : Tmux.CompletedProcess) (shim : str)
  (start : str) (lines : list str) (end_line : str)
  (verdict : pyval * TaskStatus.t * pyval) :
  workers (storage svc) !! worker_id = Some worker ->
  shim_for TOOL_SHIMS (Coordinator.tool payload) = Some shim ->
  (forall rt, registry svc !! worker_id = Some rt -> running_tasks rt = []) ->
  new_id <> [] ->
  Tmux.returncode first = 0%Z -> Tmux.returncode second = 0%Z ->
  is_start start -> Forall is_payload lines -> is_end end_line ->
  parse_payload (join NEWLINE lines) = inr verdict ->
  exists effects svc' st st' worker',
    create_task svc worker_id payload new_id first second
    = (effects, inr (new_task svc worker_id payload new_id), svc') /\
    tasks (storage svc') !! new_id
    = Some (new_task svc worker_id payload new_id) /\
    monitor svc' worker_id = Some st /\
    running_tasks (runtime st) = [new_id] /\
    process_lines st (start :: lines ++ [end_line]) = Returned st' /\
    tasks (database st') !! new_id =
      Some {| Task.id := new_id;
              Task.worker_id := worker_id;
              Task.tool := Coordinator.tool payload;
              Task.spec_json := Coordinator.spec payload;
              Task.status := snd (fst verdict);
              Task.result_json := fst (fst verdict);
              Task.error_message := snd verdict;
              Task.started_at := Some (utcnow (clock svc));
              Task.finished_at := Some (utcnow (S (clock svc)));
              Task.flow_id := Coordinator.task_flow_id payload |} /\
    running_tasks (runtime st') = [] /\
    workers (database st') !! worker_id = Some worker' /\
    Worker.status worker' = WorkerStatus.idle /\
    Worker.last_seen_at worker' = utcnow (S (clock svc)).
Proof.
  intros Hworker Hshim Hidle Hid Hfirst Hsecond Hs Hp He Hv.
  destruct verdict as [[result status] error_message].
  unfold TaskRunner.create_task. rewrite Hworker.
  rewrite (build_command_supported _ _ _ Hshim).
  unfold send_line.
  rewrite (TmuxFacts.run_ok _ Hfirst), (TmuxFacts.run_ok _ Hsecond).
  fold (new_task svc worker_id payload new_id).
  set (rt0 := match registry svc !! worker_id with
              | Some rt => rt
              | None => init settings worker_id (Worker.tmux_session worker)
                          (Worker.workspace_path worker)
              end).
  assert (running_tasks rt0 = []) as Hqueue.
  { unfold rt0. destruct (registry svc !! worker_id) as [rt|] eqn:Hrt;
      [exact (Hidle rt eq_refl)|reflexivity]. }
  set (s1 := add_event _ _).
  set (st := {| runtime := enqueue_task rt0 new_id;
                session := s1; database := s1; ticks := S (clock svc) |}).
  assert (tasks s1 !! new_id = Some (new_task svc worker_id payload new_id))
    as Htask.
  { unfold s1. cbn [tasks add_event put_worker put_task].
    apply lookup_insert_eq. }
  assert (workers s1 !! worker_id
          = Some {| Worker.id := Worker.id worker;
                    Worker.status := WorkerStatus.busy;
                    Worker.tmux_session := Worker.tmux_session worker;
                    Worker.workspace_path := Worker.workspace_path worker;
                    Worker.last_seen_at := Worker.last_seen_at worker |})
    as Hrow.
  { unfold s1. cbn [workers add_event put_worker]. apply lookup_insert_eq. }
  assert (running_tasks (runtime st) = [new_id]) as Hst.
  { cbn. rewrite Hqueue. reflexivity. }
  set (st1 := with_runtime (with_session st (database st))
                (set_collecting (runtime (with_session st (database st)))
                   (Some new_id) lines)).
  pose proof (RuntimeFacts.finalize_found utcnow st1 new_id
                (new_task svc worker_id payload new_id) result status
                error_message eq_refl Hid Hv Htask) as Hfinal.
  set (done := RuntimeFacts.finalized utcnow st1 new_id
                 (new_task svc worker_id payload new_id) result status
                 error_message) in *.
  assert (running_tasks (runtime done) = []) as Hdone.
  { unfold done. rewrite RuntimeBatches.finalized_queue_removed.
    change (running_tasks (runtime st1)) with (running_tasks (runtime st)).
    rewrite Hst. apply RuntimeBatches.deque_remove_head. }
  eexists _, _, st, (commit done), _.
  split; [reflexivity|]. split; [exact Htask|].
  split; [unfold monitor; cbn [registry];
          rewrite lookup_insert_eq; reflexivity|].
  split; [exact Hst|]. split.
  { unfold Runtime.process_lines. cbn [app].
    rewrite (RuntimeBatches.loop_framed utcnow settings
               (with_session st (database st)) new_id start lines end_line
               []); try assumption.
    - fold st1. rewrite Hfinal. reflexivity.
    - change (runtime (with_session st (database st))) with (runtime st).
      rewrite Hst. reflexivity. }
  split.
  { change (database (commit done)) with (database done). unfold done.
    rewrite RuntimeFacts.finalized_task. reflexivity. }
  split; [exact Hdone|].
  change (database (commit done)) with (database done).
  pose proof (finalized_worker st1 new_id
                (new_task svc worker_id payload new_id) result status
                error_message _ Hrow) as Hw.
  fold done in Hw. rewrite Hdone in Hw.
  split; [exact Hw|]. split; reflexivity.
Qed.

(** X29.  When tmux fails to take the command, [create_task] ends with
    the exception of tmux after everything else is done: the task is
    stored as running, the worker as busy, the id is the last of the
    queue of the worker's runtime, and the Enter key was never sent. *)
Theorem create_task_unsent (svc : Service) (worker_id : str)
  (worker : Worker.t) (payload : Coordinator.TaskCreate) (new_id : str)
  (first second : Tmux.CompletedProcess) (shim : str) :
  workers (storage svc) !! worker_id = Some worker ->
  shim_for TOOL_SHIMS (Coordinator.tool payload) = Some shim ->
  Tmux.returncode first <> 0%Z ->
  exists effects message svc' rt worker',
    create_task svc worker_id payload new_id first second
    = (effects, inl (Tmux (TmuxCommandError message)), svc') /\
    tasks (storage svc') !! new_id
    = Some (new_task svc worker_id payload new_id) /\
    workers (storage svc') !! worker_id = Some worker' /\
    Worker.status worker' = WorkerStatus.busy /\
    registry svc' !! worker_id = Some rt /\
    last (running_tasks rt) = Some new_id /\
    List.filter is_tmux_call effects
    = [TmuxCalled
         (send_keys (controller rt) (command_of shim new_id))].
Proof.
  intros Hworker Hshim Hfirst.
  unfold TaskRunner.create_task. rewrite Hworker.
  rewrite (build_command_supported _ _ _ Hshim).
  unfold send_line.
  destruct (TmuxFacts.run_failed _ Hfirst) as [message ->].
  fold (new_task svc worker_id payload new_id).
  eexists _, message, _, _, _. split; [reflexivity|].
  cbn [storage registry]. split.
  { cbn [tasks add_event put_worker put_task]. apply lookup_insert_eq. }
  split.
  { cbn [workers add_event put_worker]. apply lookup_insert_eq. }
  split; [reflexivity|]. split; [apply lookup_insert_eq|].
  split.
  - cbn [enqueue_task running_tasks set_running_tasks].
    apply last_snoc.
  - reflexivity.
Qed.

End Runner.

(** ** A task, created *)

Definition posix_join (a b : str) : str := a ++ py "/" ++ b.

Definition SHIMS : str := py "/srv/conductor/scripts/shims".

Definition new_service : Service :=
  {| registry := ∅; storage := RuntimeFacts.sample_store; clock := 0 |}.

Definition claude_task : Coordinator.TaskCreate :=
  {| Coordinator.tool := py "claude";
     Coordinator.spec := VDict [(py "description", VStr (py "x"))];
     Coordinator.task_flow_id := None |}.

Definition shell_task : Coordinator.TaskCreate :=
  {| Coordinator.tool := py "bash";
     Coordinator.spec := VDict [];
     Coordinator.task_flow_id := None |}.

Definition accepted : Tmux.CompletedProcess :=
  {| Tmux.returncode := 0; Tmux.stdout := []; Tmux.stderr := [] |}.

Definition no_server : Tmux.CompletedProcess :=
  {| Tmux.returncode := 1; Tmux.stdout := [];
     Tmux.stderr := py "no server running" |}.

Lemma create_task_refused_witness :
  exists effects message,
    create_task posix_join SHIMS RuntimeFacts.sample_utcnow Config.defaults
      new_service (py "worker-1") shell_task (py "task-9") accepted accepted
    = (effects, inl (ValueError message), new_service) /\
    List.filter is_tmux_call effects = [] /\
    (workers (storage new_service) !! py "worker-1" = None ->
     effects = [] /\ message = py "Worker not found") /\
    (forall worker,
       workers (storage new_service) !! py "worker-1" = Some worker ->
       effects =
         [SpecWritten
            (posix_join (posix_join (Worker.workspace_path worker)
                           (py "specs")) (py "task-9" ++ py ".json"))
            (Coordinator.spec shell_task)]
       /\ message = py "Unsupported tool '" ++ Coordinator.tool shell_task
                    ++ py "'").
Proof.
  exact (create_task_refused posix_join SHIMS RuntimeFacts.sample_utcnow
           Config.defaults new_service (py "worker-1") shell_task
           (py "task-9") accepted accepted
           ltac:(right; apply (bool_decide_unpack _); vm_compute; exact I)).
Defined.

Lemma created_task_gets_its_result_witness :
  exists effects svc' st st' worker',
    create_task posix_join SHIMS RuntimeFacts.sample_utcnow Config.defaults
      new_service (py "worker-1") claude_task (py "task-9") accepted accepted
    = (effects,
       inr (new_task RuntimeFacts.sample_utcnow new_service (py "worker-1")
              claude_task (py "task-9")),
       svc') /\
    tasks (storage svc') !! py "task-9"
    = Some (new_task RuntimeFacts.sample_utcnow new_service (py "worker-1")
              claude_task (py "task-9")) /\
    monitor svc' (py "worker-1") = Some st /\
    running_tasks (runtime st) = [py "task-9"] /\
    process_lines RuntimeFacts.sample_utcnow Config.defaults st
      (RuntimeFacts.START_LINE
       :: RuntimeFacts.ok_payload ++ [RuntimeFacts.END_LINE])
    = Returned st' /\
    tasks (database st') !! py "task-9" =
      Some {| Task.id := py "task-9";
              Task.worker_id := py "worker-1";
              Task.tool := py "claude";
              Task.spec_json := VDict [(py "description", VStr (py "x"))];
              Task.status := TaskStatus.completed;
              Task.result_json :=
                VDict [(py "status", VStr (py "ok"));
                       (py "summary", VStr (py "done"))];
              Task.error_message := VNone;
              Task.started_at := Some 1000%Z;
              Task.finished_at := Some 1001%Z;
              Task.flow_id := None |} /\
    running_tasks (runtime st') = [] /\
    workers (database st') !! py "worker-1" = Some worker' /\
    Worker.status worker' = WorkerStatus.idle /\
    Worker.last_seen_at worker' = 1001%Z.
Proof.
  exact (created_task_gets_its_result posix_join SHIMS
           RuntimeFacts.sample_utcnow Config.defaults new_service
           (py "worker-1") RuntimeFacts.sample_worker claude_task
           (py "task-9") accepted accepted (py "run_claude_task.sh")
           RuntimeFacts.START_LINE RuntimeFacts.ok_payload
           RuntimeFacts.END_LINE
           (VDict [(py "status", VStr (py "ok"));
                   (py "summary", VStr (py "done"))],
            TaskStatus.completed, VNone)
           ltac:(vm_compute; reflexivity) ltac:(vm_compute; reflexivity)
           ltac:(intros rt H; vm_compute in H; discriminate H)
           ltac:(discriminate) eq_refl eq_refl
           RuntimeFacts.start_line_is_start
           (RuntimeFacts.payload_lines RuntimeFacts.ok_payload eq_refl)
           RuntimeFacts.end_line_is_end ltac:(vm_compute; reflexivity)).
Defined.

Lemma create_task_unsent_witness :
  exists effects message svc' rt worker',
    create_task posix_join SHIMS RuntimeFacts.sample_utcnow Config.defaults
      new_service (py "worker-1") claude_task (py "task-9") no_server
      accepted
    = (effects, inl (Tmux (TmuxCommandError message)), svc') /\
    tasks (storage svc') !! py "task-9"
    = Some (new_task RuntimeFacts.sample_utcnow new_service (py "worker-1")
              claude_task (py "task-9")) /\
    workers (storage svc') !! py "worker-1" = Some worker' /\
    Worker.status worker' = WorkerStatus.busy /\
    registry svc' !! py "worker-1" = Some rt /\
    last (running_tasks rt) = Some (py "task-9") /\
    List.filter is_tmux_call effects
    = [TmuxCalled
         (send_keys (controller rt)
            (command_of posix_join SHIMS (py "run_claude_task.sh")
               (py "task-9")))].
Proof.
  exact (create_task_unsent posix_join SHIMS RuntimeFacts.sample_utcnow
           Config.defaults new_service (py "worker-1")
           RuntimeFacts.sample_worker claude_task (py "task-9") no_server
           accepted (py "run_claude_task.sh")
           ltac:(vm_compute; reflexivity) ltac:(vm_compute; reflexivity)
           ltac:(discriminate)).
Defined.

End TaskRunnerFacts.
